(** * mcp-image-placer: validation and URL composition

    A shallow embedding of the validator, the two provider URL builders, the
    builder factory and the generator of the placeholder-image server
    (src/core/validator.ts, src/core/urlBuilders/*.ts,
    src/core/placeholderGenerator.ts), of the constraints read from the
    environment (src/config/index.ts), of the level filter of the console
    logger (src/utils/logger.ts) and of the legacy entry point
    (src/index.ts), followed by the properties of the specification that
    concern them and by further properties of the code. *)

From Stdlib Require Import ZArith List Bool Ascii String DecimalString Lia.
Import ListNotations.

Local Open Scope string_scope.
Local Open Scope Z_scope.

(** ** JavaScript values and the string primitives the code relies on *)

Module Js.

(** Run-time values.  Strings are UTF-8 text.  [VInt z] is the number whose
    value is the integer [z]; [VFloat repr] is a number that is neither an
    integer nor NaN (a fraction or an infinity), kept with the text
    JavaScript prints for it, since the code only tests and prints such
    numbers.  [VObject] is any non-null object. *)
Inductive jsval : Type :=
| VUndefined
| VNull
| VBool (b : bool)
| VInt (z : Z)
| VNaN
| VFloat (repr : string)
| VStr (s : string)
| VObject.

(** ToBoolean. *)
Definition truthy (v : jsval) : bool :=
  match v with
  | VUndefined | VNull | VNaN => false
  | VBool b => b
  | VInt z => negb (z =? 0)
  | VFloat _ => true
  | VStr s => negb (s =? EmptyString)%string
  | VObject => true
  end.

(** [typeof v]. *)
Definition typeof (v : jsval) : string :=
  match v with
  | VUndefined => "undefined"
  | VNull | VObject => "object"
  | VBool _ => "boolean"
  | VInt _ | VNaN | VFloat _ => "number"
  | VStr _ => "string"
  end.

(** [a === b]; two objects are never taken to be the same object. *)
Definition strict_eq (a b : jsval) : bool :=
  match a, b with
  | VUndefined, VUndefined => true
  | VNull, VNull => true
  | VBool x, VBool y => Bool.eqb x y
  | VInt x, VInt y => x =? y
  | VFloat x, VFloat y => (x =? y)%string
  | VStr x, VStr y => (x =? y)%string
  | _, _ => false
  end.

(** [a || b]. *)
Definition or_else (a b : jsval) : jsval := if truthy a then a else b.

(** [Number.isInteger(v)]. *)
Definition isInteger (v : jsval) : bool :=
  match v with VInt _ => true | _ => false end.

(** [isNaN(v)] for a value that is already known to be a number. *)
Definition isNaN (v : jsval) : bool :=
  match v with VNaN => true | _ => false end.

(** [v < n] and [v > n] against an integer.  The code reaches a comparison
    only after [Number.isInteger(v)], so no other value needs an order. *)
Definition lt (v : jsval) (n : Z) : bool :=
  match v with VInt z => z <? n | _ => false end.
Definition gt (v : jsval) (n : Z) : bool :=
  match v with VInt z => z >? n | _ => false end.

Definition showZ (z : Z) : string := NilZero.string_of_int (Z.to_int z).

(** The text a template literal prints for a value.  Integers print in
    decimal, as JavaScript does below 1e21; from 1e21 on JavaScript prints
    an exponent (1e+21), which this function does not do: a property that
    depends on the printed text of a number the code does not bound is
    stated for integers below 1e21 ([printsInDecimal] below). *)
Definition toString (v : jsval) : string :=
  match v with
  | VUndefined => "undefined"
  | VNull => "null"
  | VBool true => "true"
  | VBool false => "false"
  | VInt z => showZ z
  | VNaN => "NaN"
  | VFloat repr => repr
  | VStr s => s
  | VObject => "[object Object]"
  end.

(** Truthiness of an optional string property. *)
Definition truthyS (s : option string) : bool :=
  match s with
  | Some (String _ _) => true
  | _ => false
  end.

(** The string under a truthy optional property, the empty string else. *)
Definition strOf (s : option string) : string :=
  match s with Some t => t | None => EmptyString end.

(** [list.includes(s)] on an array of strings. *)
Definition includes (l : list string) (s : string) : bool :=
  existsb (String.eqb s) l.

Definition includesV (l : list string) (v : jsval) : bool :=
  match v with VStr s => includes l s | _ => false end.

(** [list.push(s)], as a value. *)
Definition push (l : list string) (s : string) : list string :=
  (l ++ [s])%list.

(** [list.join(sep)]. *)
Definition join (sep : string) (l : list string) : string :=
  String.concat sep l.

(** [s.replace(/c/g, r)] for a one-character pattern. *)
Fixpoint replaceAll (c : ascii) (r : string) (s : string) : string :=
  match s with
  | EmptyString => EmptyString
  | String a t =>
      if Ascii.eqb a c then (r ++ replaceAll c r t)%string
      else String a (replaceAll c r t)
  end.

(** [s.replace(c, r)] with a string pattern of one character: only the
    first occurrence is replaced. *)
Fixpoint replaceFirst (c : ascii) (r : string) (s : string) : string :=
  match s with
  | EmptyString => EmptyString
  | String a t =>
      if Ascii.eqb a c then (r ++ t)%string
      else String a (replaceFirst c r t)
  end.

Definition code (a : ascii) : N := N_of_ascii a.

(** [s.toLowerCase()], as far as a comparison with ASCII words can tell:
    the letters A-Z are lowered and the Kelvin sign (U+212A, bytes E2 84 AA)
    becomes "k"; every other character outside ASCII stays outside ASCII. *)
Definition lowerAscii (a : ascii) : ascii :=
  let n := code a in
  if ((65 <=? n) && (n <=? 90))%N then ascii_of_N (n + 32) else a.

Fixpoint toLowerCase (s : string) : string :=
  match s with
  | EmptyString => EmptyString
  | String a t =>
      match t with
      | String b (String c u) =>
          if ((code a =? 226) && (code b =? 132) && (code c =? 170))%N
          then String "k" (toLowerCase u)
          else String (lowerAscii a) (toLowerCase t)
      | _ => String (lowerAscii a) (toLowerCase t)
      end
  end.

Definition isHexDigit (a : ascii) : bool :=
  let n := code a in
  (((48 <=? n) && (n <=? 57)) || ((65 <=? n) && (n <=? 70))
   || ((97 <=? n) && (n <=? 102)))%N.

Fixpoint allChars (p : ascii -> bool) (s : string) : bool :=
  match s with
  | EmptyString => true
  | String a t => p a && allChars p t
  end.

(** One-byte white space and line terminators: TAB, LF, VT, FF, CR, SP. *)
Definition isSpace1 (a : ascii) : bool :=
  let n := code a in (((9 <=? n) && (n <=? 13)) || (n =? 32))%N.

(** U+00A0 as the bytes C2 A0. *)
Definition isSpace2 (a b : ascii) : bool :=
  ((code a =? 194) && (code b =? 160))%N.

(** U+1680, U+2000-U+200A, U+2028, U+2029, U+202F, U+205F, U+3000 and
    U+FEFF in UTF-8. *)
Definition isSpace3 (a b c : ascii) : bool :=
  let x := code a in let y := code b in let z := code c in
  (((x =? 225) && (y =? 154) && (z =? 128))
   || ((x =? 226) && (y =? 128)
       && (((128 <=? z) && (z <=? 138)) || (z =? 168) || (z =? 169)
           || (z =? 175)))
   || ((x =? 226) && (y =? 129) && (z =? 159))
   || ((x =? 227) && (y =? 128) && (z =? 128))
   || ((x =? 239) && (y =? 187) && (z =? 191)))%N.

(** [s.trim().length === 0]: the text holds nothing but white space. *)
Fixpoint trimIsEmpty (s : string) : bool :=
  match s with
  | EmptyString => true
  | String a t =>
      if isSpace1 a then trimIsEmpty t
      else
        match t with
        | String b u =>
            if isSpace2 a b then trimIsEmpty u
            else
              match u with
              | String c w => if isSpace3 a b c then trimIsEmpty w else false
              | EmptyString => false
              end
        | EmptyString => false
        end
  end.

Definition hexChar (n : N) : ascii :=
  if (n <? 10)%N then ascii_of_N (48 + n) else ascii_of_N (55 + n).

(** Characters [encodeURIComponent] leaves alone: A-Z a-z 0-9 - _ . ! ~ * ' ( ). *)
Definition isUnreserved (a : ascii) : bool :=
  let n := code a in
  (((48 <=? n) && (n <=? 57)) || ((65 <=? n) && (n <=? 90))
   || ((97 <=? n) && (n <=? 122))
   || (n =? 45) || (n =? 95) || (n =? 46) || (n =? 33) || (n =? 126)
   || (n =? 42) || (n =? 39) || (n =? 40) || (n =? 41))%N.

(** [encodeURIComponent(s)] on a well-formed string: every byte of the
    UTF-8 text outside the unreserved set becomes [%XX].  JavaScript's
    throws a URIError on a string with an unpaired surrogate; such a string
    has no UTF-8 text, and a property that depends on the call is stated
    for well-formed text ([JsText.wellFormed] below). *)
Fixpoint encodeURIComponent (s : string) : string :=
  match s with
  | EmptyString => EmptyString
  | String a t =>
      if isUnreserved a then String a (encodeURIComponent t)
      else String "%" (String (hexChar (code a / 16))
                         (String (hexChar (code a mod 16))
                            (encodeURIComponent t)))
  end.

End Js.

Import Js.

(** ** Data model (src/types/index.ts) *)

(** Options of the placehold.co provider.  The builder calls string methods
    on these properties without testing their type, so they keep their
    declared type: an optional string. *)
Module PlaceholdOptions.
Record t : Type := mk {
  format : option string;
  backgroundColor : option string;
  textColor : option string;
  customText : option string;
  font : option string;
  retina : option string
}.

(** [options?.f]. *)
Definition get (f : t -> option string) (options : option t) : option string :=
  match options with
  | Some o => f o
  | None => None
  end.

(** The same options with another [customText]. *)
Definition withCustomText (text : option string) (o : t) : t :=
  mk (format o) (backgroundColor o) (textColor o) text (font o) (retina o).
End PlaceholdOptions.

(** Options of the picsum.photos provider.  Every property is tested at run
    time before it is used (truthiness, [!== undefined], [Number.isInteger],
    [typeof]), so each is a run-time value, [VUndefined] when absent. *)
Module PicsumOptions.
Record t : Type := mk {
  format : jsval;
  imageId : jsval;
  seed : jsval;
  grayscale : jsval;
  blur : jsval;
  random : jsval
}.

(** [options?.f]. *)
Definition get (f : t -> jsval) (options : option t) : jsval :=
  match options with
  | Some o => f o
  | None => VUndefined
  end.
End PicsumOptions.

Record ValidationConstraints : Type := {
  minWidth : Z;
  maxWidth : Z;
  minHeight : Z;
  maxHeight : Z;
  supportedProviders : list string
}.

(** The request.  The validator receives provider, width and height as
    [unknown] and inspects their run-time type, so they are run-time values;
    an absent height is [VUndefined]. *)
Module Params.
Record t : Type := mk {
  provider : jsval;
  width : jsval;
  height : jsval;
  placeholdOptions : option PlaceholdOptions.t;
  picsumOptions : option PicsumOptions.t
}.
End Params.

Record Dimensions : Type := { dim_width : jsval; dim_height : jsval }.

Record AppliedOptions : Type := {
  applied_placehold : option PlaceholdOptions.t;
  applied_picsum : option PicsumOptions.t
}.

Module Result.
Record t : Type := mk {
  url : string;
  provider : jsval;
  dimensions : Dimensions;
  appliedOptions : AppliedOptions
}.
End Result.

(** ** Errors (src/errors/index.ts) *)

(** The offending value a validation error carries. *)
Inductive errorValue : Type :=
| EValue (v : jsval)
| EPlaceholdOptions (o : PlaceholdOptions.t)
| EPicsumOptions (o : PicsumOptions.t).

(** [ValidationError(field, value, constraints)] and
    [ProviderError(provider, message, context)]; the only context the code
    ever attaches is a list of supported providers. *)
Inductive error : Type :=
| ValidationError (field : string) (value : errorValue) (constraints : string)
| ProviderError (provider : jsval) (message : string)
                (supported : option (list string)).

(** ** Results, the log and the heap *)

Inductive result (A : Type) : Type :=
| Ok (a : A)
| Throw (e : error).
Arguments Ok {A} a.
Arguments Throw {A} e.

Definition bindR {A B : Type} (r : result A) (k : A -> result B) : result B :=
  match r with
  | Ok a => k a
  | Throw e => Throw e
  end.

Notation "x <-? r ;; k" := (bindR r (fun x => k))
  (at level 61, r at next level, right associativity).
Notation "r ;;? k" := (bindR r (fun _ => k))
  (at level 61, right associativity).

(** [if (c) throw e]. *)
Definition throwIf (c : bool) (e : error) : result unit :=
  if c then Throw e else Ok tt.

Inductive LogLevel : Type := LDebug | LInfo | LWarn | LError.

Inductive metaValue : Type :=
| MValue (v : jsval)
| MText (s : string)
| MFlag (b : bool)
| MParams (p : Params.t)
| MPlacehold (o : option PlaceholdOptions.t)
| MPicsum (o : option PicsumOptions.t).

(** One call of a [Logger] method. *)
Record LogEntry : Type := {
  log_level : LogLevel;
  log_message : string;
  log_error : option error;
  log_meta : list (string * metaValue)
}.

(** The state the core can reach: the constraint set the validator holds and
    the records handed to the logger so far. *)
Record Heap : Type := {
  constraints : ValidationConstraints;
  logged : list LogEntry
}.

Definition Eff (A : Type) : Type := Heap -> result A * Heap.

Definition ret {A : Type} (a : A) : Eff A := fun h => (Ok a, h).

Definition throw {A : Type} (e : error) : Eff A := fun h => (Throw e, h).

Definition bind {A B : Type} (m : Eff A) (k : A -> Eff B) : Eff B :=
  fun h =>
    match m h with
    | (Ok a, h') => k a h'
    | (Throw e, h') => (Throw e, h')
    end.

Notation "x <- m ;; k" := (bind m (fun x => k))
  (at level 61, m at next level, right associativity).
Notation "m ;;; k" := (bind m (fun _ => k))
  (at level 61, right associativity).

Definition lift {A : Type} (r : result A) : Eff A := fun h => (r, h).

(** [try { m } catch (error) { handler error }]. *)
Definition tryCatch {A : Type} (m : Eff A) (handler : error -> Eff A) : Eff A :=
  fun h =>
    match m h with
    | (Ok a, h') => (Ok a, h')
    | (Throw e, h') => handler e h'
    end.

Definition readConstraints : Eff ValidationConstraints :=
  fun h => (Ok (constraints h), h).

Module Logger.
Definition emit (e : LogEntry) : Eff unit :=
  fun h => (Ok tt, {| constraints := constraints h;
                      logged := (logged h ++ [e])%list |}).

Definition debug (message : string) (meta : list (string * metaValue)) : Eff unit :=
  emit {| log_level := LDebug; log_message := message;
          log_error := None; log_meta := meta |}.

Definition info (message : string) (meta : list (string * metaValue)) : Eff unit :=
  emit {| log_level := LInfo; log_message := message;
          log_error := None; log_meta := meta |}.

Definition error (message : string) (err : error)
           (meta : list (string * metaValue)) : Eff unit :=
  emit {| log_level := LError; log_message := message;
          log_error := Some err; log_meta := meta |}.
End Logger.

(** ** BaseUrlBuilder (urlBuilders/BaseUrlBuilder.ts) *)

(** A builder object: its base URL.  Its logger is the one sink of the heap. *)
Record UrlBuilder : Type := { baseUrl : string }.

Module BaseUrlBuilder.

Definition validateDimensions (width height : jsval) : result unit :=
  throwIf (negb (isInteger width) || lt width 10 || gt width 4000)
    (ValidationError "width" (EValue width)
       "Width must be an integer between 10 and 4000") ;;?
  if negb (strict_eq height VUndefined) then
    throwIf (negb (isInteger height) || lt height 10 || gt height 4000)
      (ValidationError "height" (EValue height)
         "Height must be an integer between 10 and 4000")
  else Ok tt.

(** [/^#?([A-Fa-f0-9]{6}|[A-Fa-f0-9]{3})$/.test(color)]. *)
Definition isValidHexColor (color : string) : bool :=
  let digits :=
    match color with
    | String a t => if Ascii.eqb a "#" then t else color
    | EmptyString => color
    end in
  (Nat.eqb (String.length digits) 6 || Nat.eqb (String.length digits) 3)
  && allChars isHexDigit digits.

Definition cssColors : list string :=
  [ "black"; "white"; "red"; "green"; "blue"; "yellow"; "orange"; "purple";
    "pink"; "brown"; "gray"; "grey"; "cyan"; "magenta"; "lime"; "maroon";
    "navy"; "olive"; "silver"; "teal"; "aqua"; "fuchsia"; "transparent" ].

Definition isValidCssColor (color : string) : bool :=
  includes cssColors (toLowerCase color).

Definition isValidColor (color : string) : bool :=
  (color =? "transparent")%string
  || isValidHexColor color || isValidCssColor color.

Definition newline : ascii := ascii_of_N 10.

(** [text.replace(/ /g, '+').replace(/\n/g, '\\n')]: the second replacement
    text is a backslash followed by the letter n. *)
Definition encodeText (text : string) : string :=
  replaceAll newline "\n" (replaceAll " " "+" text).

End BaseUrlBuilder.

(** ** PlaceholdUrlBuilder (urlBuilders/PlaceholdUrlBuilder.ts) *)

Module PlaceholdUrlBuilder.
Import BaseUrlBuilder PlaceholdOptions.

Definition supportedFormats : list string :=
  [ "svg"; "png"; "jpeg"; "gif"; "webp"; "avif" ].

Definition supportedFonts : list string :=
  [ "lato"; "lora"; "montserrat"; "noto-sans"; "open-sans"; "oswald";
    "playfair-display"; "poppins"; "pt-sans"; "raleway"; "roboto";
    "source-sans-pro" ].

Definition retinaFormats : list string :=
  [ "png"; "jpeg"; "gif"; "webp"; "avif" ].

(** The double-quote character of the messages. *)
Definition quote : string := String (ascii_of_N 34) EmptyString.

(** [a || 'missing'] inside the message of the colour-pair error. *)
Definition orMissing (s : option string) : string :=
  if truthyS s then strOf s else "missing".

Definition validateOptions (options : option t) : result bool :=
  match options with
  | None => Ok true
  | Some o =>
      throwIf (truthyS (format o)
               && negb (includes supportedFormats (strOf (format o))))
        (ValidationError "format" (EValue (VStr (strOf (format o))))
           ("Format must be one of: " ++ join ", " supportedFormats)) ;;?
      throwIf (truthyS (retina o) && truthyS (format o)
               && negb (includes retinaFormats (strOf (format o))))
        (ValidationError "retina"
           (EValue (VStr (strOf (retina o) ++ " with " ++ strOf (format o))))
           ("Retina scaling is only supported for: "
            ++ join ", " retinaFormats)) ;;?
      (if truthyS (backgroundColor o) || truthyS (textColor o) then
         throwIf (negb (truthyS (backgroundColor o))
                  || negb (truthyS (textColor o)))
           (ValidationError "colors"
              (EValue (VStr ("bg: " ++ orMissing (backgroundColor o)
                             ++ ", text: " ++ orMissing (textColor o))))
              "Both backgroundColor and textColor must be specified together") ;;?
         throwIf (negb (isValidColor (strOf (backgroundColor o))))
           (ValidationError "backgroundColor"
              (EValue (VStr (strOf (backgroundColor o))))
              ("Invalid color format (use hex codes, CSS color names, or "
               ++ quote ++ "transparent" ++ quote ++ ")")) ;;?
         throwIf (negb (isValidColor (strOf (textColor o))))
           (ValidationError "textColor"
              (EValue (VStr (strOf (textColor o))))
              "Invalid color format (use hex codes or CSS color names)")
       else Ok tt) ;;?
      throwIf (truthyS (font o)
               && negb (includes supportedFonts (strOf (font o))))
        (ValidationError "font" (EValue (VStr (strOf (font o))))
           ("Font must be one of: " ++ join ", " supportedFonts)) ;;?
      throwIf (truthyS (retina o)
               && negb (includes ["2x"; "3x"] (strOf (retina o))))
        (ValidationError "retina" (EValue (VStr (strOf (retina o))))
           ("Retina must be " ++ quote ++ "2x" ++ quote ++ " or "
            ++ quote ++ "3x" ++ quote)) ;;?
      Ok true
  end.

(** The body of [buildUrl] between the validation and the log record: the
    URL, appended to component by component. *)
Definition composeUrl (this : UrlBuilder) (width height : jsval)
           (options : option t) : string :=
  let url := baseUrl this in
  (* Size component *)
  let url := url ++ "/" ++ toString width in
  let url :=
    if truthy height && negb (strict_eq height width)
    then url ++ "x" ++ toString height else url in
  (* Retina scaling *)
  let url :=
    if truthyS (get retina options)
    then url ++ "@" ++ strOf (get retina options) else url in
  (* Colors (both must be specified together) *)
  let url :=
    if truthyS (get backgroundColor options)
       && truthyS (get textColor options)
    then url ++ "/" ++ strOf (get backgroundColor options)
             ++ "/" ++ strOf (get textColor options)
    else url in
  (* Format extension *)
  let url :=
    if truthyS (get format options)
       && negb (strOf (get format options) =? "svg")%string
    then url ++ "." ++ strOf (get format options) else url in
  (* Query parameters *)
  let queryParams : list string := [] in
  let queryParams :=
    if truthyS (get customText options)
    then push queryParams
           ("text=" ++ encodeText (strOf (get customText options)))
    else queryParams in
  let queryParams :=
    if truthyS (get font options)
       && negb (strOf (get font options) =? "lato")%string
    then push queryParams
           ("font=" ++ replaceFirst "-" "+" (strOf (get font options)))
    else queryParams in
  let url :=
    if (0 <? Z.of_nat (List.length queryParams))
    then url ++ "?" ++ join "&" queryParams else url in
  url.

Definition buildUrl (this : UrlBuilder) (width height : jsval)
           (options : option t) : Eff string :=
  lift (validateDimensions width height) ;;;
  match options with
  | Some _ => lift (validateOptions options)
  | None => ret true
  end ;;;
  let effectiveHeight := or_else height width in
  let url := composeUrl this width height options in
  Logger.debug "Built placehold.co URL"
    [ ("width", MValue width); ("height", MValue effectiveHeight);
      ("options", MPlacehold options); ("url", MText url) ] ;;;
  ret url.

End PlaceholdUrlBuilder.

(** ** PicsumUrlBuilder (urlBuilders/PicsumUrlBuilder.ts) *)

Module PicsumUrlBuilder.
Import BaseUrlBuilder PicsumOptions.

Definition supportedFormats : list string := [ "jpg"; "webp" ].

Definition validateOptions (options : option t) : result bool :=
  match options with
  | None => Ok true
  | Some o =>
      (* Validate format *)
      throwIf (truthy (format o) && negb (includesV supportedFormats (format o)))
        (ValidationError "format" (EValue (format o))
           ("Format must be one of: " ++ join ", " supportedFormats)) ;;?
      (* Validate image ID *)
      (if negb (strict_eq (imageId o) VUndefined) then
         throwIf (negb (isInteger (imageId o)) || lt (imageId o) 0)
           (ValidationError "imageId" (EValue (imageId o))
              "Image ID must be a non-negative integer")
       else Ok tt) ;;?
      (* Validate seed *)
      (if negb (strict_eq (seed o) VUndefined) then
         throwIf (negb (typeof (seed o) =? "string")%string
                  || trimIsEmpty (toString (seed o)))
           (ValidationError "seed" (EValue (seed o))
              "Seed must be a non-empty string")
       else Ok tt) ;;?
      (* Validate blur *)
      (if negb (strict_eq (blur o) VUndefined) then
         throwIf (negb (isInteger (blur o)) || lt (blur o) 1 || gt (blur o) 10)
           (ValidationError "blur" (EValue (blur o))
              "Blur must be an integer between 1 and 10")
       else Ok tt) ;;?
      (* Validate random *)
      (if negb (strict_eq (random o) VUndefined) then
         throwIf (negb (isInteger (random o)) || lt (random o) 0)
           (ValidationError "random" (EValue (random o))
              "Random must be a non-negative integer")
       else Ok tt) ;;?
      (* Validate mutually exclusive options *)
      throwIf (negb (strict_eq (imageId o) VUndefined)
               && negb (strict_eq (seed o) VUndefined))
        (ValidationError "options"
           (EValue (VStr "imageId and seed both specified"))
           "Cannot specify both imageId and seed - they are mutually exclusive") ;;?
      Ok true
  end.

(** The body of [buildUrl] between the validation and the log record. *)
Definition composeUrl (this : UrlBuilder) (width height : jsval)
           (options : option t) : string :=
  let url := baseUrl this in
  (* ID or seed prefix *)
  let url :=
    if truthy (get imageId options)
    then url ++ "/id/" ++ toString (get imageId options)
    else if truthy (get seed options)
    then url ++ "/seed/" ++ encodeURIComponent (toString (get seed options))
    else url in
  (* Dimensions *)
  let url := url ++ "/" ++ toString width in
  let url :=
    if truthy height && negb (strict_eq height width)
    then url ++ "/" ++ toString height else url in
  (* Format extension *)
  let url :=
    if truthy (get format options)
    then url ++ "." ++ toString (get format options) else url in
  (* Query parameters for effects *)
  let queryParams : list string := [] in
  let queryParams :=
    if truthy (get grayscale options)
    then push queryParams "grayscale" else queryParams in
  let queryParams :=
    if negb (strict_eq (get blur options) VUndefined) then
      if strict_eq (get blur options) (VInt 0)
         || strict_eq (get blur options) (VInt 1)
      then push queryParams "blur"
      else push queryParams ("blur=" ++ toString (get blur options))
    else queryParams in
  let queryParams :=
    if negb (strict_eq (get random options) VUndefined)
    then push queryParams ("random=" ++ toString (get random options))
    else queryParams in
  let url :=
    if (0 <? Z.of_nat (List.length queryParams))
    then url ++ "?" ++ join "&" queryParams else url in
  url.

Definition buildUrl (this : UrlBuilder) (width height : jsval)
           (options : option t) : Eff string :=
  lift (validateDimensions width height) ;;;
  match options with
  | Some _ => lift (validateOptions options)
  | None => ret true
  end ;;;
  let effectiveHeight := or_else height width in
  let url := composeUrl this width height options in
  Logger.debug "Built picsum.photos URL"
    [ ("width", MValue width); ("height", MValue effectiveHeight);
      ("options", MPicsum options); ("url", MText url) ] ;;;
  ret url.

End PicsumUrlBuilder.

(** ** UrlBuilderFactory (urlBuilders/UrlBuilderFactory.ts) *)

Module UrlBuilderFactory.

(** What reading [PROVIDER_CONFIGS[key]] gives: the base URL of one of the
    two own keys, a member inherited from [Object.prototype] (truthy, and
    not a base URL), or [undefined]. *)
Inductive lookup : Type :=
| Own (baseUrl : string)
| Inherited
| Missing.

Definition objectPrototypeKeys : list string :=
  [ "constructor"; "hasOwnProperty"; "isPrototypeOf"; "propertyIsEnumerable";
    "toLocaleString"; "toString"; "valueOf"; "__proto__";
    "__defineGetter__"; "__defineSetter__"; "__lookupGetter__";
    "__lookupSetter__" ].

Definition PROVIDER_CONFIGS (key : string) : lookup :=
  if (key =? "placehold")%string then Own "https://placehold.co"
  else if (key =? "lorem-picsum")%string then Own "https://picsum.photos"
  else if includes objectPrototypeKeys key then Inherited
  else Missing.

(** [Object.keys(PROVIDER_CONFIGS)]. *)
Definition getSupportedProviders : list string :=
  [ "placehold"; "lorem-picsum" ].

(** The class of the builder [createBuilder] returns. *)
Inductive builderClass : Type := Placehold | Picsum.

Definition noBuilder (provider : jsval) : error :=
  ProviderError provider
    ("No URL builder implemented for provider: " ++ toString provider)
    (Some getSupportedProviders).

(** The [switch] compares with [===]; an inherited member is found only
    under a key that is neither case label, so it reaches [default]. *)
Definition createBuilder (provider : jsval)
  : result (builderClass * UrlBuilder) :=
  match PROVIDER_CONFIGS (toString provider) with
  | Missing =>
      Throw (ProviderError provider
               ("Unsupported provider: " ++ toString provider)
               (Some getSupportedProviders))
  | Own base =>
      if strict_eq provider (VStr "placehold")
      then Ok (Placehold, {| baseUrl := base |})
      else if strict_eq provider (VStr "lorem-picsum")
      then Ok (Picsum, {| baseUrl := base |})
      else Throw (noBuilder provider)
  | Inherited => Throw (noBuilder provider)
  end.

Definition getProviderBaseUrl (provider : string) : lookup :=
  PROVIDER_CONFIGS provider.

End UrlBuilderFactory.

(** ** PlaceholderValidator (core/validator.ts) *)

Module PlaceholderValidator.

Definition validateProvider (cs : ValidationConstraints) (provider : jsval)
  : result unit :=
  throwIf (negb (truthy provider) || negb (typeof provider =? "string")%string)
    (ValidationError "provider" (EValue provider) "Must be a non-empty string") ;;?
  throwIf (negb (includesV (supportedProviders cs) provider))
    (ProviderError provider
       ("Unsupported provider. Supported providers: "
        ++ join ", " (supportedProviders cs))
       None).

Inductive dimensionName : Type := Width | Height.

Definition nameOf (d : dimensionName) : string :=
  match d with Width => "width" | Height => "height" end.

Definition validateDimension (cs : ValidationConstraints)
           (name : dimensionName) (value : jsval) : result unit :=
  throwIf (negb (typeof value =? "number")%string || isNaN value
           || negb (isInteger value))
    (ValidationError (nameOf name) (EValue value) "Must be a positive integer") ;;?
  let minConstraint :=
    match name with Width => minWidth cs | Height => minHeight cs end in
  let maxConstraint :=
    match name with Width => maxWidth cs | Height => maxHeight cs end in
  throwIf (lt value minConstraint || gt value maxConstraint)
    (ValidationError (nameOf name) (EValue value)
       ("Must be between " ++ showZ minConstraint ++ " and "
        ++ showZ maxConstraint ++ " pixels")).

Definition validateProviderOptions (params : Params.t) : result unit :=
  match Params.picsumOptions params with
  | Some o =>
      throwIf (strict_eq (Params.provider params) (VStr "placehold"))
        (ValidationError "picsumOptions" (EPicsumOptions o)
           "Cannot use picsum options with placehold provider")
  | None => Ok tt
  end ;;?
  match Params.placeholdOptions params with
  | Some o =>
      throwIf (strict_eq (Params.provider params) (VStr "lorem-picsum"))
        (ValidationError "placeholdOptions" (EPlaceholdOptions o)
           "Cannot use placehold options with lorem-picsum provider")
  | None => Ok tt
  end.

(** [params] is a request object, so the first guard of the method (not an
    object) is not taken. *)
Definition validateParams (cs : ValidationConstraints) (params : Params.t)
  : result unit :=
  validateProvider cs (Params.provider params) ;;?
  validateDimension cs Width (Params.width params) ;;?
  (if negb (strict_eq (Params.height params) VUndefined)
   then validateDimension cs Height (Params.height params)
   else Ok tt) ;;?
  validateProviderOptions params.

Definition getConstraints : Eff ValidationConstraints := readConstraints.

(** [Partial<ValidationConstraints>]. *)
Record partialConstraints : Type := {
  newMinWidth : option Z;
  newMaxWidth : option Z;
  newMinHeight : option Z;
  newMaxHeight : option Z;
  newSupportedProviders : option (list string)
}.

Definition override {A : Type} (old : A) (new : option A) : A :=
  match new with Some a => a | None => old end.

Definition updateConstraints (newConstraints : partialConstraints) : Eff unit :=
  fun h =>
    let cs := constraints h in
    (Ok tt,
     {| constraints :=
          {| minWidth := override (minWidth cs) (newMinWidth newConstraints);
             maxWidth := override (maxWidth cs) (newMaxWidth newConstraints);
             minHeight := override (minHeight cs) (newMinHeight newConstraints);
             maxHeight := override (maxHeight cs) (newMaxHeight newConstraints);
             supportedProviders :=
               override (supportedProviders cs)
                 (newSupportedProviders newConstraints) |};
        logged := logged h |}).

End PlaceholderValidator.

(** ** PlaceholderGenerator (core/placeholderGenerator.ts) *)

Module PlaceholderGenerator.
Import UrlBuilderFactory.

Definition isSome {A : Type} (o : option A) : bool :=
  match o with Some _ => true | None => false end.

(** The call [urlBuilder.buildUrl] of each branch is resolved to the class
    the factory returns for that provider (lemma [createBuilder_class]). *)
Definition generatePlaceholder (params : Params.t) : Eff Result.t :=
  Logger.debug "Generating placeholder image" [ ("params", MParams params) ] ;;;
  (* Validate basic parameters *)
  cs <- readConstraints ;;
  lift (PlaceholderValidator.validateParams cs params) ;;;
  tryCatch
    (urlBuilder <- lift (createBuilder (Params.provider params)) ;;
     let effectiveHeight :=
       or_else (Params.height params) (Params.width params) in
     url <-
       (if strict_eq (Params.provider params) (VStr "placehold") then
          PlaceholdUrlBuilder.buildUrl (snd urlBuilder)
            (Params.width params) (Params.height params)
            (Params.placeholdOptions params)
        else if strict_eq (Params.provider params) (VStr "lorem-picsum") then
          PicsumUrlBuilder.buildUrl (snd urlBuilder)
            (Params.width params) (Params.height params)
            (Params.picsumOptions params)
        else
          throw (ProviderError (Params.provider params)
                   "Unsupported provider" None)) ;;
     let result :=
       {| Result.url := url;
          Result.provider := Params.provider params;
          Result.dimensions :=
            {| dim_width := Params.width params;
               dim_height := effectiveHeight |};
          Result.appliedOptions :=
            {| applied_placehold := Params.placeholdOptions params;
               applied_picsum := Params.picsumOptions params |} |} in
     Logger.info "Placeholder image generated successfully"
       [ ("provider", MValue (Params.provider params));
         ("dimensions",
          MText (toString (Params.width params) ++ "x"
                 ++ toString effectiveHeight));
         ("url", MText url);
         ("hasOptions",
          MFlag (isSome (Params.placeholdOptions params)
                 || isSome (Params.picsumOptions params))) ] ;;;
     ret result)
    (fun error =>
       Logger.error "Failed to generate placeholder image" error
         [ ("params", MParams params) ] ;;;
       throw error).

End PlaceholderGenerator.

(** ** Configuration (config/index.ts) *)

Definition DEFAULT_CONSTRAINTS : ValidationConstraints :=
  {| minWidth := 1;
     maxWidth := 10000;
     minHeight := 1;
     maxHeight := 10000;
     supportedProviders := [ "placehold"; "lorem-picsum" ] |}.

(** A heap with the default constraints and an empty log. *)
Definition initialHeap : Heap :=
  {| constraints := DEFAULT_CONSTRAINTS; logged := [] |}.

(** ** Vocabulary of the properties *)

(** The builders the factory creates. *)
Definition placeholdBuilder : UrlBuilder := {| baseUrl := "https://placehold.co" |}.
Definition picsumBuilder : UrlBuilder := {| baseUrl := "https://picsum.photos" |}.

(** The value a call returns (or the error it throws) and the heap it leaves. *)
Definition valueOf {A : Type} (m : Eff A) (h : Heap) : result A := fst (m h).
Definition heapAfter {A : Type} (m : Eff A) (h : Heap) : Heap := snd (m h).

Definition heapOf (cs : ValidationConstraints) (l : list LogEntry) : Heap :=
  {| constraints := cs; logged := l |}.

Definition succeeds {A : Type} (r : result A) : Prop := exists a, r = Ok a.

Definition failsValidation {A : Type} (r : result A) : Prop :=
  exists field value text, r = Throw (ValidationError field value text).

(** A property is given when it is not [undefined]. *)
Definition given (v : jsval) : bool := negb (strict_eq v VUndefined).

Definition nonEmptyString (v : jsval) : Prop :=
  exists a s, v = VStr (String a s).

(** An integer argument, or none. *)
Definition optInt (z : option Z) : jsval :=
  match z with Some n => VInt n | None => VUndefined end.

(** The bounds the builders put on a dimension, and on an optional one. *)
Definition builderRange (z : Z) : Prop := 10 <= z <= 4000.

Definition builderRangeOpt (z : option Z) : Prop :=
  match z with Some n => builderRange n | None => True end.

Definition isQuestionMark (a : ascii) : bool := Ascii.eqb a "?".

Definition noQuestionMark (s : string) : bool :=
  allChars (fun a => negb (isQuestionMark a)) s.

(** The query string of a URL: what follows its first question mark. *)
Fixpoint queryOf (url : string) : option string :=
  match url with
  | EmptyString => None
  | String a t => if isQuestionMark a then Some t else queryOf t
  end.

(** A call behaves as a function of its arguments and of the constraint set:
    under given constraints it returns one result and appends one sequence of
    log records, whatever was logged before, and it leaves the constraints
    as they are. *)
Definition functional {A : Type} (m : Eff A) : Prop :=
  forall cs : ValidationConstraints,
  exists (r : result A) (entries : list LogEntry),
    forall l : list LogEntry,
      m (heapOf cs l) = (r, heapOf cs (l ++ entries)%list).

(** A call that does not even read the constraints. *)
Definition pureValue {A : Type} (m : Eff A) : Prop :=
  exists r : result A, forall h : Heap, valueOf m h = r.

Module Examples.

(** The full combination of the documentation. *)
Definition fullCombination : PlaceholdOptions.t :=
  PlaceholdOptions.mk (Some "png") (Some "f9fafb") (Some "2563eb")
    (Some "DeepakNess") (Some "playfair-display") (Some "2x").

Definition formatAndRetina (format retina : option string) : PlaceholdOptions.t :=
  PlaceholdOptions.mk format None None None None retina.

Definition fontOnly (font : string) : PlaceholdOptions.t :=
  PlaceholdOptions.mk None None None None (Some font) None.

Definition imageIdOnly (id : jsval) : PicsumOptions.t :=
  PicsumOptions.mk VUndefined id VUndefined VUndefined VUndefined VUndefined.


Definition effects (grayscale blur random : jsval) : PicsumOptions.t :=
  PicsumOptions.mk VUndefined VUndefined VUndefined grayscale blur random.

Definition request (provider : string) (width : Z) (height : option Z) : Params.t :=
  Params.mk (VStr provider) (VInt width) (optInt height) None None.

(** The initial heap after [updateConstraints({ maxWidth: 5000 })]. *)
Definition relaxedHeap : Heap :=
  heapAfter
    (PlaceholderValidator.updateConstraints
       {| PlaceholderValidator.newMinWidth := None;
          PlaceholderValidator.newMaxWidth := Some 5000;
          PlaceholderValidator.newMinHeight := None;
          PlaceholderValidator.newMaxHeight := None;
          PlaceholderValidator.newSupportedProviders := None |})
    initialHeap.

End Examples.

(** What [PlaceholdUrlBuilder.composeUrl] appends after the width, one part
    per component of the grammar
    [{base}/{width}[x{height}][@{retina}][/{bg}/{text}][.{format}][?{query}]]. *)
Module Shape.
Import PlaceholdOptions.

(** [sep{height}], when a height is given and differs from the width. *)
Definition heightPart (sep : string) (width height : jsval) : string :=
  if given height && negb (strict_eq height width)
  then sep ++ toString height else EmptyString.

Definition retinaPart (o : option t) : string :=
  if truthyS (get retina o) then "@" ++ strOf (get retina o) else EmptyString.

Definition colorPart (o : option t) : string :=
  if truthyS (get backgroundColor o) && truthyS (get textColor o)
  then "/" ++ strOf (get backgroundColor o) ++ "/" ++ strOf (get textColor o)
  else EmptyString.

Definition formatPart (o : option t) : string :=
  if truthyS (get format o) && negb (strOf (get format o) =? "svg")%string
  then "." ++ strOf (get format o) else EmptyString.

Definition textParam (o : option t) : list string :=
  if truthyS (get customText o)
  then [ "text=" ++ BaseUrlBuilder.encodeText (strOf (get customText o)) ]
  else [].

Definition fontParam (o : option t) : list string :=
  if truthyS (get font o) && negb (strOf (get font o) =? "lato")%string
  then [ "font=" ++ replaceFirst "-" "+" (strOf (get font o)) ]
  else [].

(** [?p1&p2...], nothing for an empty list. *)
Definition queryPart (params : list string) : string :=
  match params with
  | [] => EmptyString
  | _ :: _ => "?" ++ join "&" params
  end.

Definition placeholdSuffix (o : option t) : string :=
  retinaPart o ++ colorPart o ++ formatPart o
  ++ queryPart (textParam o ++ fontParam o)%list.

End Shape.

(** The effects of a picsum URL as the specification words them. *)
Module Spec.
Import PicsumOptions.

(** [grayscale], a bare flag. *)
Definition grayscaleEffect (o : t) : list string :=
  if truthy (grayscale o) then [ "grayscale" ] else [].

(** Bare [blur] for 1, [blur={n}] for another value. *)
Definition blurEffect (o : t) : list string :=
  match blur o with
  | VUndefined => []
  | VInt 1 => [ "blur" ]
  | n => [ "blur=" ++ toString n ]
  end.

(** [random={n}] whenever random is defined. *)
Definition randomEffect (o : t) : list string :=
  match random o with
  | VUndefined => []
  | n => [ "random=" ++ toString n ]
  end.

(** The present effects in the order grayscale, blur, random. *)
Definition effects (o : t) : list string :=
  (grayscaleEffect o ++ blurEffect o ++ randomEffect o)%list.


(** Blur is absent or an integer from 1 to 10. *)
Definition blurInRange (o : t) : Prop :=
  blur o = VUndefined \/ exists n, blur o = VInt n /\ 1 <= n <= 10.

End Spec.

(** The facts a passed option validation leaves about placehold options. *)
Record placeholdValid (o : PlaceholdOptions.t) : Prop := {
  valid_format :
    truthyS (PlaceholdOptions.format o) = true ->
    includes PlaceholdUrlBuilder.supportedFormats
      (strOf (PlaceholdOptions.format o)) = true;
  valid_retina :
    truthyS (PlaceholdOptions.retina o) = true ->
    includes ["2x"; "3x"] (strOf (PlaceholdOptions.retina o)) = true;
  valid_retina_format :
    truthyS (PlaceholdOptions.retina o) = true ->
    truthyS (PlaceholdOptions.format o) = true ->
    includes PlaceholdUrlBuilder.retinaFormats
      (strOf (PlaceholdOptions.format o)) = true;
  valid_pair :
    truthyS (PlaceholdOptions.backgroundColor o)
    = truthyS (PlaceholdOptions.textColor o);
  valid_background :
    truthyS (PlaceholdOptions.backgroundColor o) = true ->
    BaseUrlBuilder.isValidColor (strOf (PlaceholdOptions.backgroundColor o)) = true;
  valid_text :
    truthyS (PlaceholdOptions.textColor o) = true ->
    BaseUrlBuilder.isValidColor (strOf (PlaceholdOptions.textColor o)) = true;
  valid_font :
    truthyS (PlaceholdOptions.font o) = true ->
    includes PlaceholdUrlBuilder.supportedFonts
      (strOf (PlaceholdOptions.font o)) = true
}.

(** The facts a passed option validation leaves about picsum options. *)
Record picsumValid (o : PicsumOptions.t) : Prop := {
  valid_picsum_format :
    truthy (PicsumOptions.format o) = true ->
    includesV PicsumUrlBuilder.supportedFormats (PicsumOptions.format o) = true;
  valid_imageId :
    PicsumOptions.imageId o = VUndefined
    \/ exists n, PicsumOptions.imageId o = VInt n /\ 0 <= n;
  valid_seed :
    PicsumOptions.seed o = VUndefined
    \/ exists s, PicsumOptions.seed o = VStr s /\ trimIsEmpty s = false;
  valid_blur : Spec.blurInRange o;
  valid_random :
    PicsumOptions.random o = VUndefined
    \/ exists n, PicsumOptions.random o = VInt n /\ 0 <= n;
  valid_exclusive :
    PicsumOptions.imageId o = VUndefined \/ PicsumOptions.seed o = VUndefined
}.

(** ** More of the JavaScript library: parseInt and substring replacement *)

Module JsText.

(** The text without its leading white space and line terminators (the set
    [trim] removes). *)
Fixpoint skipWhiteSpace (s : string) : string :=
  match s with
  | EmptyString => EmptyString
  | String a t =>
      if isSpace1 a then skipWhiteSpace t
      else
        match t with
        | String b u =>
            if isSpace2 a b then skipWhiteSpace u
            else
              match u with
              | String c w => if isSpace3 a b c then skipWhiteSpace w else s
              | EmptyString => s
              end
        | EmptyString => s
        end
  end.

Definition isDigit (a : ascii) : bool :=
  ((48 <=? code a) && (code a <=? 57))%N.

Definition digitValue (a : ascii) : Z := Z.of_N (code a) - 48.

(** The value of the longest prefix of decimal digits, read after [acc]. *)
Fixpoint readDigits (acc : Z) (s : string) : Z :=
  match s with
  | EmptyString => acc
  | String a t =>
      if isDigit a then readDigits (acc * 10 + digitValue a) t else acc
  end.

(** An optional sign, then at least one digit, then anything. *)
Definition parseSigned (s : string) : jsval :=
  let (negative, digits) :=
    match s with
    | String a t =>
        if Ascii.eqb a "-" then (true, t)
        else if Ascii.eqb a "+" then (false, t)
        else (false, s)
    | EmptyString => (false, s)
    end in
  match digits with
  | String d _ =>
      if isDigit d
      then VInt (if negative then - readDigits 0 digits else readDigits 0 digits)
      else VNaN
  | EmptyString => VNaN
  end.

(** [parseInt(s, 10)].  The digits give their exact integer value, as
    JavaScript does up to 2^53; above, JavaScript rounds to the nearest
    double, which this function does not do. *)
Definition parseInt10 (s : string) : jsval := parseSigned (skipWhiteSpace s).

(** The text after its first [n] characters. *)
Fixpoint drop (n : nat) (s : string) : string :=
  match n, s with
  | O, _ => s
  | S k, String _ t => drop k t
  | S _, EmptyString => EmptyString
  end.

(** [s.replace(pattern, replacement)] with a string pattern and a replacement
    text that holds no dollar sign: the first occurrence is replaced. *)
Fixpoint replaceFirstSub (pattern replacement s : string) : string :=
  if String.prefix pattern s
  then replacement ++ drop (String.length pattern) s
  else
    match s with
    | EmptyString => EmptyString
    | String a t => String a (replaceFirstSub pattern replacement t)
    end.

(** Well-formed UTF-8 (the byte sequences of the Unicode standard, table
    3-7): the text of a string without unpaired surrogates.  A byte
    sequence that would encode a surrogate (ED A0..BF ..), an overlong form
    or a value above U+10FFFF is refused. *)
Definition between (lo hi : N) (a : ascii) : bool :=
  ((lo <=? code a) && (code a <=? hi))%N.

Definition continuation (a : ascii) : bool := between 128 191 a.

(** The second byte of a three-byte sequence that starts with [a]. *)
Definition secondOfThree (a b : ascii) : bool :=
  if (code a =? 224)%N then between 160 191 b
  else if (code a =? 237)%N then between 128 159 b
  else continuation b.

(** The second byte of a four-byte sequence that starts with [a]. *)
Definition secondOfFour (a b : ascii) : bool :=
  if (code a =? 240)%N then between 144 191 b
  else if (code a =? 244)%N then between 128 143 b
  else continuation b.

Fixpoint wellFormed (s : string) : bool :=
  match s with
  | EmptyString => true
  | String a t =>
      if between 0 127 a then wellFormed t
      else
        match t with
        | EmptyString => false
        | String b u =>
            if between 194 223 a then continuation b && wellFormed u
            else
              match u with
              | EmptyString => false
              | String c v =>
                  if between 224 239 a
                  then secondOfThree a b && continuation c && wellFormed v
                  else
                    match v with
                    | EmptyString => false
                    | String d w =>
                        between 240 244 a && secondOfFour a b
                        && continuation c && continuation d && wellFormed w
                    end
              end
        end
  end.

End JsText.

(** ** Configuration from the environment (config/index.ts, the text of
    unnamed/part_007) *)

Module Config.
Import JsText.

(** [process.env]. *)
Definition Env : Type := string -> option string.

(** A value, or the [ConfigurationError(setting, value, expectedFormat)]
    thrown instead. *)
Inductive outcome (A : Type) : Type :=
| Configured (a : A)
| ConfigurationError (setting value expectedFormat : string).
Arguments Configured {A} a.
Arguments ConfigurationError {A} setting value expectedFormat.

Definition andThen {A B : Type} (r : outcome A) (k : A -> outcome B) : outcome B :=
  match r with
  | Configured a => k a
  | ConfigurationError s v f => ConfigurationError s v f
  end.

(** One of the four blocks of [getEnvironmentConstraints]: the bound an
    environment variable sets, none when the variable is unset or empty. *)
Definition readBound (env : Env) (name : string) : outcome (option Z) :=
  if truthyS (env name) then
    let parsed := parseInt10 (strOf (env name)) in
    if isNaN parsed || lt parsed 1
    then ConfigurationError name (strOf (env name)) "Positive integer >= 1"
    else
      match parsed with
      | VInt z => Configured (Some z)
      | _ => Configured None
      end
  else Configured None.

Definition getEnvironmentConstraints (env : Env)
  : outcome PlaceholderValidator.partialConstraints :=
  andThen (readBound env "MCP_MIN_WIDTH") (fun minW =>
  andThen (readBound env "MCP_MAX_WIDTH") (fun maxW =>
  andThen (readBound env "MCP_MIN_HEIGHT") (fun minH =>
  andThen (readBound env "MCP_MAX_HEIGHT") (fun maxH =>
  Configured
    {| PlaceholderValidator.newMinWidth := minW;
       PlaceholderValidator.newMaxWidth := maxW;
       PlaceholderValidator.newMinHeight := minH;
       PlaceholderValidator.newMaxHeight := maxH;
       PlaceholderValidator.newSupportedProviders := None |})))).

(** [{ ...constraints, ...partial }]. *)
Definition spread (cs : ValidationConstraints)
           (partial : PlaceholderValidator.partialConstraints)
  : ValidationConstraints :=
  {| minWidth :=
       PlaceholderValidator.override (minWidth cs)
         (PlaceholderValidator.newMinWidth partial);
     maxWidth :=
       PlaceholderValidator.override (maxWidth cs)
         (PlaceholderValidator.newMaxWidth partial);
     minHeight :=
       PlaceholderValidator.override (minHeight cs)
         (PlaceholderValidator.newMinHeight partial);
     maxHeight :=
       PlaceholderValidator.override (maxHeight cs)
         (PlaceholderValidator.newMaxHeight partial);
     supportedProviders :=
       PlaceholderValidator.override (supportedProviders cs)
         (PlaceholderValidator.newSupportedProviders partial) |}.

Definition createValidationConstraints (env : Env)
  : outcome ValidationConstraints :=
  andThen (getEnvironmentConstraints env) (fun envConstraints =>
  let constraints := spread DEFAULT_CONSTRAINTS envConstraints in
  (* Validate constraint relationships *)
  if minWidth constraints >? maxWidth constraints then
    ConfigurationError "width constraints"
      ("min: " ++ showZ (minWidth constraints)
       ++ ", max: " ++ showZ (maxWidth constraints))
      "minWidth must be <= maxWidth"
  else if minHeight constraints >? maxHeight constraints then
    ConfigurationError "height constraints"
      ("min: " ++ showZ (minHeight constraints)
       ++ ", max: " ++ showZ (maxHeight constraints))
      "minHeight must be <= maxHeight"
  else Configured constraints).

Record providerEntry : Type := { entryBaseUrl : string; urlTemplate : string }.

(** [DEFAULT_PROVIDER_CONFIG[provider]], which [createProviderConfig]
    returns; the validator lets no other key reach it. *)
Definition DEFAULT_PROVIDER_CONFIG (provider : string) : option providerEntry :=
  if (provider =? "placehold")%string then
    Some {| entryBaseUrl := "https://placehold.co";
            urlTemplate := "{baseUrl}/{width}x{height}" |}
  else if (provider =? "lorem-picsum")%string then
    Some {| entryBaseUrl := "https://picsum.photos";
            urlTemplate := "{baseUrl}/{width}/{height}" |}
  else None.

Definition createProviderConfig : string -> option providerEntry :=
  DEFAULT_PROVIDER_CONFIG.

(** An environment that sets nothing. *)
Definition emptyEnv : Env := fun _ => None.

End Config.

(** ** The legacy entry point (index.ts: [image_placeholder], whose text
    follows the tests in tests/unit/errors.test.ts) *)

Module Legacy.
Import JsText.

(** What a call of [image_placeholder] does: it returns a URL, or throws
    a configuration error, an error of the validator, the plain error of a
    provider without configuration, or the type error of calling
    [toString] on a height that is not there. *)
Inductive outcome : Type :=
| Returned (url : string)
| ConfigurationFailed (setting value expectedFormat : string)
| Thrown (e : error)
| InvalidProvider (provider : jsval)
| TypeErrorThrown.

Definition image_placeholder (env : Config.Env) (provider width height : jsval)
  : outcome :=
  match Config.createValidationConstraints env with
  | Config.ConfigurationError s v f => ConfigurationFailed s v f
  | Config.Configured constraints =>
      (* Validate and generate synchronously for backward compatibility *)
      match PlaceholderValidator.validateParams constraints
              (Params.mk provider width height None None) with
      | Throw e => Thrown e
      | Ok _ =>
          match Config.createProviderConfig (toString provider) with
          | None => InvalidProvider provider
          | Some config =>
              match height with
              | VUndefined | VNull => TypeErrorThrown
              | _ =>
                  Returned
                    (replaceFirstSub "{height}" (toString height)
                       (replaceFirstSub "{width}" (toString width)
                          (replaceFirstSub "{baseUrl}" (Config.entryBaseUrl config)
                             (Config.urlTemplate config))))
              end
          end
      end
  end.

End Legacy.

(** ** The console logger (utils/logger.ts, the text of unnamed/part_002) *)

Module ConsoleLogger.

(** The table [levels] of [shouldLog]. *)
Definition levels (level : LogLevel) : Z :=
  match level with
  | LDebug => 0
  | LInfo => 1
  | LWarn => 2
  | LError => 3
  end.

Definition shouldLog (logLevel level : LogLevel) : bool :=
  levels level >=? levels logLevel.

(** The calls of the logger that reach the console, in their order: each
    method prints exactly when [shouldLog] accepts its level. *)
Definition printed (logLevel : LogLevel) (calls : list LogEntry) : list LogEntry :=
  filter (fun e => shouldLog logLevel (log_level e)) calls.

End ConsoleLogger.

(** ** Vocabulary of the further properties *)

(** The range in which the embedding prints and encodes as JavaScript does.
    An integer below 1e21 in magnitude is printed in plain decimal. *)
Definition printsInDecimal (v : jsval) : bool :=
  match v with
  | VInt z => Z.abs z <? 10 ^ 21
  | _ => true
  end.

(** A seed [encodeURIComponent] accepts: not a string, or well-formed text. *)
Definition encodable (v : jsval) : bool :=
  match v with
  | VStr s => JsText.wellFormed s
  | _ => true
  end.

(** Picsum options whose image id and random value print in decimal and
    whose seed can be encoded.  The option check bounds neither number from
    above and looks at the seed's type and blankness only. *)
Definition plainOptions (o : PicsumOptions.t) : bool :=
  printsInDecimal (PicsumOptions.imageId o)
  && printsInDecimal (PicsumOptions.random o)
  && encodable (PicsumOptions.seed o).

Definition plainRequest (options : option PicsumOptions.t) : bool :=
  match options with
  | Some o => plainOptions o
  | None => true
  end.

(** Bounds up to 2^53: [parseInt] reads them exactly, and every dimension
    within them prints in decimal. *)
Definition exactBounds (cs : ValidationConstraints) : Prop :=
  maxWidth cs <= 2 ^ 53 /\ maxHeight cs <= 2 ^ 53.

(** What the validator asks of a request under a constraint set. *)
Record acceptable (cs : ValidationConstraints) (params : Params.t) : Prop := {
  acceptable_provider :
    exists a s,
      Params.provider params = VStr (String a s)
      /\ includes (supportedProviders cs) (String a s) = true;
  acceptable_width :
    exists w, Params.width params = VInt w /\ minWidth cs <= w <= maxWidth cs;
  acceptable_height :
    Params.height params = VUndefined
    \/ exists h, Params.height params = VInt h
                 /\ minHeight cs <= h <= maxHeight cs;
  acceptable_picsum :
    Params.provider params = VStr "placehold" ->
    Params.picsumOptions params = None;
  acceptable_placehold :
    Params.provider params = VStr "lorem-picsum" ->
    Params.placeholdOptions params = None
}.

(** Two partial updates in one: the fields of [later] where it has them, the
    fields of [earlier] elsewhere. *)
Definition orElse {A : Type} (later earlier : option A) : option A :=
  match later with Some a => Some a | None => earlier end.

Definition mergePartial (later earlier : PlaceholderValidator.partialConstraints)
  : PlaceholderValidator.partialConstraints :=
  {| PlaceholderValidator.newMinWidth :=
       orElse (PlaceholderValidator.newMinWidth later)
         (PlaceholderValidator.newMinWidth earlier);
     PlaceholderValidator.newMaxWidth :=
       orElse (PlaceholderValidator.newMaxWidth later)
         (PlaceholderValidator.newMaxWidth earlier);
     PlaceholderValidator.newMinHeight :=
       orElse (PlaceholderValidator.newMinHeight later)
         (PlaceholderValidator.newMinHeight earlier);
     PlaceholderValidator.newMaxHeight :=
       orElse (PlaceholderValidator.newMaxHeight later)
         (PlaceholderValidator.newMaxHeight earlier);
     PlaceholderValidator.newSupportedProviders :=
       orElse (PlaceholderValidator.newSupportedProviders later)
         (PlaceholderValidator.newSupportedProviders earlier) |}.

(** The records a call appends to the log. *)
Definition appends {A : Type} (m : Eff A) (h : Heap) (entries : list LogEntry)
  : Prop :=
  heapAfter m h = heapOf (constraints h) (logged h ++ entries)%list.

(** A log record of a level that mentions a URL in its [url] field. *)
Definition recordOf (level : LogLevel) (url : string) (e : LogEntry) : Prop :=
  log_level e = level /\ log_error e = None
  /\ In ("url", MText url) (log_meta e).

(** The error record of the generator for a failure. *)
Definition failureRecord (params : Params.t) (err : error) (e : LogEntry)
  : Prop :=
  log_level e = LError /\ log_error e = Some err
  /\ log_meta e = [ ("params", MParams params) ].

Definition isProvider (v : jsval) : Prop :=
  v = VStr "placehold" \/ v = VStr "lorem-picsum".

(** The characters a valid colour can hold: ASCII letters and digits, the
    hash sign, and the three bytes of the Kelvin sign, which lower-casing
    turns into the letter k. *)
Definition isAlphaNum (a : ascii) : bool :=
  let n := code a in
  (((48 <=? n) && (n <=? 57)) || ((65 <=? n) && (n <=? 90))
   || ((97 <=? n) && (n <=? 122)))%N.

Definition colourChar (a : ascii) : bool :=
  let n := code a in
  (isAlphaNum a || (n =? 35) || (n =? 226) || (n =? 132) || (n =? 170))%N.

(** Neither a space nor a line feed. *)
Definition plainChar (a : ascii) : bool :=
  negb (Ascii.eqb a " ") && negb (Ascii.eqb a BaseUrlBuilder.newline).

(** The characters of a percent-encoded path segment. *)
Definition segmentChar (a : ascii) : bool :=
  isUnreserved a || Ascii.eqb a "%".

(** The characters of a URL that needs no further encoding: the unreserved
    ones and the delimiters the builders write. *)
Definition urlChar (a : ascii) : bool :=
  isUnreserved a
  || includes [ "%"; "/"; ":"; "?"; "&"; "=" ] (String a EmptyString).

(** The same placehold options with another [format], or another [font]. *)
Definition withFormat (format : option string) (o : PlaceholdOptions.t)
  : PlaceholdOptions.t :=
  PlaceholdOptions.mk format (PlaceholdOptions.backgroundColor o)
    (PlaceholdOptions.textColor o) (PlaceholdOptions.customText o)
    (PlaceholdOptions.font o) (PlaceholdOptions.retina o).

Definition withFont (font : option string) (o : PlaceholdOptions.t)
  : PlaceholdOptions.t :=
  PlaceholdOptions.mk (PlaceholdOptions.format o)
    (PlaceholdOptions.backgroundColor o) (PlaceholdOptions.textColor o)
    (PlaceholdOptions.customText o) font (PlaceholdOptions.retina o).

(** The field a validation error is about. *)
Definition errorField (e : error) : option string :=
  match e with
  | ValidationError field _ _ => Some field
  | ProviderError _ _ _ => None
  end.

(** The four environment variables of the bounds. *)
Definition boundVariables : list string :=
  [ "MCP_MIN_WIDTH"; "MCP_MAX_WIDTH"; "MCP_MIN_HEIGHT"; "MCP_MAX_HEIGHT" ].

(** A variable that is unset or empty. *)
Definition unset (env : Config.Env) (name : string) : Prop :=
  truthyS (env name) = false.

(** The base URL of a provider and the separator of its two dimensions. *)
Definition baseOf (provider : string) : string :=
  if (provider =? "placehold")%string
  then "https://placehold.co" else "https://picsum.photos".

Definition separatorOf (provider : string) : string :=
  if (provider =? "placehold")%string then "x" else "/".

Definition noBrace (s : string) : bool :=
  allChars (fun a => negb (Ascii.eqb a "{")) s.

(** ** Proof steps shared by the validation lemmas *)

(** Case analysis on the tests of the placehold option validation. *)
Ltac split_atoms H :=
  repeat match type of H with
    | context [truthyS ?x] =>
        destruct (truthyS x) eqn:?;
        cbn [throwIf bindR andb orb negb] in H; try discriminate H
    | context [includes ?l ?x] =>
        destruct (includes l x) eqn:?;
        cbn [throwIf bindR andb orb negb] in H; try discriminate H
    | context [BaseUrlBuilder.isValidColor ?x] =>
        destruct (BaseUrlBuilder.isValidColor x) eqn:?;
        cbn [throwIf bindR andb orb negb] in H; try discriminate H
    end.

(** Case analysis on the numeric and white-space tests of a validation. *)
Ltac split_tests H :=
  repeat match type of H with
    | context [?a <? ?b] =>
        is_var a; destruct (a <? b) eqn:?; cbn in H; try discriminate H
    | context [?a >? ?b] =>
        is_var a; destruct (a >? b) eqn:?; cbn in H; try discriminate H
    | context [trimIsEmpty ?s] =>
        is_var s; destruct (trimIsEmpty s) eqn:?; cbn in H; try discriminate H
    end.

(** ** Running the effectful calls *)

Section Running.

Lemma heapOf_eta (h : Heap) : heapOf (constraints h) (logged h) = h.
Proof. destruct h; reflexivity. Qed.

Lemma placehold_validate_any (options : option PlaceholdOptions.t) (h : Heap) :
  match options with
  | Some _ => lift (PlaceholdUrlBuilder.validateOptions options)
  | None => ret true
  end h = (PlaceholdUrlBuilder.validateOptions options, h).
Proof. destruct options; reflexivity. Qed.

Lemma picsum_validate_any (options : option PicsumOptions.t) (h : Heap) :
  match options with
  | Some _ => lift (PicsumUrlBuilder.validateOptions options)
  | None => ret true
  end h = (PicsumUrlBuilder.validateOptions options, h).
Proof. destruct options; reflexivity. Qed.

(** What the placehold builder returns, as a pure expression. *)
Lemma placehold_buildUrl_value this width height options h :
  valueOf (PlaceholdUrlBuilder.buildUrl this width height options) h =
  (BaseUrlBuilder.validateDimensions width height ;;?
   PlaceholdUrlBuilder.validateOptions options ;;?
   Ok (PlaceholdUrlBuilder.composeUrl this width height options)).
Proof.
  unfold valueOf, PlaceholdUrlBuilder.buildUrl, bind, lift.
  destruct (BaseUrlBuilder.validateDimensions width height); [|reflexivity].
  rewrite placehold_validate_any.
  destruct (PlaceholdUrlBuilder.validateOptions options); reflexivity.
Qed.

Lemma picsum_buildUrl_value this width height options h :
  valueOf (PicsumUrlBuilder.buildUrl this width height options) h =
  (BaseUrlBuilder.validateDimensions width height ;;?
   PicsumUrlBuilder.validateOptions options ;;?
   Ok (PicsumUrlBuilder.composeUrl this width height options)).
Proof.
  unfold valueOf, PicsumUrlBuilder.buildUrl, bind, lift.
  destruct (BaseUrlBuilder.validateDimensions width height); [|reflexivity].
  rewrite picsum_validate_any.
  destruct (PicsumUrlBuilder.validateOptions options); reflexivity.
Qed.

End Running.

(** ** Strings *)

Section Strings.

Lemma append_assoc (a b c : string) : ((a ++ b) ++ c = a ++ (b ++ c))%string.
Proof. induction a as [|x a IH]; simpl; [reflexivity | now rewrite IH]. Qed.

Lemma append_empty_r (a : string) : (a ++ EmptyString)%string = a.
Proof. induction a as [|x a IH]; simpl; [reflexivity | now rewrite IH]. Qed.

Lemma allChars_app (p : ascii -> bool) (a b : string) :
  allChars p (a ++ b) = allChars p a && allChars p b.
Proof.
  induction a as [|x a IH]; simpl; [reflexivity|].
  now rewrite IH, andb_assoc.
Qed.

Lemma allChars_weaken (p q : ascii -> bool) (s : string) :
  (forall a, p a = true -> q a = true) ->
  allChars p s = true -> allChars q s = true.
Proof.
  intros Hpq. induction s as [|x s IH]; simpl; [reflexivity|].
  intros H. apply andb_true_iff in H as [Hx Hs].
  now rewrite (Hpq _ Hx), IH.
Qed.

Lemma noQuestionMark_app (a b : string) :
  noQuestionMark (a ++ b) = noQuestionMark a && noQuestionMark b.
Proof. apply allChars_app. Qed.

Lemma queryOf_app (p s : string) :
  noQuestionMark p = true -> queryOf (p ++ s) = queryOf s.
Proof.
  induction p as [|x p IH]; simpl; [reflexivity|].
  intros H. apply andb_true_iff in H as [Hx Hp].
  apply negb_true_iff in Hx. rewrite Hx. now apply IH.
Qed.


Lemma prefix_app (a b c : string) :
  String.prefix (a ++ b) (a ++ c) = String.prefix b c.
Proof.
  induction a as [|x a IH]; simpl; [reflexivity|].
  destruct (ascii_dec x x) as [_|n]; [exact IH | now elim n].
Qed.

(** Membership in a literal list of words passes a property of the words on. *)
Lemma includes_Forall (P : string -> Prop) (l : list string) (s : string) :
  Forall P l -> includes l s = true -> P s.
Proof.
  unfold includes. intros HP H.
  apply existsb_exists in H as [x [Hin Heq]].
  apply String.eqb_eq in Heq. subst x.
  now apply (proj1 (Forall_forall P l) HP).
Qed.

(** Decimal digits only, behind an optional sign. *)
Lemma noQuestionMark_uint (d : Decimal.uint) :
  noQuestionMark (NilEmpty.string_of_uint d) = true.
Proof. induction d; simpl; auto. Qed.

Lemma noQuestionMark_showZ (z : Z) : noQuestionMark (showZ z) = true.
Proof.
  unfold showZ, NilZero.string_of_int.
  destruct (Z.to_int z) as [d|d]; unfold NilZero.string_of_uint;
    destruct d; try reflexivity; apply noQuestionMark_uint.
Qed.



Lemma noQuestionMark_cons (a : ascii) (s : string) :
  noQuestionMark (String a s) = negb (isQuestionMark a) && noQuestionMark s.
Proof. reflexivity. Qed.


End Strings.

(** ** What validation establishes *)

Section Validation.

Lemma validateDimensions_ok (width height : jsval) :
  BaseUrlBuilder.validateDimensions width height = Ok tt <->
  (exists w, width = VInt w /\ 10 <= w <= 4000)
  /\ (height = VUndefined \/ exists h, height = VInt h /\ 10 <= h <= 4000).
Proof.
  unfold BaseUrlBuilder.validateDimensions. split.
  - intros H.
    destruct width; cbn in H; try discriminate H.
    destruct (z <? 10) eqn:E1; cbn in H; try discriminate H.
    destruct (z >? 4000) eqn:E2; cbn in H; try discriminate H.
    split; [exists z; split; [reflexivity|lia]|].
    destruct height; cbn in H; try discriminate H; [now left|].
    destruct (z0 <? 10) eqn:E3; cbn in H; try discriminate H.
    destruct (z0 >? 4000) eqn:E4; cbn in H; try discriminate H.
    right. exists z0. split; [reflexivity|lia].
  - intros [[w [-> Hw]] Hh]. cbn.
    replace (w <? 10) with false by lia.
    replace (w >? 4000) with false by lia. cbn.
    destruct Hh as [->|[h [-> Hh]]]; cbn; [reflexivity|].
    replace (h <? 10) with false by lia.
    replace (h >? 4000) with false by lia. reflexivity.
Qed.

(** A validated height is truthy exactly when it is given. *)
Lemma validated_height_truthy (width height : jsval) :
  BaseUrlBuilder.validateDimensions width height = Ok tt ->
  truthy height = given height.
Proof.
  intros H. apply validateDimensions_ok in H as [_ [->|[h [-> Hh]]]];
    [reflexivity|].
  cbn. destruct (Z.eqb_spec h 0); [lia|reflexivity].
Qed.

Lemma validated_height_or_else (width height : jsval) :
  BaseUrlBuilder.validateDimensions width height = Ok tt ->
  or_else height width = if given height then height else width.
Proof.
  intros H. unfold or_else. now rewrite (validated_height_truthy _ _ H).
Qed.

Lemma placehold_validateOptions_ok (o : PlaceholdOptions.t) :
  PlaceholdUrlBuilder.validateOptions (Some o) = Ok true <-> placeholdValid o.
Proof.
  unfold PlaceholdUrlBuilder.validateOptions. split.
  - intros H. split_atoms H; constructor; intros; congruence.
  - intros [Hf Hr Hrf Hp Hb Ht Hfo].
    destruct (truthyS (PlaceholdOptions.format o)) eqn:Ef;
    destruct (truthyS (PlaceholdOptions.retina o)) eqn:Er;
    destruct (truthyS (PlaceholdOptions.backgroundColor o)) eqn:Eb;
    destruct (truthyS (PlaceholdOptions.textColor o)) eqn:Et;
    destruct (truthyS (PlaceholdOptions.font o)) eqn:Efo;
    try discriminate Hp;
    repeat match goal with
      | H : true = true -> _ |- _ => specialize (H eq_refl)
      end;
    repeat match goal with
      | H : _ = true |- _ => rewrite H
      end;
    reflexivity.
Qed.

End Validation.

(** ** Colours, and the characters of a composed URL *)

Section Characters.

Lemma isQuestionMark_lowerAscii (a : ascii) :
  isQuestionMark (lowerAscii a) = isQuestionMark a.
Proof.
  destruct a as [[|] [|] [|] [|] [|] [|] [|] [|]]; reflexivity.
Qed.

Lemma code_not_question (a : ascii) (n : N) :
  (code a =? n)%N = true -> n <> 63%N -> isQuestionMark a = false.
Proof.
  intros H Hn. apply N.eqb_eq in H. unfold isQuestionMark.
  destruct (Ascii.eqb_spec a "?") as [->|]; [|reflexivity].
  now elim Hn; rewrite <- H.
Qed.

Lemma noQuestionMark_toLowerCase_bounded (n : nat) :
  forall s : string, (String.length s <= n)%nat ->
    noQuestionMark (toLowerCase s) = noQuestionMark s.
Proof.
  induction n as [|n IH]; intros s Hs.
  - destruct s; [reflexivity | cbn in Hs; lia].
  - destruct s as [|a t]; [reflexivity|].
    cbn in Hs.
    assert (Ht : noQuestionMark (toLowerCase t) = noQuestionMark t)
      by (apply IH; lia).
    assert (Hplain :
      noQuestionMark (String (lowerAscii a) (toLowerCase t))
      = noQuestionMark (String a t))
      by (now rewrite !noQuestionMark_cons, isQuestionMark_lowerAscii, Ht).
    destruct t as [|b [|c u]]; try exact Hplain.
    cbn [toLowerCase].
    destruct ((code a =? 226)%N && (code b =? 132)%N && (code c =? 170)%N)
      eqn:K; [|exact Hplain].
    apply andb_true_iff in K as [K Kc]. apply andb_true_iff in K as [Ka Kb].
    rewrite !noQuestionMark_cons.
    rewrite (code_not_question a _ Ka), (code_not_question b _ Kb),
      (code_not_question c _ Kc) by discriminate.
    cbn in Hs. rewrite IH by lia. reflexivity.
Qed.

Lemma noQuestionMark_toLowerCase (s : string) :
  noQuestionMark (toLowerCase s) = noQuestionMark s.
Proof. now apply (noQuestionMark_toLowerCase_bounded (String.length s)). Qed.

Lemma isHexDigit_not_question (a : ascii) :
  isHexDigit a = true -> negb (isQuestionMark a) = true.
Proof.
  unfold isQuestionMark. destruct (Ascii.eqb_spec a "?") as [->|]; [|reflexivity].
  vm_compute. discriminate.
Qed.

Lemma isValidHexColor_noQuestionMark (color : string) :
  BaseUrlBuilder.isValidHexColor color = true -> noQuestionMark color = true.
Proof.
  unfold BaseUrlBuilder.isValidHexColor. intros H.
  apply andb_true_iff in H as [_ H].
  apply (allChars_weaken _ _ _ isHexDigit_not_question) in H.
  destruct color as [|a t]; [reflexivity|].
  destruct (Ascii.eqb_spec a "#") as [->|]; [|exact H].
  rewrite noQuestionMark_cons. exact H.
Qed.

Lemma isValidColor_noQuestionMark (color : string) :
  BaseUrlBuilder.isValidColor color = true -> noQuestionMark color = true.
Proof.
  unfold BaseUrlBuilder.isValidColor. intros H.
  apply orb_true_iff in H as [H|H]; [apply orb_true_iff in H as [H|H]|].
  - apply String.eqb_eq in H. now subst color.
  - now apply isValidHexColor_noQuestionMark.
  - rewrite <- noQuestionMark_toLowerCase.
    apply (includes_Forall (fun w => noQuestionMark w = true)
             BaseUrlBuilder.cssColors); [|exact H].
    repeat constructor.
Qed.

End Characters.

(** ** The shape of the composed URLs *)

Section Shapes.

(** The placehold URL is the base, the width, the height part and a suffix
    that depends on the options alone. *)
Lemma placehold_composeUrl_shape this width height options :
  truthy height = given height ->
  PlaceholdUrlBuilder.composeUrl this width height options =
  baseUrl this ++ "/" ++ toString width ++ Shape.heightPart "x" width height
  ++ Shape.placeholdSuffix options.
Proof.
  intros Hh.
  unfold PlaceholdUrlBuilder.composeUrl, Shape.placeholdSuffix,
    Shape.heightPart, Shape.retinaPart, Shape.colorPart, Shape.formatPart,
    Shape.textParam, Shape.fontParam, Shape.queryPart, push.
  rewrite Hh.
  destruct (given height && negb (strict_eq height width));
  destruct (truthyS (PlaceholdOptions.get PlaceholdOptions.retina options));
  destruct (truthyS (PlaceholdOptions.get PlaceholdOptions.backgroundColor options)
            && truthyS (PlaceholdOptions.get PlaceholdOptions.textColor options));
  destruct (truthyS (PlaceholdOptions.get PlaceholdOptions.format options)
            && negb (strOf (PlaceholdOptions.get PlaceholdOptions.format options)
                     =? "svg")%string);
  destruct (truthyS (PlaceholdOptions.get PlaceholdOptions.customText options));
  destruct (truthyS (PlaceholdOptions.get PlaceholdOptions.font options)
            && negb (strOf (PlaceholdOptions.get PlaceholdOptions.font options)
                     =? "lato")%string);
  cbn [List.app List.length Z.of_nat Z.ltb Z.compare Pos.of_succ_nat];
  rewrite ?append_assoc, ?append_empty_r; reflexivity.
Qed.

(** The suffix never starts with the letter x. *)
Lemma placeholdSuffix_not_x options :
  String.prefix "x" (Shape.placeholdSuffix options) = false.
Proof.
  unfold Shape.placeholdSuffix, Shape.retinaPart, Shape.colorPart,
    Shape.formatPart, Shape.textParam, Shape.fontParam, Shape.queryPart.
  destruct (truthyS (PlaceholdOptions.get PlaceholdOptions.retina options));
    [reflexivity|].
  destruct (truthyS (PlaceholdOptions.get PlaceholdOptions.backgroundColor options)
            && truthyS (PlaceholdOptions.get PlaceholdOptions.textColor options));
    [reflexivity|].
  destruct (truthyS (PlaceholdOptions.get PlaceholdOptions.format options)
            && negb (strOf (PlaceholdOptions.get PlaceholdOptions.format options)
                     =? "svg")%string);
    [reflexivity|].
  destruct (truthyS (PlaceholdOptions.get PlaceholdOptions.customText options));
    [reflexivity|].
  destruct (truthyS (PlaceholdOptions.get PlaceholdOptions.font options)
            && negb (strOf (PlaceholdOptions.get PlaceholdOptions.font options)
                     =? "lato")%string);
    reflexivity.
Qed.

End Shapes.

(** ** What validation establishes about picsum options *)

Section PicsumValidation.

Lemma picsum_validateOptions_ok (o : PicsumOptions.t) :
  PicsumUrlBuilder.validateOptions (Some o) = Ok true <-> picsumValid o.
Proof.
  unfold PicsumUrlBuilder.validateOptions. split.
  - intros H.
    destruct (truthy (PicsumOptions.format o)
              && negb (includesV PicsumUrlBuilder.supportedFormats
                         (PicsumOptions.format o))) eqn:Ef;
      cbn [throwIf bindR] in H; [discriminate H|].
    destruct (PicsumOptions.imageId o) as [| |?|i| |?|?|] eqn:Ei;
      cbn in H; try discriminate H; split_tests H;
    (destruct (PicsumOptions.seed o) as [| |?|?| |?|s|] eqn:Es;
      cbn in H; try discriminate H; split_tests H);
    (destruct (PicsumOptions.blur o) as [| |?|b| |?|?|] eqn:Eb;
      cbn in H; try discriminate H; split_tests H);
    (destruct (PicsumOptions.random o) as [| |?|r| |?|?|] eqn:Er;
      cbn in H; try discriminate H; split_tests H).
    all: (constructor; unfold Spec.blurInRange; rewrite ?Ei, ?Es, ?Eb, ?Er;
     [ intros Ht; rewrite Ht in Ef; cbn in Ef;
       now apply negb_false_iff in Ef
     | first [now left | right; eexists; split; [reflexivity|lia]]
     | first [now left | right; eexists; split; [reflexivity|assumption]]
     | first [now left | right; eexists; split; [reflexivity|lia]]
     | first [now left | right; eexists; split; [reflexivity|lia]]
     | first [now left | now right] ]).
  - intros [Hf Hi Hs Hb Hr Hx].
    destruct (truthy (PicsumOptions.format o)) eqn:Ef;
      [rewrite (Hf eq_refl)|]; cbn [negb andb throwIf bindR];
    destruct Hi as [Ei|[i [Ei Hi]]];
    destruct Hs as [Es|[s [Es Hs]]];
    destruct Hb as [Eb|[b [Eb Hb]]];
    destruct Hr as [Er|[r [Er Hr]]];
    rewrite Ei, Es in Hx; rewrite Ei, Es, Eb, Er;
    (destruct Hx as [Hx|Hx]; try discriminate Hx);
    cbn; rewrite ?Hs;
    repeat match goal with
      | |- context [?x <? ?y] => replace (x <? y) with false by lia
      | |- context [?x >? ?y] => replace (x >? y) with false by lia
      end; reflexivity.
Qed.

End PicsumValidation.

(** ** Query strings *)

Section Queries.




(** Everything the placehold builder writes before the query is free of
    question marks, once dimensions and options are validated. *)
Lemma placehold_path_clean (width height : jsval)
      (options : option PlaceholdOptions.t) :
  BaseUrlBuilder.validateDimensions width height = Ok tt ->
  PlaceholdUrlBuilder.validateOptions options = Ok true ->
  noQuestionMark
    (baseUrl placeholdBuilder ++ "/" ++ toString width
     ++ Shape.heightPart "x" width height ++ Shape.retinaPart options
     ++ Shape.colorPart options ++ Shape.formatPart options) = true.
Proof.
  intros Hd Ho.
  apply validateDimensions_ok in Hd as [[w [-> Hw]] Hh].
  assert (Hheight : noQuestionMark (Shape.heightPart "x" (VInt w) height) = true).
  { unfold Shape.heightPart.
    destruct (given height && negb (strict_eq height (VInt w)));
      [|reflexivity].
    destruct Hh as [->|[h [-> _]]]; [reflexivity|].
    cbn [toString]. now rewrite noQuestionMark_app, noQuestionMark_showZ. }
  assert (Hparts : noQuestionMark (Shape.retinaPart options) = true
                   /\ noQuestionMark (Shape.colorPart options) = true
                   /\ noQuestionMark (Shape.formatPart options) = true).
  { destruct options as [o|]; [|repeat split; reflexivity].
    apply placehold_validateOptions_ok in Ho as [Hf Hr _ _ Hb Ht _].
    unfold Shape.retinaPart, Shape.colorPart, Shape.formatPart,
      PlaceholdOptions.get.
    repeat split.
    - destruct (truthyS (PlaceholdOptions.retina o)); [|reflexivity].
      rewrite noQuestionMark_app. cbn [noQuestionMark allChars andb].
      apply (includes_Forall (fun w => noQuestionMark w = true) ["2x"; "3x"]);
        [repeat constructor | now apply Hr].
    - destruct (truthyS (PlaceholdOptions.backgroundColor o)); [|reflexivity].
      destruct (truthyS (PlaceholdOptions.textColor o)); [|reflexivity].
      cbn [andb].
      rewrite !noQuestionMark_app, (isValidColor_noQuestionMark _ (Hb eq_refl)),
        (isValidColor_noQuestionMark _ (Ht eq_refl)). reflexivity.
    - destruct (truthyS (PlaceholdOptions.format o)); [|reflexivity].
      destruct (negb (strOf (PlaceholdOptions.format o) =? "svg")%string);
        [|reflexivity].
      cbn [andb]. rewrite noQuestionMark_app.
      cbn [noQuestionMark allChars andb].
      apply (includes_Forall (fun w => noQuestionMark w = true)
               PlaceholdUrlBuilder.supportedFormats);
        [repeat constructor | now apply Hf]. }
  destruct Hparts as [Hr [Hc Hf]].
  cbn [toString].
  now rewrite !noQuestionMark_app, noQuestionMark_showZ, Hheight, Hr, Hc, Hf.
Qed.

(** The query string of a placehold URL: the text parameter, then the font
    parameter. *)
Lemma placehold_query (width height : jsval)
      (options : option PlaceholdOptions.t) :
  BaseUrlBuilder.validateDimensions width height = Ok tt ->
  PlaceholdUrlBuilder.validateOptions options = Ok true ->
  queryOf (PlaceholdUrlBuilder.composeUrl placeholdBuilder width height options)
  = match (Shape.textParam options ++ Shape.fontParam options)%list with
    | [] => None
    | l => Some (join "&" l)
    end.
Proof.
  intros Hd Ho.
  rewrite placehold_composeUrl_shape
    by (now apply validated_height_truthy with (width := width)).
  unfold Shape.placeholdSuffix.
  pose proof (placehold_path_clean width height options Hd Ho) as Hclean.
  match type of Hclean with
  | noQuestionMark ?p = true =>
      match goal with
      | |- queryOf ?u = _ =>
          replace u with
            (p ++ Shape.queryPart
                    (Shape.textParam options ++ Shape.fontParam options)%list)
            by (now rewrite !append_assoc)
      end
  end.
  rewrite (queryOf_app _ _ Hclean).
  destruct (Shape.textParam options ++ Shape.fontParam options)%list;
    reflexivity.
Qed.

End Queries.

(** ** The generator *)

Section Generator.

(** The class and base URL the factory gives each provider. *)
Lemma createBuilder_class (provider : jsval) b :
  UrlBuilderFactory.createBuilder provider = Ok b ->
  (provider = VStr "placehold"
   /\ b = (UrlBuilderFactory.Placehold, placeholdBuilder))
  \/ (provider = VStr "lorem-picsum"
      /\ b = (UrlBuilderFactory.Picsum, picsumBuilder)).
Proof.
  unfold UrlBuilderFactory.createBuilder. intros H.
  destruct (strict_eq provider (VStr "placehold")) eqn:E1.
  - destruct provider; try discriminate E1. cbn in E1.
    apply String.eqb_eq in E1. subst s. cbn in H. injection H as <-. left. split; reflexivity.
  - destruct (strict_eq provider (VStr "lorem-picsum")) eqn:E2.
    + destruct provider; try discriminate E2. cbn in E2.
      apply String.eqb_eq in E2. subst s. cbn in H. injection H as <-. right. split; reflexivity.
    + destruct (UrlBuilderFactory.PROVIDER_CONFIGS (toString provider));
        discriminate H.
Qed.

(** What the generator returns, as a pure expression of the constraints
    held when it is called. *)
Lemma generatePlaceholder_value (params : Params.t) (h : Heap) :
  valueOf (PlaceholderGenerator.generatePlaceholder params) h =
  (PlaceholderValidator.validateParams (constraints h) params ;;?
   urlBuilder <-? UrlBuilderFactory.createBuilder (Params.provider params) ;;
   url <-?
     (if strict_eq (Params.provider params) (VStr "placehold") then
        valueOf (PlaceholdUrlBuilder.buildUrl (snd urlBuilder)
                   (Params.width params) (Params.height params)
                   (Params.placeholdOptions params)) h
      else if strict_eq (Params.provider params) (VStr "lorem-picsum") then
        valueOf (PicsumUrlBuilder.buildUrl (snd urlBuilder)
                   (Params.width params) (Params.height params)
                   (Params.picsumOptions params)) h
      else Throw (ProviderError (Params.provider params)
                    "Unsupported provider" None)) ;;
   Ok {| Result.url := url;
         Result.provider := Params.provider params;
         Result.dimensions :=
           {| dim_width := Params.width params;
              dim_height :=
                or_else (Params.height params) (Params.width params) |};
         Result.appliedOptions :=
           {| applied_placehold := Params.placeholdOptions params;
              applied_picsum := Params.picsumOptions params |} |}).
Proof.
  unfold valueOf at 1.
  unfold PlaceholderGenerator.generatePlaceholder, bind, tryCatch,
    lift, readConstraints, Logger.debug, Logger.info, Logger.error,
    Logger.emit, ret, throw.
  cbn [constraints fst snd].
  destruct (PlaceholderValidator.validateParams (constraints h) params);
    [|reflexivity].
  cbn [bindR].
  destruct (UrlBuilderFactory.createBuilder (Params.provider params))
    as [urlBuilder|e]; [|reflexivity].
  cbn [bindR].
  destruct (strict_eq (Params.provider params) (VStr "placehold")).
  - rewrite !placehold_buildUrl_value.
    match goal with
    | |- context [PlaceholdUrlBuilder.buildUrl ?b ?w ?hh ?o ?h'] =>
        pose proof (placehold_buildUrl_value b w hh o h') as Hv;
        unfold valueOf in Hv;
        destruct (PlaceholdUrlBuilder.buildUrl b w hh o h') as [r h'']
    end.
    cbn [fst] in Hv. rewrite <- Hv. destruct r; reflexivity.
  - destruct (strict_eq (Params.provider params) (VStr "lorem-picsum")).
    + rewrite !picsum_buildUrl_value.
      match goal with
      | |- context [PicsumUrlBuilder.buildUrl ?b ?w ?hh ?o ?h'] =>
          pose proof (picsum_buildUrl_value b w hh o h') as Hv;
          unfold valueOf in Hv;
          destruct (PicsumUrlBuilder.buildUrl b w hh o h') as [r h'']
      end.
      cbn [fst] in Hv. rewrite <- Hv. destruct r; reflexivity.
    + reflexivity.
Qed.

(** Two successful generations of one request return the same result, even
    under different constraint sets. *)
Lemma generated_result_unique (params : Params.t) (h1 h2 : Heap)
      (r1 r2 : Result.t) :
  valueOf (PlaceholderGenerator.generatePlaceholder params) h1 = Ok r1 ->
  valueOf (PlaceholderGenerator.generatePlaceholder params) h2 = Ok r2 ->
  r1 = r2.
Proof.
  rewrite !generatePlaceholder_value.
  destruct (PlaceholderValidator.validateParams (constraints h1) params)
    as [[]|]; [|discriminate].
  destruct (PlaceholderValidator.validateParams (constraints h2) params)
    as [[]|]; [|discriminate].
  cbn [bindR].
  destruct (UrlBuilderFactory.createBuilder (Params.provider params))
    as [b|]; [|discriminate].
  cbn [bindR]. rewrite !placehold_buildUrl_value, !picsum_buildUrl_value.
  intros H1 H2. rewrite H1 in H2. now injection H2.
Qed.

End Generator.

(** ** Effects: what a call may read and write *)

Section Effects.

Context {A B : Type}.

Lemma functional_ret (a : A) : functional (ret a).
Proof.
  intros cs. exists (Ok a), []. intros l. unfold ret.
  now rewrite app_nil_r.
Qed.

Lemma functional_throw (e : error) : functional (@throw A e).
Proof.
  intros cs. exists (Throw e), []. intros l. unfold throw.
  now rewrite app_nil_r.
Qed.

Lemma functional_lift (r : result A) : functional (lift r).
Proof.
  intros cs. exists r, []. intros l. unfold lift. now rewrite app_nil_r.
Qed.

Lemma functional_bind (m : Eff A) (k : A -> Eff B) :
  functional m -> (forall a, functional (k a)) -> functional (bind m k).
Proof.
  intros Hm Hk cs. destruct (Hm cs) as [r [es Hr]].
  destruct r as [a|e].
  - destruct (Hk a cs) as [r' [es' Hr']].
    exists r', (es ++ es')%list. intros l.
    unfold bind. now rewrite Hr, Hr', app_assoc.
  - exists (Throw e), es. intros l. unfold bind. now rewrite Hr.
Qed.

Lemma functional_tryCatch (m : Eff A) (handler : error -> Eff A) :
  functional m -> (forall e, functional (handler e)) ->
  functional (tryCatch m handler).
Proof.
  intros Hm Hk cs. destruct (Hm cs) as [r [es Hr]].
  destruct r as [a|e].
  - exists (Ok a), es. intros l. unfold tryCatch. now rewrite Hr.
  - destruct (Hk e cs) as [r' [es' Hr']].
    exists r', (es ++ es')%list. intros l.
    unfold tryCatch. now rewrite Hr, Hr', app_assoc.
Qed.

End Effects.

Section EffectsOfTheCore.

Lemma functional_emit (e : LogEntry) : functional (Logger.emit e).
Proof. intros cs. exists (Ok tt), [e]. intros l. reflexivity. Qed.

Lemma functional_readConstraints : functional readConstraints.
Proof.
  intros cs. exists (Ok cs), []. intros l. unfold readConstraints.
  cbn. now rewrite app_nil_r.
Qed.

Lemma functional_placehold_buildUrl this width height options :
  functional (PlaceholdUrlBuilder.buildUrl this width height options).
Proof.
  unfold PlaceholdUrlBuilder.buildUrl.
  apply functional_bind; [apply functional_lift|intros _].
  apply functional_bind;
    [destruct options; [apply functional_lift|apply functional_ret]|intros _].
  apply functional_bind; [apply functional_emit|intros _].
  apply functional_ret.
Qed.

Lemma functional_picsum_buildUrl this width height options :
  functional (PicsumUrlBuilder.buildUrl this width height options).
Proof.
  unfold PicsumUrlBuilder.buildUrl.
  apply functional_bind; [apply functional_lift|intros _].
  apply functional_bind;
    [destruct options; [apply functional_lift|apply functional_ret]|intros _].
  apply functional_bind; [apply functional_emit|intros _].
  apply functional_ret.
Qed.

Lemma functional_generatePlaceholder params :
  functional (PlaceholderGenerator.generatePlaceholder params).
Proof.
  unfold PlaceholderGenerator.generatePlaceholder.
  apply functional_bind; [apply functional_emit|intros _].
  apply functional_bind; [apply functional_readConstraints|intros cs].
  apply functional_bind; [apply functional_lift|intros _].
  apply functional_tryCatch.
  - apply functional_bind; [apply functional_lift|intros urlBuilder].
    apply functional_bind.
    + destruct (strict_eq (Params.provider params) (VStr "placehold"));
        [apply functional_placehold_buildUrl|].
      destruct (strict_eq (Params.provider params) (VStr "lorem-picsum"));
        [apply functional_picsum_buildUrl|apply functional_throw].
    + intros url.
      apply functional_bind; [apply functional_emit|intros _].
      apply functional_ret.
  - intros e.
    apply functional_bind; [apply functional_emit|intros _].
    apply functional_throw.
Qed.

(** A functional call returns the same result when it is repeated, leaves the
    constraints alone and only appends to the log. *)
Lemma functional_repeat {A : Type} (m : Eff A) (h : Heap) :
  functional m ->
  valueOf m (heapAfter m h) = valueOf m h
  /\ constraints (heapAfter m h) = constraints h
  /\ exists entries, logged (heapAfter m h) = (logged h ++ entries)%list.
Proof.
  intros Hm. destruct (Hm (constraints h)) as [r [es Hr]].
  unfold valueOf, heapAfter.
  pose proof (Hr (logged h)) as H1. rewrite heapOf_eta in H1.
  rewrite H1. cbn [fst snd]. rewrite Hr. cbn.
  repeat split. now exists es.
Qed.

Lemma pureValue_placehold_buildUrl this width height options :
  pureValue (PlaceholdUrlBuilder.buildUrl this width height options).
Proof. eexists. intros h. apply placehold_buildUrl_value. Qed.

Lemma pureValue_picsum_buildUrl this width height options :
  pureValue (PicsumUrlBuilder.buildUrl this width height options).
Proof. eexists. intros h. apply picsum_buildUrl_value. Qed.

End EffectsOfTheCore.

(** ** The placehold builder on the documented examples *)

Section PlaceholdExamples.

(** C1. For the placehold builder, buildUrl(1200, 630, {retina "2x",
    backgroundColor "f9fafb", textColor "2563eb", format "png", customText
    "DeepakNess", font "playfair-display"}) returns exactly
    https://placehold.co/1200x630@2x/f9fafb/2563eb.png?text=DeepakNess&font=playfair+display;
    and every URL the builder returns is made of the size, the retina
    suffix, the colour pair, the format extension and the query, in this
    order, the query holding the text parameter before the font parameter,
    joined by an ampersand. *)
Theorem C1_full_combination :
  (forall h : Heap,
     valueOf (PlaceholdUrlBuilder.buildUrl placeholdBuilder
                (VInt 1200) (VInt 630) (Some Examples.fullCombination)) h
     = Ok "https://placehold.co/1200x630@2x/f9fafb/2563eb.png?text=DeepakNess&font=playfair+display")
  /\ (forall this width height options (h : Heap) url,
        valueOf (PlaceholdUrlBuilder.buildUrl this width height options) h
        = Ok url ->
        url = baseUrl this ++ "/" ++ toString width
              ++ Shape.heightPart "x" width height
              ++ Shape.retinaPart options ++ Shape.colorPart options
              ++ Shape.formatPart options
              ++ Shape.queryPart
                   (Shape.textParam options ++ Shape.fontParam options)%list)
  /\ (forall text font : string,
        Shape.queryPart [text; font] = "?" ++ text ++ "&" ++ font).
Proof.
  split; [|split].
  - intros h. rewrite placehold_buildUrl_value. reflexivity.
  - intros this width height options h url.
    rewrite placehold_buildUrl_value.
    destruct (BaseUrlBuilder.validateDimensions width height) as [[]|] eqn:Hd;
      [|discriminate].
    cbn [bindR].
    destruct (PlaceholdUrlBuilder.validateOptions options); [|discriminate].
    cbn [bindR]. intros [= <-].
    apply placehold_composeUrl_shape.
    now apply validated_height_truthy with (width := width).
  - reflexivity.
Qed.

Lemma C1_full_combination_witness :
  "https://placehold.co/1200x630@2x/f9fafb/2563eb.png?text=DeepakNess&font=playfair+display"
  = baseUrl placeholdBuilder ++ "/" ++ toString (VInt 1200)
    ++ Shape.heightPart "x" (VInt 1200) (VInt 630)
    ++ Shape.retinaPart (Some Examples.fullCombination)
    ++ Shape.colorPart (Some Examples.fullCombination)
    ++ Shape.formatPart (Some Examples.fullCombination)
    ++ Shape.queryPart
         (Shape.textParam (Some Examples.fullCombination)
          ++ Shape.fontParam (Some Examples.fullCombination))%list.
Proof.
  apply (proj1 (proj2 C1_full_combination) placeholdBuilder
           (VInt 1200) (VInt 630) (Some Examples.fullCombination) initialHeap).
  reflexivity.
Defined.

(** C2. Retina with the format svg fails validation whatever the other
    options are, and retina "2x" with png gives the suffix right after the
    size and the extension later; but retina without a format passes
    validation and the builder returns a URL with the retina suffix and no
    raster extension. *)
Theorem C2_retina_without_format :
  (forall background text custom font (a : ascii) (rest : string),
     failsValidation
       (PlaceholdUrlBuilder.validateOptions
          (Some (PlaceholdOptions.mk (Some "svg") background text
                   custom font (Some (String a rest))))))
  /\ (forall h : Heap,
        valueOf (PlaceholdUrlBuilder.buildUrl placeholdBuilder
                   (VInt 600) (VInt 400)
                   (Some (Examples.formatAndRetina (Some "png") (Some "2x")))) h
        = Ok "https://placehold.co/600x400@2x.png")
  /\ PlaceholdUrlBuilder.validateOptions
       (Some (Examples.formatAndRetina None (Some "2x"))) = Ok true
  /\ (forall h : Heap,
        valueOf (PlaceholdUrlBuilder.buildUrl placeholdBuilder
                   (VInt 300) VUndefined
                   (Some (Examples.formatAndRetina None (Some "2x")))) h
        = Ok "https://placehold.co/300@2x").
Proof.
  split; [|split; [|split]].
  - intros background text custom font a rest.
    cbn. now eexists _, _, _.
  - intros h. rewrite placehold_buildUrl_value. reflexivity.
  - reflexivity.
  - intros h. rewrite placehold_buildUrl_value. reflexivity.
Qed.

(** C5. The font parameter of "playfair-display" is font=playfair+display
    and the default font "lato" adds no parameter; for the name with two
    hyphens, "source-sans-pro", only the first hyphen is replaced. *)
Theorem C5_font_first_hyphen_only (h : Heap) :
  valueOf (PlaceholdUrlBuilder.buildUrl placeholdBuilder (VInt 600) (VInt 400)
             (Some (Examples.fontOnly "playfair-display"))) h
  = Ok "https://placehold.co/600x400?font=playfair+display"
  /\ valueOf (PlaceholdUrlBuilder.buildUrl placeholdBuilder (VInt 600) (VInt 400)
                (Some (Examples.fontOnly "lato"))) h
     = Ok "https://placehold.co/600x400"
  /\ valueOf (PlaceholdUrlBuilder.buildUrl placeholdBuilder (VInt 600) (VInt 400)
                (Some (Examples.fontOnly "source-sans-pro"))) h
     = Ok "https://placehold.co/600x400?font=source+sans-pro".
Proof. rewrite !placehold_buildUrl_value. repeat split. Qed.

End PlaceholdExamples.

Section PicsumExamples.

(** C6. The image id 0 passes validation, and the builder then writes no id
    prefix: the URL is the one of a request without image id. *)
Theorem C6_image_id_zero_dropped (h : Heap) :
  PicsumUrlBuilder.validateOptions (Some (Examples.imageIdOnly (VInt 0)))
  = Ok true
  /\ valueOf (PicsumUrlBuilder.buildUrl picsumBuilder (VInt 200) (VInt 300)
                (Some (Examples.imageIdOnly (VInt 0)))) h
     = Ok "https://picsum.photos/200/300"
  /\ valueOf (PicsumUrlBuilder.buildUrl picsumBuilder (VInt 200) (VInt 300)
                (Some (Examples.imageIdOnly (VInt 237)))) h
     = Ok "https://picsum.photos/id/237/200/300".
Proof. rewrite !picsum_buildUrl_value. repeat split. Qed.

End PicsumExamples.

(** ** Dimension bounds: the validator and the builders *)

Section Bounds.

Lemma validateDimension_default (name : PlaceholderValidator.dimensionName) (z : Z) :
  PlaceholderValidator.validateDimension DEFAULT_CONSTRAINTS name (VInt z) = Ok tt
  <-> 1 <= z <= 10000.
Proof.
  unfold PlaceholderValidator.validateDimension.
  destruct name; cbn;
    destruct (z <? 1) eqn:E1; destruct (z >? 10000) eqn:E2; cbn;
    split; intros H; try discriminate H; try reflexivity; lia.
Qed.

Lemma validateDimensions_int (w : Z) (hh : option Z) :
  BaseUrlBuilder.validateDimensions (VInt w) (optInt hh) = Ok tt
  <-> builderRange w /\ builderRangeOpt hh.
Proof.
  rewrite validateDimensions_ok. unfold builderRange, builderRangeOpt.
  split.
  - intros [[w' [[= <-] Hw]] Hh]. split; [exact Hw|].
    destruct hh as [n|]; [|exact I].
    destruct Hh as [Hh|[n' [[= <-] Hn]]]; [discriminate Hh|exact Hn].
  - intros [Hw Hh]. split; [now exists w|].
    destruct hh as [n|]; [right; now exists n|now left].
Qed.

Lemma validateDimension_outcome cs name value :
  PlaceholderValidator.validateDimension cs name value = Ok tt
  \/ failsValidation (PlaceholderValidator.validateDimension cs name value).
Proof.
  unfold PlaceholderValidator.validateDimension, failsValidation, throwIf, bindR.
  repeat match goal with
    | |- context [if ?c then _ else _] => destruct c
    end; first [now left | right; now eexists _, _, _].
Qed.

Lemma validateDimensions_outcome width height :
  BaseUrlBuilder.validateDimensions width height = Ok tt
  \/ failsValidation (BaseUrlBuilder.validateDimensions width height).
Proof.
  unfold BaseUrlBuilder.validateDimensions, failsValidation, throwIf, bindR.
  repeat match goal with
    | |- context [if ?c then _ else _] => destruct c
    end; first [now left | right; now eexists _, _, _].
Qed.

(** For a supported provider and no options, the validator only checks the
    two dimensions. *)
Lemma validateParams_default_request (provider : string) (w : Z) (hh : option Z) :
  In provider (supportedProviders DEFAULT_CONSTRAINTS) ->
  PlaceholderValidator.validateParams DEFAULT_CONSTRAINTS
    (Examples.request provider w hh)
  = (PlaceholderValidator.validateDimension DEFAULT_CONSTRAINTS
       PlaceholderValidator.Width (VInt w) ;;?
     match hh with
     | Some n =>
         PlaceholderValidator.validateDimension DEFAULT_CONSTRAINTS
           PlaceholderValidator.Height (VInt n)
     | None => Ok tt
     end).
Proof.
  intros Hp. unfold PlaceholderValidator.validateParams, Examples.request.
  cbn [Params.provider Params.width Params.height optInt].
  assert (Hprov : PlaceholderValidator.validateProvider DEFAULT_CONSTRAINTS
                    (VStr provider) = Ok tt)
    by (destruct Hp as [<-|[<-|[]]]; reflexivity).
  rewrite Hprov. cbn [bindR].
  destruct (PlaceholderValidator.validateDimension DEFAULT_CONSTRAINTS
              PlaceholderValidator.Width (VInt w)) as [[]|]; [|reflexivity].
  cbn [bindR]. destruct hh as [n|]; cbn [optInt strict_eq negb].
  - destruct (PlaceholderValidator.validateDimension DEFAULT_CONSTRAINTS
                PlaceholderValidator.Height (VInt n)) as [[]|]; reflexivity.
  - reflexivity.
Qed.

(** Through the generator, under the default constraints and without
    options, exactly the builders' range succeeds. *)
Lemma generate_default_range (provider : string) (w : Z) (hh : option Z)
      (l : list LogEntry) :
  In provider (supportedProviders DEFAULT_CONSTRAINTS) ->
  (builderRange w /\ builderRangeOpt hh ->
   succeeds (valueOf (PlaceholderGenerator.generatePlaceholder
                        (Examples.request provider w hh))
               (heapOf DEFAULT_CONSTRAINTS l)))
  /\ (~ (builderRange w /\ builderRangeOpt hh) ->
      failsValidation (valueOf (PlaceholderGenerator.generatePlaceholder
                                  (Examples.request provider w hh))
                         (heapOf DEFAULT_CONSTRAINTS l))).
Proof.
  intros Hp. rewrite generatePlaceholder_value.
  cbn [constraints heapOf].
  rewrite (validateParams_default_request provider w hh Hp).
  assert (Hbuild :
    forall b, UrlBuilderFactory.createBuilder (VStr provider) = Ok b ->
      (if strict_eq (VStr provider) (VStr "placehold") then
         valueOf (PlaceholdUrlBuilder.buildUrl (snd b) (VInt w) (optInt hh) None)
           (heapOf DEFAULT_CONSTRAINTS l)
       else if strict_eq (VStr provider) (VStr "lorem-picsum") then
         valueOf (PicsumUrlBuilder.buildUrl (snd b) (VInt w) (optInt hh) None)
           (heapOf DEFAULT_CONSTRAINTS l)
       else Throw (ProviderError (VStr provider) "Unsupported provider" None))
      = (BaseUrlBuilder.validateDimensions (VInt w) (optInt hh) ;;?
         Ok (if strict_eq (VStr provider) (VStr "placehold")
             then PlaceholdUrlBuilder.composeUrl (snd b) (VInt w) (optInt hh) None
             else PicsumUrlBuilder.composeUrl (snd b) (VInt w) (optInt hh) None))).
  { intros b _. rewrite placehold_buildUrl_value, picsum_buildUrl_value.
    destruct Hp as [<-|[<-|[]]]; cbn [strict_eq String.eqb Ascii.eqb Bool.eqb];
      destruct (BaseUrlBuilder.validateDimensions (VInt w) (optInt hh));
      reflexivity. }
  assert (Hb : succeeds (UrlBuilderFactory.createBuilder (VStr provider)))
    by (destruct Hp as [<-|[<-|[]]]; now eexists).
  destruct Hb as [b Hb].
  cbn [Examples.request Params.provider Params.width Params.height
       Params.placeholdOptions Params.picsumOptions].
  rewrite Hb. cbn [bindR]. rewrite (Hbuild b Hb).
  split.
  - intros [Hw Hh].
    assert (Hd := proj2 (validateDimensions_int w hh) (conj Hw Hh)).
    rewrite Hd.
    assert (H1 := proj2 (validateDimension_default PlaceholderValidator.Width w)).
    rewrite H1 by (unfold builderRange in Hw; lia).
    cbn [bindR].
    destruct hh as [n|]; [|now eexists].
    assert (H2 := proj2 (validateDimension_default PlaceholderValidator.Height n)).
    rewrite H2 by (unfold builderRangeOpt, builderRange in Hh; lia).
    now eexists.
  - intros Hn.
    destruct (validateDimension_outcome DEFAULT_CONSTRAINTS
                PlaceholderValidator.Width (VInt w)) as [H1|[f [v [t H1]]]];
      rewrite H1; [|now exists f, v, t].
    cbn [bindR].
    assert (Hheight :
      match hh with
      | Some n =>
          PlaceholderValidator.validateDimension DEFAULT_CONSTRAINTS
            PlaceholderValidator.Height (VInt n)
      | None => Ok tt
      end = Ok tt
      \/ failsValidation
           match hh with
           | Some n =>
               PlaceholderValidator.validateDimension DEFAULT_CONSTRAINTS
                 PlaceholderValidator.Height (VInt n)
           | None => Ok tt
           end)
      by (destruct hh; [apply validateDimension_outcome|now left]).
    destruct Hheight as [H2|[f [v [t H2]]]]; rewrite H2; [|now exists f, v, t].
    cbn [bindR].
    destruct (validateDimensions_outcome (VInt w) (optInt hh))
      as [H3|[f [v [t H3]]]]; rewrite H3; [|now exists f, v, t].
    elim Hn. now apply validateDimensions_int.
Qed.

(** C3. Under the default constraints the validator accepts a width or a
    height exactly at its bounds 1 and 10000 and rejects 0 and 10001 (it
    accepts an integer exactly when it lies in 1..10000, and a request
    without options exactly when its dimensions do); the builders accept
    exactly 10..4000; so a request without options that goes through
    generatePlaceholder succeeds exactly when its width, and its height when
    given, lie in 10..4000, and fails validation otherwise. *)
Theorem C3_range_boundaries :
  (forall name z,
     (PlaceholderValidator.validateDimension DEFAULT_CONSTRAINTS name (VInt z)
      = Ok tt <-> 1 <= z <= 10000)
     /\ (~ 1 <= z <= 10000 ->
         failsValidation
           (PlaceholderValidator.validateDimension DEFAULT_CONSTRAINTS name
              (VInt z))))
  /\ (forall provider w hh,
        In provider (supportedProviders DEFAULT_CONSTRAINTS) ->
        (PlaceholderValidator.validateParams DEFAULT_CONSTRAINTS
           (Examples.request provider w hh) = Ok tt
         <-> 1 <= w <= 10000
             /\ match hh with Some n => 1 <= n <= 10000 | None => True end))
  /\ (forall w hh,
        BaseUrlBuilder.validateDimensions (VInt w) (optInt hh) = Ok tt
        <-> builderRange w /\ builderRangeOpt hh)
  /\ (forall provider w hh l,
        In provider (supportedProviders DEFAULT_CONSTRAINTS) ->
        (builderRange w /\ builderRangeOpt hh ->
         succeeds (valueOf (PlaceholderGenerator.generatePlaceholder
                              (Examples.request provider w hh))
                     (heapOf DEFAULT_CONSTRAINTS l)))
        /\ (~ (builderRange w /\ builderRangeOpt hh) ->
            failsValidation
              (valueOf (PlaceholderGenerator.generatePlaceholder
                          (Examples.request provider w hh))
                 (heapOf DEFAULT_CONSTRAINTS l)))).
Proof.
  split; [|split; [|split]].
  - intros name z. split; [apply validateDimension_default|].
    intros Hn.
    destruct (validateDimension_outcome DEFAULT_CONSTRAINTS name (VInt z))
      as [H|H]; [|exact H].
    elim Hn. now apply validateDimension_default in H.
  - intros provider w hh Hp.
    rewrite (validateParams_default_request provider w hh Hp).
    pose proof (validateDimension_default PlaceholderValidator.Width w) as Hw.
    destruct (PlaceholderValidator.validateDimension DEFAULT_CONSTRAINTS
                PlaceholderValidator.Width (VInt w)) as [[]|e]; cbn [bindR].
    + destruct hh as [n|].
      * rewrite validateDimension_default. tauto.
      * tauto.
    + split; [discriminate|]. intros [H _]. apply Hw in H. discriminate H.
  - exact validateDimensions_int.
  - exact generate_default_range.
Qed.

Lemma C3_range_boundaries_witness :
  succeeds (valueOf (PlaceholderGenerator.generatePlaceholder
                       (Examples.request "placehold" 10 (Some 4000)))
              (heapOf DEFAULT_CONSTRAINTS []))
  /\ failsValidation
       (valueOf (PlaceholderGenerator.generatePlaceholder
                   (Examples.request "lorem-picsum" 4001 None))
          (heapOf DEFAULT_CONSTRAINTS [])).
Proof.
  destruct C3_range_boundaries as [_ [_ [_ H]]]. split.
  - apply (H "placehold" 10 (Some 4000) []).
    + simpl. auto.
    + cbv beta iota delta [builderRange builderRangeOpt]. lia.
  - apply (H "lorem-picsum" 4001 None []).
    + simpl. auto.
    + intros [Hw _]. unfold builderRange in Hw. lia.
Defined.

(** C3, as first stated, fails: the default minimum and maximum are 1 and
    10000 and the validator accepts a width of 1 and of 10000, yet the full
    generation path rejects both, in the builder. *)
Lemma C3_bounds_rejected_by_builder :
  minWidth DEFAULT_CONSTRAINTS = 1 /\ maxWidth DEFAULT_CONSTRAINTS = 10000
  /\ PlaceholderValidator.validateParams DEFAULT_CONSTRAINTS
       (Examples.request "placehold" 1 None) = Ok tt
  /\ valueOf (PlaceholderGenerator.generatePlaceholder
                (Examples.request "placehold" 1 None)) initialHeap
     = Throw (ValidationError "width" (EValue (VInt 1))
                "Width must be an integer between 10 and 4000")
  /\ PlaceholderValidator.validateParams DEFAULT_CONSTRAINTS
       (Examples.request "placehold" 10000 None) = Ok tt
  /\ valueOf (PlaceholderGenerator.generatePlaceholder
                (Examples.request "placehold" 10000 None)) initialHeap
     = Throw (ValidationError "width" (EValue (VInt 10000))
                "Width must be an integer between 10 and 4000").
Proof. repeat split. Qed.

End Bounds.

(** ** The effects of a picsum URL *)

Section PicsumEffects.

Lemma picsum_validateOptions_outcome (options : option PicsumOptions.t) :
  PicsumUrlBuilder.validateOptions options = Ok true
  \/ failsValidation (PicsumUrlBuilder.validateOptions options).
Proof.
  destruct options as [o|]; [|now left].
  unfold PicsumUrlBuilder.validateOptions, failsValidation, throwIf, bindR.
  repeat match goal with
    | |- context [if ?c then _ else _] => destruct c
    end; first [now left | right; now eexists _, _, _].
Qed.



End PicsumEffects.

(** ** The square default *)

Section SquareDefault.

Lemma validateOptions_true (options : option PlaceholdOptions.t) (b : bool) :
  PlaceholdUrlBuilder.validateOptions options = Ok b -> b = true.
Proof.
  destruct options as [o|]; [|now intros [= <-]].
  unfold PlaceholdUrlBuilder.validateOptions, throwIf, bindR.
  repeat match goal with
    | |- context [if ?c then _ else _] => destruct c
    end; intros H; first [discriminate H | now injection H].
Qed.

(** A successful generation for the placehold provider: what was validated
    and what is returned. *)
Lemma generate_placehold_ok (params : Params.t) (h : Heap) (r : Result.t) :
  Params.provider params = VStr "placehold" ->
  valueOf (PlaceholderGenerator.generatePlaceholder params) h = Ok r <->
  PlaceholderValidator.validateParams (constraints h) params = Ok tt
  /\ BaseUrlBuilder.validateDimensions (Params.width params)
       (Params.height params) = Ok tt
  /\ PlaceholdUrlBuilder.validateOptions (Params.placeholdOptions params)
     = Ok true
  /\ r = {| Result.url :=
              PlaceholdUrlBuilder.composeUrl placeholdBuilder
                (Params.width params) (Params.height params)
                (Params.placeholdOptions params);
            Result.provider := Params.provider params;
            Result.dimensions :=
              {| dim_width := Params.width params;
                 dim_height :=
                   or_else (Params.height params) (Params.width params) |};
            Result.appliedOptions :=
              {| applied_placehold := Params.placeholdOptions params;
                 applied_picsum := Params.picsumOptions params |} |}.
Proof.
  intros Hp. rewrite generatePlaceholder_value, Hp.
  change (UrlBuilderFactory.createBuilder (VStr "placehold"))
    with (Ok (UrlBuilderFactory.Placehold, placeholdBuilder)).
  change (strict_eq (VStr "placehold") (VStr "placehold")) with true.
  cbn [bindR snd]. rewrite placehold_buildUrl_value.
  destruct (PlaceholderValidator.validateParams (constraints h) params)
    as [[]|e1]; cbn [bindR];
    [|split; [discriminate|intros [H _]; discriminate H]].
  destruct (BaseUrlBuilder.validateDimensions (Params.width params)
              (Params.height params)) as [[]|e2]; cbn [bindR];
    [|split; [discriminate|intros [_ [H _]]; discriminate H]].
  destruct (PlaceholdUrlBuilder.validateOptions
              (Params.placeholdOptions params)) as [b|e3] eqn:Ho; cbn [bindR];
    [|split; [discriminate|intros [_ [_ [H _]]]; discriminate H]].
  apply validateOptions_true in Ho. subst b.
  split.
  - intros [= <-]. repeat split.
  - intros [_ [_ [_ ->]]]. reflexivity.
Qed.

(** C7. A request for the placehold provider with width 300 and no height
    returns https://placehold.co/300 with dimensions 300 by 300.  In every
    successful placehold generation the part x{height} follows the width
    exactly when a height is given and differs from the width (what comes
    next depends on the options alone and never starts with an x), a height
    equal to the width gives the URL of an absent height, and the height of
    the result is the given height, or the width. *)
Theorem C7_square_default :
  (forall l : list LogEntry,
     valueOf (PlaceholderGenerator.generatePlaceholder
                (Examples.request "placehold" 300 None))
       (heapOf DEFAULT_CONSTRAINTS l)
     = Ok {| Result.url := "https://placehold.co/300";
             Result.provider := VStr "placehold";
             Result.dimensions :=
               {| dim_width := VInt 300; dim_height := VInt 300 |};
             Result.appliedOptions :=
               {| applied_placehold := None; applied_picsum := None |} |})
  /\ (forall options : option PlaceholdOptions.t,
      exists suffix : string,
        String.prefix "x" suffix = false
        /\ forall (params : Params.t) (h : Heap) (r : Result.t),
             Params.provider params = VStr "placehold" ->
             Params.placeholdOptions params = options ->
             valueOf (PlaceholderGenerator.generatePlaceholder params) h
             = Ok r ->
             Result.url r
             = "https://placehold.co/" ++ toString (Params.width params)
               ++ (if given (Params.height params)
                      && negb (strict_eq (Params.height params)
                                 (Params.width params))
                   then "x" ++ toString (Params.height params)
                   else EmptyString)
               ++ suffix
             /\ Result.dimensions r
                = {| dim_width := Params.width params;
                     dim_height :=
                       if given (Params.height params)
                       then Params.height params
                       else Params.width params |})
  /\ (forall (w : Z) options (h : Heap) (r : Result.t),
        valueOf (PlaceholderGenerator.generatePlaceholder
                   (Params.mk (VStr "placehold") (VInt w) (VInt w) options None))
          h = Ok r ->
        exists r',
          valueOf (PlaceholderGenerator.generatePlaceholder
                     (Params.mk (VStr "placehold") (VInt w) VUndefined
                        options None)) h = Ok r'
          /\ Result.url r' = Result.url r
          /\ Result.dimensions r' = Result.dimensions r).
Proof.
  split; [|split].
  - intros l. apply generate_placehold_ok; [reflexivity|]. repeat split.
  - intros options. exists (Shape.placeholdSuffix options).
    split; [apply placeholdSuffix_not_x|].
    intros params h r Hp Ho Hr.
    apply (generate_placehold_ok params h r Hp) in Hr
      as [_ [Hd [_ ->]]].
    cbn [Result.url Result.dimensions].
    rewrite (validated_height_or_else _ _ Hd).
    rewrite placehold_composeUrl_shape
      by (now apply validated_height_truthy with (width := Params.width params)).
    rewrite Ho. split; reflexivity.
  - intros w options h r Hr.
    apply generate_placehold_ok in Hr as [Hv [Hd [Ho ->]]]; [|reflexivity].
    cbn [Params.provider Params.width Params.height Params.placeholdOptions
         Params.picsumOptions] in *.
    eexists. split.
    + apply generate_placehold_ok; [reflexivity|].
      cbn [Params.provider Params.width Params.height Params.placeholdOptions
           Params.picsumOptions].
      split; [|split; [|split; [exact Ho|reflexivity]]].
      * revert Hv. unfold PlaceholderValidator.validateParams.
        cbn [Params.provider Params.width Params.height
             Params.placeholdOptions Params.picsumOptions strict_eq negb].
        destruct (PlaceholderValidator.validateProvider (constraints h)
                    (VStr "placehold")) as [[]|]; [|discriminate].
        cbn [bindR].
        destruct (PlaceholderValidator.validateDimension (constraints h)
                    PlaceholderValidator.Width (VInt w)) as [[]|];
          [|discriminate].
        cbn [bindR].
        destruct (PlaceholderValidator.validateDimension (constraints h)
                    PlaceholderValidator.Height (VInt w)) as [[]|];
          [|discriminate].
        cbn [bindR]. trivial.
      * apply validateDimensions_ok in Hd as [Hw _].
        apply validateDimensions_ok. split; [exact Hw|now left].
    + cbn [Result.url Result.dimensions].
      apply validateDimensions_ok in Hd as [[w' [[= <-] Hw]] _].
      rewrite !placehold_composeUrl_shape
        by (cbn; destruct (Z.eqb_spec w 0); [lia|reflexivity]).
      unfold Shape.heightPart, or_else. cbn [given strict_eq negb truthy].
      rewrite Z.eqb_refl. cbn [negb andb].
      destruct (Z.eqb_spec w 0); [lia|]. split; reflexivity.
Qed.

Lemma C7_square_default_witness :
  exists (suffix : string) (r : Result.t),
    String.prefix "x" suffix = false
    /\ valueOf (PlaceholderGenerator.generatePlaceholder
                  (Examples.request "placehold" 300 (Some 200))) initialHeap
       = Ok r
    /\ Result.url r = "https://placehold.co/300x200" ++ suffix
    /\ Result.dimensions r
       = {| dim_width := VInt 300; dim_height := VInt 200 |}.
Proof.
  destruct (proj1 (proj2 C7_square_default) None) as [suffix [Hx H]].
  exists suffix. eexists.
  split; [exact Hx|]. split; [reflexivity|].
  apply (H (Examples.request "placehold" 300 (Some 200)) initialHeap);
    reflexivity.
Defined.

End SquareDefault.

(** ** The order of the validator's checks *)

Section ValidatorOrder.

(** C8. A request whose provider is not a non-empty string fails validation
    on the provider; a request whose provider is a non-empty string outside
    the supported set raises the provider error, whose message lists the
    supported providers, whatever its width and height are (the provider is
    checked before the dimensions); and the generator passes either error on
    unchanged. *)
Theorem C8_provider_checked_first :
  (forall cs params,
     ~ nonEmptyString (Params.provider params) ->
     PlaceholderValidator.validateParams cs params
     = Throw (ValidationError "provider" (EValue (Params.provider params))
                "Must be a non-empty string"))
  /\ (forall cs params (a : ascii) (name : string),
        Params.provider params = VStr (String a name) ->
        includes (supportedProviders cs) (String a name) = false ->
        PlaceholderValidator.validateParams cs params
        = Throw (ProviderError (VStr (String a name))
                   ("Unsupported provider. Supported providers: "
                    ++ join ", " (supportedProviders cs))
                   None))
  /\ (forall params (h : Heap) e,
        PlaceholderValidator.validateParams (constraints h) params = Throw e ->
        valueOf (PlaceholderGenerator.generatePlaceholder params) h = Throw e).
Proof.
  split; [|split].
  - intros cs params Hn.
    unfold PlaceholderValidator.validateParams,
      PlaceholderValidator.validateProvider.
    destruct (Params.provider params) as [| |b|z| |f|s|] eqn:Ep;
      try reflexivity.
    + destruct b; reflexivity.
    + destruct (z =? 0) eqn:Ez; cbn; rewrite Ez; reflexivity.
    + destruct s as [|a s]; [reflexivity|].
      elim Hn. now exists a, s.
  - intros cs params a name Hp Hs.
    unfold PlaceholderValidator.validateParams,
      PlaceholderValidator.validateProvider.
    rewrite Hp. cbn [truthy typeof includesV negb orb String.eqb throwIf bindR].
    change (("string" =? "string")%string) with true.
    cbn [negb orb throwIf bindR]. rewrite Hs. reflexivity.
  - intros params h e He. rewrite generatePlaceholder_value, He. reflexivity.
Qed.

Lemma C8_provider_checked_first_witness :
  PlaceholderValidator.validateParams DEFAULT_CONSTRAINTS
    (Examples.request "unsplash" 0 None)
  = Throw (ProviderError (VStr "unsplash")
             "Unsupported provider. Supported providers: placehold, lorem-picsum"
             None)
  /\ PlaceholderValidator.validateParams DEFAULT_CONSTRAINTS
       (Params.mk (VInt 7) (VInt 0) VUndefined None None)
     = Throw (ValidationError "provider" (EValue (VInt 7))
                "Must be a non-empty string")
  /\ valueOf (PlaceholderGenerator.generatePlaceholder
                (Examples.request "unsplash" 0 None)) initialHeap
     = Throw (ProviderError (VStr "unsplash")
                "Unsupported provider. Supported providers: placehold, lorem-picsum"
                None).
Proof.
  destruct C8_provider_checked_first as [Hshape [Hunknown Hpass]].
  split; [|split].
  - apply (Hunknown DEFAULT_CONSTRAINTS (Examples.request "unsplash" 0 None)
             "u"%char "nsplash"); reflexivity.
  - apply (Hshape DEFAULT_CONSTRAINTS
             (Params.mk (VInt 7) (VInt 0) VUndefined None None)).
    intros [a [s H]]. discriminate H.
  - apply (Hpass (Examples.request "unsplash" 0 None) initialHeap).
    apply (Hunknown DEFAULT_CONSTRAINTS (Examples.request "unsplash" 0 None)
             "u"%char "nsplash"); reflexivity.
Defined.

End ValidatorOrder.

(** ** Determinism *)

Section Determinism.

(** C9. The two builders and the generator are functions of their arguments
    (and, for the generator, of the constraint set it validates against):
    the result of a call does not depend on what was logged before, a call
    repeated on the heap the first one left returns the same result, and a
    call changes nothing but the log, to which it appends; the builders'
    result does not depend on the heap at all, and two generations of one
    request that both succeed return the same result and URL, whatever the
    constraints were. *)
Theorem C9_deterministic :
  (forall this width height options,
     functional (PlaceholdUrlBuilder.buildUrl this width height options)
     /\ pureValue (PlaceholdUrlBuilder.buildUrl this width height options))
  /\ (forall this width height options,
        functional (PicsumUrlBuilder.buildUrl this width height options)
        /\ pureValue (PicsumUrlBuilder.buildUrl this width height options))
  /\ (forall params,
        functional (PlaceholderGenerator.generatePlaceholder params))
  /\ (forall params (h : Heap),
        let call := PlaceholderGenerator.generatePlaceholder params in
        valueOf call (heapAfter call h) = valueOf call h
        /\ constraints (heapAfter call h) = constraints h
        /\ exists entries, logged (heapAfter call h) = (logged h ++ entries)%list)
  /\ (forall this width height options (h : Heap),
        let call := PlaceholdUrlBuilder.buildUrl this width height options in
        valueOf call (heapAfter call h) = valueOf call h
        /\ constraints (heapAfter call h) = constraints h
        /\ exists entries, logged (heapAfter call h) = (logged h ++ entries)%list)
  /\ (forall this width height options (h : Heap),
        let call := PicsumUrlBuilder.buildUrl this width height options in
        valueOf call (heapAfter call h) = valueOf call h
        /\ constraints (heapAfter call h) = constraints h
        /\ exists entries, logged (heapAfter call h) = (logged h ++ entries)%list)
  /\ (forall params (h1 h2 : Heap) (r1 r2 : Result.t),
        valueOf (PlaceholderGenerator.generatePlaceholder params) h1 = Ok r1 ->
        valueOf (PlaceholderGenerator.generatePlaceholder params) h2 = Ok r2 ->
        r1 = r2).
Proof.
  split; [|split; [|split; [|split; [|split; [|split]]]]].
  - intros this width height options. split.
    + apply functional_placehold_buildUrl.
    + apply pureValue_placehold_buildUrl.
  - intros this width height options. split.
    + apply functional_picsum_buildUrl.
    + apply pureValue_picsum_buildUrl.
  - apply functional_generatePlaceholder.
  - intros params h call. apply functional_repeat.
    apply functional_generatePlaceholder.
  - intros this width height options h call. apply functional_repeat.
    apply functional_placehold_buildUrl.
  - intros this width height options h call. apply functional_repeat.
    apply functional_picsum_buildUrl.
  - exact generated_result_unique.
Qed.

Lemma C9_deterministic_witness :
  exists r1 r2 : Result.t,
    valueOf (PlaceholderGenerator.generatePlaceholder
               (Examples.request "placehold" 300 None)) initialHeap = Ok r1
    /\ valueOf (PlaceholderGenerator.generatePlaceholder
                  (Examples.request "placehold" 300 None)) Examples.relaxedHeap
       = Ok r2
    /\ r1 = r2.
Proof.
  do 2 eexists. split; [reflexivity|]. split; [reflexivity|].
  apply (proj2 (proj2 (proj2 (proj2 (proj2 (proj2 C9_deterministic)))))
           (Examples.request "placehold" 300 None)
           initialHeap Examples.relaxedHeap);
    reflexivity.
Defined.

End Determinism.

(** ** The custom text *)

Section CustomText.

(** C10. The custom text is never validated, an empty custom text gives the
    URL of an absent one, and the query of a URL the placehold builder
    returns starts with the text parameter exactly when the custom text is a
    non-empty string. *)
Theorem C10_empty_custom_text :
  (forall (o : PlaceholdOptions.t) (text : option string),
     PlaceholdUrlBuilder.validateOptions
       (Some (PlaceholdOptions.withCustomText text o))
     = PlaceholdUrlBuilder.validateOptions (Some o))
  /\ (forall this width height (o : PlaceholdOptions.t) (h : Heap),
        valueOf (PlaceholdUrlBuilder.buildUrl this width height
                   (Some (PlaceholdOptions.withCustomText
                            (Some EmptyString) o))) h
        = valueOf (PlaceholdUrlBuilder.buildUrl this width height
                     (Some (PlaceholdOptions.withCustomText None o))) h)
  /\ (forall width height options (h : Heap) (url : string),
        valueOf (PlaceholdUrlBuilder.buildUrl placeholdBuilder width height
                   options) h = Ok url ->
        ((exists rest, queryOf url = Some ("text=" ++ rest))
         <-> truthyS (PlaceholdOptions.get PlaceholdOptions.customText options)
             = true)).
Proof.
  split; [|split].
  - intros o text. destruct o. reflexivity.
  - intros this width height o h. rewrite !placehold_buildUrl_value.
    destruct o. reflexivity.
  - intros width height options h url. rewrite placehold_buildUrl_value.
    destruct (BaseUrlBuilder.validateDimensions width height) as [[]|] eqn:Hd;
      [|discriminate].
    cbn [bindR].
    destruct (PlaceholdUrlBuilder.validateOptions options) as [b|] eqn:Ho;
      [|discriminate].
    cbn [bindR]. intros [= <-].
    pose proof (validateOptions_true _ _ Ho) as ->.
    rewrite (placehold_query width height options Hd Ho).
    unfold Shape.textParam, Shape.fontParam.
    destruct (truthyS (PlaceholdOptions.get PlaceholdOptions.customText options)).
    + split; [reflexivity|intros _].
      destruct (truthyS (PlaceholdOptions.get PlaceholdOptions.font options)
                && negb (strOf (PlaceholdOptions.get PlaceholdOptions.font options)
                         =? "lato")%string);
        eexists; cbn; reflexivity.
    + destruct (truthyS (PlaceholdOptions.get PlaceholdOptions.font options)
                && negb (strOf (PlaceholdOptions.get PlaceholdOptions.font options)
                         =? "lato")%string);
        split; try discriminate; intros [rest H]; discriminate H.
Qed.

Lemma C10_empty_custom_text_witness :
  (exists rest,
     queryOf "https://placehold.co/800?text=Hello+World&font=playfair+display"
     = Some ("text=" ++ rest))
  <-> truthyS (Some "Hello World") = true.
Proof.
  apply (proj2 (proj2 C10_empty_custom_text) (VInt 800) VUndefined
           (Some (PlaceholdOptions.mk None None None (Some "Hello World")
                    (Some "playfair-display") None))
           initialHeap).
  reflexivity.
Defined.

End CustomText.

(** ** Further properties of the builders and the validator *)

Section Further.

Lemma placehold_validateOptions_outcome (options : option PlaceholdOptions.t) :
  PlaceholdUrlBuilder.validateOptions options = Ok true
  \/ failsValidation (PlaceholdUrlBuilder.validateOptions options).
Proof.
  destruct options as [o|]; [|now left].
  unfold PlaceholdUrlBuilder.validateOptions, failsValidation, throwIf, bindR.
  repeat match goal with
    | |- context [if ?c then _ else _] => destruct c
    end; first [now left | right; now eexists _, _, _].
Qed.

(** X1. Colour pairing: options with one colour and not the other fail
    validation, whatever the colour is. *)
Theorem color_pair_required (o : PlaceholdOptions.t) :
  truthyS (PlaceholdOptions.backgroundColor o)
  <> truthyS (PlaceholdOptions.textColor o) ->
  failsValidation (PlaceholdUrlBuilder.validateOptions (Some o)).
Proof.
  intros Hne.
  destruct (placehold_validateOptions_outcome (Some o)) as [Ho|Ho]; [|exact Ho].
  apply placehold_validateOptions_ok in Ho. elim Hne. now destruct Ho.
Qed.

Lemma color_pair_required_witness :
  failsValidation
    (PlaceholdUrlBuilder.validateOptions
       (Some (PlaceholdOptions.mk None (Some "ffffff") None None None None))).
Proof.
  apply (color_pair_required
           (PlaceholdOptions.mk None (Some "ffffff") None None None None)).
  simpl. discriminate.
Defined.

(** X2. Mutually exclusive selectors: picsum options with both an image id and
    a seed fail validation. *)
Theorem id_and_seed_exclusive (o : PicsumOptions.t) :
  PicsumOptions.imageId o <> VUndefined ->
  PicsumOptions.seed o <> VUndefined ->
  failsValidation (PicsumUrlBuilder.validateOptions (Some o)).
Proof.
  intros Hi Hs.
  destruct (picsum_validateOptions_outcome (Some o)) as [Ho|Ho]; [|exact Ho].
  apply picsum_validateOptions_ok in Ho.
  destruct (valid_exclusive o Ho) as [H|H]; [now elim Hi | now elim Hs].
Qed.

Lemma id_and_seed_exclusive_witness :
  failsValidation
    (PicsumUrlBuilder.validateOptions
       (Some (PicsumOptions.mk VUndefined (VInt 237) (VStr "x")
                VUndefined VUndefined VUndefined))).
Proof.
  apply (id_and_seed_exclusive
           (PicsumOptions.mk VUndefined (VInt 237) (VStr "x")
              VUndefined VUndefined VUndefined));
    simpl; discriminate.
Defined.

(** The entry the generator logs first. *)
Lemma generating_entry_logged (params : Params.t) (h : Heap) e :
  PlaceholderValidator.validateParams (constraints h) params = Throw e ->
  PlaceholderGenerator.generatePlaceholder params h
  = (Throw e,
     heapOf (constraints h)
       (logged h
        ++ [ {| log_level := LDebug;
                log_message := "Generating placeholder image";
                log_error := None;
                log_meta := [ ("params", MParams params) ] |} ])%list).
Proof.
  intros He.
  unfold PlaceholderGenerator.generatePlaceholder, bind, lift, readConstraints,
    Logger.debug, Logger.emit.
  cbn [constraints]. now rewrite He.
Qed.

(** X3. Cross-provider options: a placehold request that carries picsum options
    fails in the validator, before a builder is created: nothing is logged
    but the record of the call. *)
Theorem cross_provider_options_rejected (params : Params.t) (h : Heap)
        (o : PicsumOptions.t) :
  Params.provider params = VStr "placehold" ->
  Params.picsumOptions params = Some o ->
  exists e,
    PlaceholderGenerator.generatePlaceholder params h
    = (Throw e,
       heapOf (constraints h)
         (logged h
          ++ [ {| log_level := LDebug;
                  log_message := "Generating placeholder image";
                  log_error := None;
                  log_meta := [ ("params", MParams params) ] |} ])%list).
Proof.
  intros Hp Ho.
  assert (Hv : exists e,
             PlaceholderValidator.validateParams (constraints h) params
             = Throw e).
  { unfold PlaceholderValidator.validateParams,
      PlaceholderValidator.validateProviderOptions.
    rewrite Hp, Ho.
    destruct (PlaceholderValidator.validateProvider (constraints h)
                (VStr "placehold")) as [[]|e]; [|now exists e].
    cbn [bindR].
    destruct (PlaceholderValidator.validateDimension (constraints h)
                PlaceholderValidator.Width (Params.width params))
      as [[]|e]; [|now exists e].
    cbn [bindR].
    destruct (if negb (strict_eq (Params.height params) VUndefined)
              then PlaceholderValidator.validateDimension (constraints h)
                     PlaceholderValidator.Height (Params.height params)
              else Ok tt) as [[]|e]; [|now exists e].
    now eexists. }
  destruct Hv as [e He]. exists e. now apply generating_entry_logged.
Qed.

Lemma cross_provider_options_rejected_witness :
  exists e,
    PlaceholderGenerator.generatePlaceholder
      (Params.mk (VStr "placehold") (VInt 300) (VInt 200) None
         (Some (Examples.effects (VBool true) VUndefined VUndefined)))
      initialHeap
    = (Throw e,
       heapOf DEFAULT_CONSTRAINTS
         [ {| log_level := LDebug;
              log_message := "Generating placeholder image";
              log_error := None;
              log_meta :=
                [ ("params",
                   MParams
                     (Params.mk (VStr "placehold") (VInt 300) (VInt 200) None
                        (Some (Examples.effects (VBool true) VUndefined
                                 VUndefined)))) ] |} ]).
Proof.
  apply (cross_provider_options_rejected
           (Params.mk (VStr "placehold") (VInt 300) (VInt 200) None
              (Some (Examples.effects (VBool true) VUndefined VUndefined)))
           initialHeap
           (Examples.effects (VBool true) VUndefined VUndefined));
    reflexivity.
Defined.



(** X6. The query of a built placehold URL: the text parameter when the custom
    text is a non-empty string, then the font parameter when a font other
    than lato is given, its first hyphen replaced by a plus. *)
Theorem placehold_query_built (width height : jsval)
        (options : option PlaceholdOptions.t) (h : Heap) (url : string) :
  valueOf (PlaceholdUrlBuilder.buildUrl placeholdBuilder width height options) h
  = Ok url ->
  queryOf url
  = match (Shape.textParam options ++ Shape.fontParam options)%list with
    | [] => None
    | l => Some (join "&" l)
    end.
Proof.
  rewrite placehold_buildUrl_value.
  destruct (BaseUrlBuilder.validateDimensions width height) as [[]|] eqn:Hd;
    [|discriminate].
  cbn [bindR].
  destruct (PlaceholdUrlBuilder.validateOptions options) as [b|] eqn:Ho;
    [|discriminate].
  cbn [bindR]. intros [= <-].
  pose proof (validateOptions_true _ _ Ho) as ->.
  now apply placehold_query.
Qed.

Lemma placehold_query_built_witness :
  queryOf "https://placehold.co/800?text=Hello+World&font=playfair+display"
  = Some "text=Hello+World&font=playfair+display".
Proof.
  apply (placehold_query_built (VInt 800) VUndefined
           (Some (PlaceholdOptions.mk None None None (Some "Hello World")
                    (Some "playfair-display") None))
           initialHeap).
  reflexivity.
Defined.

(** X7. Every supported font but source-sans-pro has at most one hyphen, so
    that replacing the first hyphen replaces them all. *)
Theorem single_hyphen_fonts (font : string) :
  In font PlaceholdUrlBuilder.supportedFonts ->
  font <> "source-sans-pro" ->
  replaceFirst "-" "+" font = replaceAll "-" "+" font.
Proof.
  intros Hin Hne. cbn in Hin.
  repeat (destruct Hin as [<-|Hin]; [first [reflexivity | now elim Hne]|]).
  destruct Hin.
Qed.

Lemma single_hyphen_fonts_witness :
  replaceFirst "-" "+" "playfair-display" = replaceAll "-" "+" "playfair-display".
Proof.
  apply (single_hyphen_fonts "playfair-display").
  - simpl. auto 10.
  - discriminate.
Defined.

End Further.

(** ** The validator, in full *)

Section ValidatorInFull.

Lemma strict_eq_string (v : jsval) (name : string) :
  strict_eq v (VStr name) = true <-> v = VStr name.
Proof.
  destruct v; cbn; try (split; discriminate).
  rewrite String.eqb_eq. split; congruence.
Qed.

Lemma validateProvider_throws (cs : ValidationConstraints) (provider : jsval)
      (e : error) :
  PlaceholderValidator.validateProvider cs provider = Throw e ->
  e = ValidationError "provider" (EValue provider) "Must be a non-empty string"
  \/ e = ProviderError provider
           ("Unsupported provider. Supported providers: "
            ++ join ", " (supportedProviders cs)) None.
Proof.
  unfold PlaceholderValidator.validateProvider, throwIf, bindR.
  repeat match goal with
    | |- context [if ?c then _ else _] => destruct c
    end; intros [= <-]; auto.
Qed.

Lemma validateDimension_throws (cs : ValidationConstraints)
      (name : PlaceholderValidator.dimensionName) (value : jsval) (e : error) :
  PlaceholderValidator.validateDimension cs name value = Throw e ->
  exists text,
    e = ValidationError (PlaceholderValidator.nameOf name) (EValue value) text.
Proof.
  unfold PlaceholderValidator.validateDimension, throwIf, bindR.
  repeat match goal with
    | |- context [if ?c then _ else _] => destruct c
    end; intros [= <-]; eauto.
Qed.

Lemma validateProvider_ok (cs : ValidationConstraints) (provider : jsval) :
  PlaceholderValidator.validateProvider cs provider = Ok tt <->
  exists a s, provider = VStr (String a s)
              /\ includes (supportedProviders cs) (String a s) = true.
Proof.
  unfold PlaceholderValidator.validateProvider. split.
  - intros H.
    destruct provider as [| |b|z| |f|s|]; try discriminate H.
    + destruct b; discriminate H.
    + cbn in H. destruct (z =? 0); discriminate H.
    + destruct s as [|a s]; [discriminate H|].
      cbn [truthy typeof negb orb String.eqb throwIf bindR] in H.
      change (("string" =? "string")%string) with true in H.
      cbn [negb orb throwIf bindR includesV] in H.
      destruct (includes (supportedProviders cs) (String a s)) eqn:E;
        [|discriminate H].
      now exists a, s.
  - intros [a [s [-> E]]].
    cbn [truthy typeof negb orb String.eqb throwIf bindR].
    change (("string" =? "string")%string) with true.
    cbn [negb orb throwIf bindR includesV]. now rewrite E.
Qed.

Lemma validateDimension_ok (cs : ValidationConstraints)
      (name : PlaceholderValidator.dimensionName) (value : jsval) :
  PlaceholderValidator.validateDimension cs name value = Ok tt <->
  exists z, value = VInt z
            /\ match name with
               | PlaceholderValidator.Width => minWidth cs <= z <= maxWidth cs
               | PlaceholderValidator.Height => minHeight cs <= z <= maxHeight cs
               end.
Proof.
  unfold PlaceholderValidator.validateDimension. split.
  - intros H. destruct value as [| |b|z| |f|s|]; try discriminate H.
    cbn in H. exists z. split; [reflexivity|].
    destruct name;
      match type of H with
      | context [?a <? ?b] => destruct (Z.ltb_spec a b)
      end; cbn in H; try discriminate H;
      match type of H with
      | context [?a >? ?b] => destruct (Z.gtb_spec a b)
      end; cbn in H; try discriminate H; lia.
  - intros [z [-> Hz]]. cbn.
    destruct name;
      match goal with
      | |- context [?a <? ?b] => destruct (Z.ltb_spec a b); [lia|]
      end;
      match goal with
      | |- context [?a >? ?b] => destruct (Z.gtb_spec a b); [lia|]
      end; reflexivity.
Qed.

Lemma validateProviderOptions_ok (params : Params.t) :
  PlaceholderValidator.validateProviderOptions params = Ok tt <->
  (Params.provider params = VStr "placehold" ->
   Params.picsumOptions params = None)
  /\ (Params.provider params = VStr "lorem-picsum" ->
      Params.placeholdOptions params = None).
Proof.
  unfold PlaceholderValidator.validateProviderOptions.
  assert (Heq : forall name,
             strict_eq (Params.provider params) (VStr name) = true
             <-> Params.provider params = VStr name).
  { intros name. destruct (Params.provider params); cbn;
      try (split; discriminate).
    rewrite String.eqb_eq. split; congruence. }
  split.
  - intros H. split; intros Hp.
    + destruct (Params.picsumOptions params) as [o|]; [|reflexivity].
      apply Heq in Hp. rewrite Hp in H. discriminate H.
    + destruct (Params.placeholdOptions params) as [o|]; [|reflexivity].
      apply Heq in Hp. rewrite Hp in H.
      destruct (Params.picsumOptions params);
        [destruct (strict_eq (Params.provider params) (VStr "placehold"))|];
        discriminate H.
  - intros [H1 H2].
    destruct (Params.picsumOptions params) as [o|].
    + destruct (strict_eq (Params.provider params) (VStr "placehold")) eqn:E1.
      * apply Heq in E1. discriminate (H1 E1).
      * cbn [throwIf bindR].
        destruct (Params.placeholdOptions params) as [o'|]; [|reflexivity].
        destruct (strict_eq (Params.provider params) (VStr "lorem-picsum"))
          eqn:E2; [|reflexivity].
        apply Heq in E2. discriminate (H2 E2).
    + cbn [bindR].
      destruct (Params.placeholdOptions params) as [o'|]; [|reflexivity].
      destruct (strict_eq (Params.provider params) (VStr "lorem-picsum"))
        eqn:E2; [|reflexivity].
      apply Heq in E2. discriminate (H2 E2).
Qed.

Lemma validateParams_accepts_cases (cs : ValidationConstraints)
      (params : Params.t) :
  PlaceholderValidator.validateParams cs params = Ok tt <-> acceptable cs params.
Proof.
  unfold PlaceholderValidator.validateParams.
  pose proof (validateProvider_ok cs (Params.provider params)) as Hp.
  pose proof (validateDimension_ok cs PlaceholderValidator.Width
                (Params.width params)) as Hw.
  pose proof (validateDimension_ok cs PlaceholderValidator.Height
                (Params.height params)) as Hh.
  pose proof (validateProviderOptions_ok params) as Ho.
  split.
  - intros H.
    destruct (PlaceholderValidator.validateProvider cs (Params.provider params))
      as [[]|]; [|discriminate H].
    destruct (PlaceholderValidator.validateDimension cs
                PlaceholderValidator.Width (Params.width params))
      as [[]|]; [|discriminate H].
    cbn [bindR] in H.
    destruct (strict_eq (Params.height params) VUndefined) eqn:Eh;
      cbn [negb bindR] in H.
    + destruct (proj1 Ho H) as [H1 H2].
      constructor; [now apply Hp|now apply Hw| |exact H1|exact H2].
      left. destruct (Params.height params); try discriminate Eh. reflexivity.
    + destruct (PlaceholderValidator.validateDimension cs
                  PlaceholderValidator.Height (Params.height params))
        as [[]|]; [|discriminate H].
      cbn [bindR] in H. destruct (proj1 Ho H) as [H1 H2].
      constructor; [now apply Hp|now apply Hw| |exact H1|exact H2].
      right. now apply Hh.
  - intros [Ap Aw Ah A1 A2].
    rewrite (proj2 Hp Ap), (proj2 Hw Aw). cbn [bindR].
    destruct Ah as [Eh|Ah].
    + rewrite Eh. cbn [strict_eq negb bindR]. now apply Ho.
    + assert (Eh : strict_eq (Params.height params) VUndefined = false)
        by (destruct Ah as [h [-> _]]; reflexivity).
      rewrite Eh, (proj2 Hh Ah). cbn [negb bindR]. now apply Ho.
Qed.

(** The errors of the validator: one of six, each naming the part of the
    request it is about. *)
Lemma validateParams_throws (cs : ValidationConstraints) (params : Params.t)
      (e : error) :
  PlaceholderValidator.validateParams cs params = Throw e ->
  e = ValidationError "provider" (EValue (Params.provider params))
        "Must be a non-empty string"
  \/ e = ProviderError (Params.provider params)
           ("Unsupported provider. Supported providers: "
            ++ join ", " (supportedProviders cs)) None
  \/ (exists text,
        e = ValidationError "width" (EValue (Params.width params)) text)
  \/ (exists text,
        e = ValidationError "height" (EValue (Params.height params)) text)
  \/ (exists o text,
        Params.picsumOptions params = Some o
        /\ strict_eq (Params.provider params) (VStr "placehold") = true
        /\ e = ValidationError "picsumOptions" (EPicsumOptions o) text)
  \/ (exists o text,
        Params.placeholdOptions params = Some o
        /\ strict_eq (Params.provider params) (VStr "lorem-picsum") = true
        /\ e = ValidationError "placeholdOptions" (EPlaceholdOptions o) text).
Proof.
  unfold PlaceholderValidator.validateParams,
    PlaceholderValidator.validateProvider,
    PlaceholderValidator.validateDimension,
    PlaceholderValidator.validateProviderOptions.
  intros H.
  repeat match type of H with
    | context [throwIf ?c _] =>
        destruct c eqn:?; cbn [throwIf bindR] in H;
        [injection H as <-; eauto 14|]
    | context [if ?c then _ else _] => destruct c; cbn [bindR] in H
    | context [match ?o with Some _ => _ | None => _ end] =>
        destruct o eqn:?; cbn [bindR] in H
    end; try discriminate H.
Qed.

(** X8. The validator accepts a request exactly when its provider is a
    non-empty string of the supported set, its width is an integer within
    the width bounds, its height is absent or an integer within the height
    bounds, and it carries no options object of the other provider; a
    rejected request is answered by a validation error on the provider, the
    width, the height or the misplaced options object that carries the
    offending value, or by a provider error that lists the supported
    providers. *)
Theorem validateParams_accepts_exactly (cs : ValidationConstraints)
        (params : Params.t) :
  (PlaceholderValidator.validateParams cs params = Ok tt
   <-> acceptable cs params)
  /\ (forall e,
        PlaceholderValidator.validateParams cs params = Throw e ->
        ~ acceptable cs params
        /\ ((exists field value text,
               e = ValidationError field value text
               /\ In (field, value)
                    [ ("provider", EValue (Params.provider params));
                      ("width", EValue (Params.width params));
                      ("height", EValue (Params.height params)) ])
            \/ (exists o text,
                  Params.picsumOptions params = Some o
                  /\ Params.provider params = VStr "placehold"
                  /\ e = ValidationError "picsumOptions"
                         (EPicsumOptions o) text)
            \/ (exists o text,
                  Params.placeholdOptions params = Some o
                  /\ Params.provider params = VStr "lorem-picsum"
                  /\ e = ValidationError "placeholdOptions"
                         (EPlaceholdOptions o) text)
            \/ e = ProviderError (Params.provider params)
                     ("Unsupported provider. Supported providers: "
                      ++ join ", " (supportedProviders cs)) None)).
Proof.
  split; [apply validateParams_accepts_cases|].
  intros e H. split.
  { intros Ha. apply validateParams_accepts_cases in Ha. congruence. }
  pose proof (validateParams_throws _ _ _ H)
    as [->|[->|[[t ->]|[[t ->]|[[o [t [Eo [Ep ->]]]]|[o [t [Eo [Ep ->]]]]]]]]].
  - left. eexists _, _, _. split; [reflexivity|]. now left.
  - right. right. right. reflexivity.
  - left. eexists _, _, _. split; [reflexivity|]. right. now left.
  - left. eexists _, _, _. split; [reflexivity|]. right. right. now left.
  - right. left. exists o, t. apply strict_eq_string in Ep. auto.
  - right. right. left. exists o, t. apply strict_eq_string in Ep. auto.
Qed.

(** X9. Updates of the constraint set compose: an update followed by another
    is the single update that takes each field from the later one where it
    has it; an update touches nothing but the constraints, which become the
    old ones overridden field by field; and an update repeated changes
    nothing more. *)
Theorem updateConstraints_composes
        (earlier later : PlaceholderValidator.partialConstraints) (h : Heap) :
  heapAfter (PlaceholderValidator.updateConstraints later)
    (heapAfter (PlaceholderValidator.updateConstraints earlier) h)
  = heapAfter (PlaceholderValidator.updateConstraints
                 (mergePartial later earlier)) h
  /\ valueOf PlaceholderValidator.getConstraints
       (heapAfter (PlaceholderValidator.updateConstraints earlier) h)
     = Ok (Config.spread (constraints h) earlier)
  /\ logged (heapAfter (PlaceholderValidator.updateConstraints earlier) h)
     = logged h
  /\ heapAfter (PlaceholderValidator.updateConstraints earlier)
       (heapAfter (PlaceholderValidator.updateConstraints earlier) h)
     = heapAfter (PlaceholderValidator.updateConstraints earlier) h.
Proof.
  destruct earlier as [a1 a2 a3 a4 a5], later as [b1 b2 b3 b4 b5].
  repeat split;
    unfold heapAfter, PlaceholderValidator.updateConstraints, mergePartial,
      orElse, Config.spread, PlaceholderValidator.override;
    cbn; f_equal; f_equal;
    repeat match goal with
      | |- context [match ?x with Some _ => _ | None => _ end] => destruct x
      end; reflexivity.
Qed.

End ValidatorInFull.

(** ** The generator, in full *)

Section GeneratorInFull.

Lemma createBuilder_placehold :
  UrlBuilderFactory.createBuilder (VStr "placehold")
  = Ok (UrlBuilderFactory.Placehold, placeholdBuilder).
Proof. reflexivity. Qed.

Lemma createBuilder_picsum :
  UrlBuilderFactory.createBuilder (VStr "lorem-picsum")
  = Ok (UrlBuilderFactory.Picsum, picsumBuilder).
Proof. reflexivity. Qed.

(** The three cases of the factory. *)
Lemma createBuilder_cases (provider : jsval) :
  (provider = VStr "placehold"
   /\ UrlBuilderFactory.createBuilder provider
      = Ok (UrlBuilderFactory.Placehold, placeholdBuilder))
  \/ (provider = VStr "lorem-picsum"
      /\ UrlBuilderFactory.createBuilder provider
         = Ok (UrlBuilderFactory.Picsum, picsumBuilder))
  \/ (~ isProvider provider
      /\ exists message,
           UrlBuilderFactory.createBuilder provider
           = Throw (ProviderError provider message
                      (Some [ "placehold"; "lorem-picsum" ]))).
Proof.
  destruct (strict_eq provider (VStr "placehold")) eqn:E1.
  { apply strict_eq_string in E1. subst. left. split; reflexivity. }
  destruct (strict_eq provider (VStr "lorem-picsum")) eqn:E2.
  { apply strict_eq_string in E2. subst. right. left. split; reflexivity. }
  right. right. split.
  - intros [H|H]; apply strict_eq_string in H; congruence.
  - unfold UrlBuilderFactory.createBuilder. rewrite E1, E2.
    destruct (UrlBuilderFactory.PROVIDER_CONFIGS (toString provider));
      eexists; reflexivity.
Qed.

Lemma picsum_validateOptions_true (options : option PicsumOptions.t)
      (b : bool) :
  PicsumUrlBuilder.validateOptions options = Ok b -> b = true.
Proof.
  destruct (picsum_validateOptions_outcome options) as [H|[f [v [t H]]]];
    rewrite H; congruence.
Qed.

(** What a successful generation amounts to. *)
Lemma generatePlaceholder_ok (params : Params.t) (h : Heap) (r : Result.t) :
  valueOf (PlaceholderGenerator.generatePlaceholder params) h = Ok r <->
  PlaceholderValidator.validateParams (constraints h) params = Ok tt
  /\ BaseUrlBuilder.validateDimensions (Params.width params)
       (Params.height params) = Ok tt
  /\ ((Params.provider params = VStr "placehold"
       /\ PlaceholdUrlBuilder.validateOptions (Params.placeholdOptions params)
          = Ok true
       /\ Result.url r
          = PlaceholdUrlBuilder.composeUrl placeholdBuilder
              (Params.width params) (Params.height params)
              (Params.placeholdOptions params))
      \/ (Params.provider params = VStr "lorem-picsum"
          /\ PicsumUrlBuilder.validateOptions (Params.picsumOptions params)
             = Ok true
          /\ Result.url r
             = PicsumUrlBuilder.composeUrl picsumBuilder
                 (Params.width params) (Params.height params)
                 (Params.picsumOptions params)))
  /\ Result.provider r = Params.provider params
  /\ Result.dimensions r
     = {| dim_width := Params.width params;
          dim_height := or_else (Params.height params) (Params.width params) |}
  /\ Result.appliedOptions r
     = {| applied_placehold := Params.placeholdOptions params;
          applied_picsum := Params.picsumOptions params |}.
Proof.
  rewrite generatePlaceholder_value.
  destruct (PlaceholderValidator.validateParams (constraints h) params)
    as [[]|e0]; cbn [bindR];
    [|split; [discriminate | intros [H _]; discriminate H]].
  destruct (createBuilder_cases (Params.provider params))
    as [[Ep Eb]|[[Ep Eb]|[Hn [m Eb]]]]; rewrite Eb; cbn [bindR snd].
  - rewrite Ep. cbn [strict_eq]. rewrite String.eqb_refl.
    rewrite placehold_buildUrl_value.
    destruct (BaseUrlBuilder.validateDimensions (Params.width params)
                (Params.height params)) as [[]|e1]; cbn [bindR].
    + pose proof (validateOptions_true (Params.placeholdOptions params)) as Ht.
      destruct (PlaceholdUrlBuilder.validateOptions
                  (Params.placeholdOptions params)) as [b|e2]; cbn [bindR].
      * rewrite (Ht b eq_refl). split.
        -- intros H. injection H as <-. cbn.
           repeat split. left. repeat split.
        -- intros [_ [_ [[[_ [_ Hu]]|[Hp _]] [H1 [H2 H3]]]]];
             [|discriminate Hp].
           destruct r as [u p d a]. cbn in *. congruence.
      * split; [discriminate|].
        intros [_ [_ [[[_ [Hv _]]|[Hp _]] _]]]; discriminate.
    + split; [discriminate|]. intros [_ [Hd _]]. discriminate Hd.
  - rewrite Ep. cbn [strict_eq].
    change (("lorem-picsum" =? "placehold")%string) with false.
    rewrite String.eqb_refl. cbn iota.
    rewrite picsum_buildUrl_value.
    destruct (BaseUrlBuilder.validateDimensions (Params.width params)
                (Params.height params)) as [[]|e1]; cbn [bindR].
    + pose proof (picsum_validateOptions_true (Params.picsumOptions params))
        as Ht.
      destruct (PicsumUrlBuilder.validateOptions
                  (Params.picsumOptions params)) as [b|e2]; cbn [bindR].
      * rewrite (Ht b eq_refl). split.
        -- intros H. injection H as <-. cbn.
           repeat split. right. repeat split.
        -- intros [_ [_ [[[Hp _]|[_ [_ Hu]]] [H1 [H2 H3]]]]];
             [discriminate Hp|].
           destruct r as [u p d a]. cbn in *. congruence.
      * split; [discriminate|].
        intros [_ [_ [[[Hp _]|[_ [Hv _]]] _]]]; discriminate.
    + split; [discriminate|]. intros [_ [Hd _]]. discriminate Hd.
  - split; [discriminate|].
    intros [_ [_ [[[Hp _]|[Hp _]] _]]]; exfalso; apply Hn;
      [left|right]; exact Hp.
Qed.

(** X10. The factory has a builder for exactly the two providers, and no
    name inherited from the prototype of its table gets one: it succeeds
    for the strings placehold and lorem-picsum only, with the base URLs
    https://placehold.co and https://picsum.photos, and every other value
    is answered by a provider error that carries the value and the list of
    the two supported providers. *)
Theorem createBuilder_exactly_two (provider : jsval) :
  (succeeds (UrlBuilderFactory.createBuilder provider) <-> isProvider provider)
  /\ (forall b, UrlBuilderFactory.createBuilder provider = Ok b ->
        baseUrl (snd b)
        = if strict_eq provider (VStr "placehold")
          then "https://placehold.co" else "https://picsum.photos")
  /\ (forall e, UrlBuilderFactory.createBuilder provider = Throw e ->
        exists message,
          e = ProviderError provider message
                (Some UrlBuilderFactory.getSupportedProviders)).
Proof.
  destruct (createBuilder_cases provider)
    as [[Ep Eb]|[[Ep Eb]|[Hn [m Eb]]]]; rewrite Eb.
  - subst provider. split; [|split].
    + split; [intros _; now left | intros _; now eexists].
    + intros b [= <-]. reflexivity.
    + intros e H. discriminate H.
  - subst provider. split; [|split].
    + split; [intros _; now right | intros _; now eexists].
    + intros b [= <-]. reflexivity.
    + intros e H. discriminate H.
  - split; [|split].
    + split; [intros [b H]; discriminate H | intros H; elim (Hn H)].
    + intros b H. discriminate H.
    + intros e [= <-]. now exists m.
Qed.



End GeneratorInFull.

(** ** What is logged *)

Section Logging.

(** A run of the placehold builder: a URL and one more debug record that
    names it, or an error and the heap as it was. *)
Lemma placehold_buildUrl_run this width height options (h : Heap) :
  match valueOf (PlaceholdUrlBuilder.buildUrl this width height options) h with
  | Ok url =>
      exists e,
        PlaceholdUrlBuilder.buildUrl this width height options h
        = (Ok url, heapOf (constraints h) (logged h ++ [e])%list)
        /\ recordOf LDebug url e
  | Throw err =>
      PlaceholdUrlBuilder.buildUrl this width height options h = (Throw err, h)
  end.
Proof.
  unfold valueOf, PlaceholdUrlBuilder.buildUrl, bind, lift.
  destruct (BaseUrlBuilder.validateDimensions width height) as [[]|e];
    [|reflexivity].
  rewrite placehold_validate_any.
  destruct (PlaceholdUrlBuilder.validateOptions options) as [b|e];
    [|reflexivity].
  cbn. eexists. split; [reflexivity|].
  split; [reflexivity|]. split; [reflexivity|]. cbn. auto.
Qed.

Lemma picsum_buildUrl_run this width height options (h : Heap) :
  match valueOf (PicsumUrlBuilder.buildUrl this width height options) h with
  | Ok url =>
      exists e,
        PicsumUrlBuilder.buildUrl this width height options h
        = (Ok url, heapOf (constraints h) (logged h ++ [e])%list)
        /\ recordOf LDebug url e
  | Throw err =>
      PicsumUrlBuilder.buildUrl this width height options h = (Throw err, h)
  end.
Proof.
  unfold valueOf, PicsumUrlBuilder.buildUrl, bind, lift.
  destruct (BaseUrlBuilder.validateDimensions width height) as [[]|e];
    [|reflexivity].
  rewrite picsum_validate_any.
  destruct (PicsumUrlBuilder.validateOptions options) as [b|e];
    [|reflexivity].
  cbn. eexists. split; [reflexivity|].
  split; [reflexivity|]. split; [reflexivity|]. cbn. auto.
Qed.

(** X12. Either builder logs once and only on success: a call that returns
    a URL appends one debug record, which names that URL, and a call that
    throws leaves the log as it was; neither touches the constraints. *)
Theorem builders_log_on_success_only this width height (h : Heap) :
  (forall options,
     match valueOf (PlaceholdUrlBuilder.buildUrl this width height options) h
     with
     | Ok url =>
         exists e,
           appends (PlaceholdUrlBuilder.buildUrl this width height options)
             h [e]
           /\ recordOf LDebug url e
     | Throw _ =>
         heapAfter (PlaceholdUrlBuilder.buildUrl this width height options) h
         = h
     end)
  /\ (forall options,
        match valueOf (PicsumUrlBuilder.buildUrl this width height options) h
        with
        | Ok url =>
            exists e,
              appends (PicsumUrlBuilder.buildUrl this width height options)
                h [e]
              /\ recordOf LDebug url e
        | Throw _ =>
            heapAfter (PicsumUrlBuilder.buildUrl this width height options) h
            = h
        end).
Proof.
  split; intros options.
  - pose proof (placehold_buildUrl_run this width height options h) as H.
    destruct (valueOf (PlaceholdUrlBuilder.buildUrl this width height options)
                h) as [url|err].
    + destruct H as [e [H Hr]]. exists e. unfold appends, heapAfter.
      now rewrite H.
    + unfold heapAfter. now rewrite H.
  - pose proof (picsum_buildUrl_run this width height options h) as H.
    destruct (valueOf (PicsumUrlBuilder.buildUrl this width height options)
                h) as [url|err].
    + destruct H as [e [H Hr]]. exists e. unfold appends, heapAfter.
      now rewrite H.
    + unfold heapAfter. now rewrite H.
Qed.

(** A run of the generator, record by record. *)
Lemma generatePlaceholder_run (params : Params.t) (h : Heap) :
  exists d,
    log_level d = LDebug
    /\ match valueOf (PlaceholderGenerator.generatePlaceholder params) h with
       | Ok r =>
           exists b i,
             appends (PlaceholderGenerator.generatePlaceholder params) h
               [d; b; i]
             /\ recordOf LDebug (Result.url r) b
             /\ recordOf LInfo (Result.url r) i
       | Throw err =>
           match PlaceholderValidator.validateParams (constraints h) params with
           | Throw err' =>
               err' = err
               /\ appends (PlaceholderGenerator.generatePlaceholder params) h
                    [d]
           | Ok _ =>
               exists f,
                 appends (PlaceholderGenerator.generatePlaceholder params) h
                   [d; f]
                 /\ failureRecord params err f
           end
       end.
Proof.
  exists {| log_level := LDebug;
            log_message := "Generating placeholder image";
            log_error := None;
            log_meta := [ ("params", MParams params) ] |}.
  split; [reflexivity|].
  unfold valueOf, appends, heapAfter.
  destruct (PlaceholderGenerator.generatePlaceholder params h) as [r h']
    eqn:E.
  cbn [fst snd].
  unfold PlaceholderGenerator.generatePlaceholder, Logger.debug in E.
  unfold bind at 1 in E. unfold Logger.emit at 1 in E.
  unfold bind at 1 in E. unfold readConstraints in E.
  unfold bind at 1 in E. unfold lift at 1 in E.
  cbn [constraints logged] in E.
  destruct (PlaceholderValidator.validateParams (constraints h) params)
    as [[]|e0].
  2:{ injection E as <- <-. split; reflexivity. }
  unfold tryCatch in E. unfold bind at 1 in E. unfold lift at 1 in E.
  destruct (UrlBuilderFactory.createBuilder (Params.provider params))
    as [urlBuilder|e1].
  2:{ cbn in E. injection E as <- <-.
      eexists. split; [unfold heapOf; rewrite <- app_assoc; reflexivity|].
      split; [reflexivity|]. split; reflexivity. }
  unfold bind at 1 in E.
  destruct (strict_eq (Params.provider params) (VStr "placehold"));
    cbv iota in E.
  - match type of E with
    | context [PlaceholdUrlBuilder.buildUrl ?t ?w ?hh ?o ?hp] =>
        pose proof (placehold_buildUrl_run t w hh o hp) as Hb;
        unfold valueOf in Hb;
        destruct (PlaceholdUrlBuilder.buildUrl t w hh o hp) as [[url|e2] h2]
    end; cbn [fst] in Hb.
    + destruct Hb as [b [[= ->] Hr]].
      cbn in E. injection E as <- <-.
      eexists b, _.
      split; [unfold heapOf; rewrite <- !app_assoc; reflexivity|].
      split; [exact Hr|]. split; [reflexivity|]. split; [reflexivity|].
      cbn. auto.
    + injection Hb as ->. cbn in E. injection E as <- <-.
      eexists. split; [unfold heapOf; rewrite <- app_assoc; reflexivity|].
      split; [reflexivity|]. split; reflexivity.
  - destruct (strict_eq (Params.provider params) (VStr "lorem-picsum"));
      cbv iota in E.
    + match type of E with
      | context [PicsumUrlBuilder.buildUrl ?t ?w ?hh ?o ?hp] =>
          pose proof (picsum_buildUrl_run t w hh o hp) as Hb;
          unfold valueOf in Hb;
          destruct (PicsumUrlBuilder.buildUrl t w hh o hp) as [[url|e2] h2]
      end; cbn [fst] in Hb.
      * destruct Hb as [b [[= ->] Hr]].
        cbn in E. injection E as <- <-.
        eexists b, _.
        split; [unfold heapOf; rewrite <- !app_assoc; reflexivity|].
        split; [exact Hr|]. split; [reflexivity|]. split; [reflexivity|].
        cbn. auto.
      * injection Hb as ->. cbn in E. injection E as <- <-.
        eexists. split; [unfold heapOf; rewrite <- app_assoc; reflexivity|].
        split; [reflexivity|]. split; reflexivity.
    + cbn in E. injection E as <- <-.
      eexists. split; [unfold heapOf; rewrite <- app_assoc; reflexivity|].
      split; [reflexivity|]. split; reflexivity.
Qed.

(** X13. The log of a generation.  A success appends three records: the
    debug record of the request, the debug record of the builder and an info
    record, the last two naming the returned URL.  A request the validator
    rejects appends the first debug record only, so that no error record is
    written for it; any later failure appends that debug record and one
    error record that carries the very error thrown and the request.  A
    console logger at level info therefore prints one record for a success,
    one for a failure after validation and none for a rejected request, and
    one at level debug prints them all. *)
Theorem generation_log_protocol (params : Params.t) (h : Heap) :
  exists entries,
    appends (PlaceholderGenerator.generatePlaceholder params) h entries
    /\ ConsoleLogger.printed LDebug entries = entries
    /\ match valueOf (PlaceholderGenerator.generatePlaceholder params) h with
       | Ok r =>
           exists d b i,
             entries = [d; b; i]
             /\ log_level d = LDebug
             /\ recordOf LDebug (Result.url r) b
             /\ recordOf LInfo (Result.url r) i
             /\ ConsoleLogger.printed LInfo entries = [i]
             /\ ConsoleLogger.printed LError entries = []
       | Throw err =>
           (PlaceholderValidator.validateParams (constraints h) params
            = Throw err
            /\ (exists d, entries = [d] /\ log_level d = LDebug)
            /\ ConsoleLogger.printed LInfo entries = [])
           \/ (PlaceholderValidator.validateParams (constraints h) params
               = Ok tt
               /\ exists d f,
                    entries = [d; f]
                    /\ log_level d = LDebug
                    /\ failureRecord params err f
                    /\ ConsoleLogger.printed LInfo entries = [f]
                    /\ ConsoleLogger.printed LError entries = [f])
       end.
Proof.
  destruct (generatePlaceholder_run params h) as [d [Hd H]].
  destruct (valueOf (PlaceholderGenerator.generatePlaceholder params) h)
    as [r|err].
  - destruct H as [b [i [Ha [Hb Hi]]]]. exists [d; b; i].
    split; [exact Ha|].
    pose proof Hb as [Lb _]. pose proof Hi as [Li _].
    unfold ConsoleLogger.printed. cbn [filter]. rewrite Hd, Lb, Li. cbn.
    split; [reflexivity|]. exists d, b, i. auto 10.
  - destruct (PlaceholderValidator.validateParams (constraints h) params)
      as [[]|err'].
    + destruct H as [f [Ha Hf]]. exists [d; f]. split; [exact Ha|].
      pose proof Hf as [Lf _].
      unfold ConsoleLogger.printed. cbn [filter]. rewrite Hd, Lf. cbn.
      split; [reflexivity|]. right. split; [reflexivity|].
      exists d, f. auto 10.
    + destruct H as [-> Ha]. exists [d]. split; [exact Ha|].
      unfold ConsoleLogger.printed. cbn [filter]. rewrite Hd. cbn.
      split; [reflexivity|]. left. split; [reflexivity|].
      split; [now exists d | reflexivity].
Qed.

End Logging.

(** ** Providers and ranges under any constraint set *)

Section AnyConstraints.

(** X14. Provider errors of a generation come from two places only.  The
    validator throws one, without a list, for a provider outside the
    supported set of the constraints in force; the factory throws one, with
    the list of its two providers, for a provider the constraints admit but
    the factory does not know.  The error always carries the provider of the
    request, and the generator's own fallback error (the bare message
    Unsupported provider) is never thrown. *)
Theorem provider_errors_of_generation (params : Params.t) (h : Heap)
        (provider : jsval) (message : string) (supported : option (list string)) :
  valueOf (PlaceholderGenerator.generatePlaceholder params) h
  = Throw (ProviderError provider message supported) ->
  provider = Params.provider params
  /\ message <> "Unsupported provider"
  /\ ((supported = None
       /\ PlaceholderValidator.validateParams (constraints h) params
          = Throw (ProviderError provider message supported)
       /\ includesV (supportedProviders (constraints h)) provider = false)
      \/ (supported = Some [ "placehold"; "lorem-picsum" ]
          /\ acceptable (constraints h) params
          /\ ~ isProvider provider)).
Proof.
  rewrite generatePlaceholder_value.
  destruct (PlaceholderValidator.validateParams (constraints h) params)
    as [[]|e0] eqn:Ev; cbn [bindR].
  - destruct (createBuilder_cases (Params.provider params))
      as [[Ep Eb]|[[Ep Eb]|[Hn [m Eb]]]]; rewrite Eb; cbn [bindR snd].
    + rewrite Ep. cbn [strict_eq]. rewrite String.eqb_refl.
      rewrite placehold_buildUrl_value.
      destruct (validateDimensions_outcome (Params.width params)
                  (Params.height params)) as [->|[f [v [t ->]]]];
        [|discriminate].
      destruct (placehold_validateOptions_outcome
                  (Params.placeholdOptions params)) as [->|[f [v [t ->]]]];
        discriminate.
    + rewrite Ep. cbn [strict_eq].
      change (("lorem-picsum" =? "placehold")%string) with false.
      rewrite String.eqb_refl. cbn iota.
      rewrite picsum_buildUrl_value.
      destruct (validateDimensions_outcome (Params.width params)
                  (Params.height params)) as [->|[f [v [t ->]]]];
        [|discriminate].
      destruct (picsum_validateOptions_outcome
                  (Params.picsumOptions params)) as [->|[f [v [t ->]]]];
        discriminate.
    + intros [= <- <- <-]. split; [reflexivity|].
      split.
      { revert Eb. unfold UrlBuilderFactory.createBuilder,
          UrlBuilderFactory.noBuilder.
        repeat match goal with
          | |- context [if ?c then _ else _] => destruct c
          | |- context [match ?c with
                        | UrlBuilderFactory.Own _ => _
                        | UrlBuilderFactory.Inherited => _
                        | UrlBuilderFactory.Missing => _ end] => destruct c
          end; intros [= <-]; discriminate. }
      right. split; [reflexivity|].
      split; [now apply validateParams_accepts_cases | exact Hn].
  - intros [= ->].
    pose proof (validateParams_throws _ _ _ Ev)
      as [Hx|[Hx|[[t Hx]|[[t Hx]|[[o [t [_ [_ Hx]]]]|[o [t [_ [_ Hx]]]]]]]]];
      try discriminate Hx.
    injection Hx as -> -> ->. split; [reflexivity|].
    split; [discriminate|]. left. split; [reflexivity|].
    split; [reflexivity|].
    revert Ev. unfold PlaceholderValidator.validateParams,
      PlaceholderValidator.validateProvider.
    destruct (negb (truthy (Params.provider params))
              || negb (typeof (Params.provider params) =? "string")%string);
      cbn [throwIf bindR]; [discriminate|].
    destruct (includesV (supportedProviders (constraints h))
                (Params.provider params)); [|reflexivity].
    cbn [negb throwIf bindR]. intros Ev.
    repeat match type of Ev with
      | context [PlaceholderValidator.validateDimension ?a ?b ?c] =>
          let E := fresh in
          destruct (PlaceholderValidator.validateDimension a b c)
            as [[]|] eqn:E;
          [|apply validateDimension_throws in E as [? ?]];
          cbn [bindR] in Ev
      | context [if ?c then _ else _] => destruct c; cbn [bindR] in Ev
      end; try congruence;
      revert Ev; unfold PlaceholderValidator.validateProviderOptions, throwIf,
        bindR;
      repeat match goal with
        | |- context [if ?c then _ else _] => destruct c
        | |- context [match ?x with Some _ => _ | None => _ end] => destruct x
        end; discriminate.
Qed.

Lemma provider_errors_of_generation_witness :
  VStr "imgur"
  = Params.provider (Examples.request "imgur" 300 None)
  /\ ("Unsupported provider. Supported providers: placehold, lorem-picsum"
      <> "Unsupported provider")
  /\ ((@None (list string) = None
       /\ PlaceholderValidator.validateParams (constraints initialHeap)
            (Examples.request "imgur" 300 None)
          = Throw (ProviderError (VStr "imgur")
                     "Unsupported provider. Supported providers: placehold, lorem-picsum"
                     None)
       /\ includesV (supportedProviders (constraints initialHeap))
            (VStr "imgur") = false)
      \/ (@None (list string) = Some [ "placehold"; "lorem-picsum" ]
          /\ acceptable (constraints initialHeap)
               (Examples.request "imgur" 300 None)
          /\ ~ isProvider (VStr "imgur"))).
Proof.
  apply (provider_errors_of_generation (Examples.request "imgur" 300 None)
           initialHeap (VStr "imgur")
           "Unsupported provider. Supported providers: placehold, lorem-picsum"
           None).
  vm_compute. reflexivity.
Defined.

(** X15. The range in force is the intersection of the bounds of the
    constraint set with the builders' 10 to 4000: for a provider the
    constraints and the factory both know and a request without options, a
    generation succeeds exactly when the width lies between the larger of
    the two minima and the smaller of the two maxima, and so does the
    height when one is given.  Relaxing the constraints never admits a
    dimension below 10 or above 4000. *)
Theorem effective_range (cs : ValidationConstraints) (l : list LogEntry)
        (provider : string) (w : Z) (hh : option Z) :
  isProvider (VStr provider) ->
  includes (supportedProviders cs) provider = true ->
  (succeeds (valueOf (PlaceholderGenerator.generatePlaceholder
                        (Examples.request provider w hh)) (heapOf cs l))
   <-> Z.max 10 (minWidth cs) <= w <= Z.min 4000 (maxWidth cs)
       /\ match hh with
          | Some n => Z.max 10 (minHeight cs) <= n <= Z.min 4000 (maxHeight cs)
          | None => True
          end).
Proof.
  intros Hp Hs.
  assert (Hne : exists a s, provider = String a s).
  { destruct Hp as [[= ->]|[= ->]]; eauto. }
  assert (Hv : PlaceholderValidator.validateParams cs
                 (Examples.request provider w hh) = Ok tt
               <-> minWidth cs <= w <= maxWidth cs
                   /\ match hh with
                      | Some n => minHeight cs <= n <= maxHeight cs
                      | None => True
                      end).
  { rewrite validateParams_accepts_cases. split.
    - intros [_ [w' [[= <-] Hw]] Hh _ _]. split; [exact Hw|].
      cbn in Hh. destruct hh as [n|]; [|exact I].
      destruct Hh as [Hh|[n' [[= <-] Hn]]]; [discriminate Hh|exact Hn].
    - intros [Hw Hh]. constructor; cbn.
      + destruct Hne as [a [s ->]]. now exists a, s.
      + now exists w.
      + destruct hh as [n|]; [right; now exists n | now left].
      + reflexivity.
      + reflexivity. }
  pose proof (validateDimensions_int w hh) as Hd.
  unfold builderRange, builderRangeOpt in Hd.
  split.
  - intros [r H]. apply generatePlaceholder_ok in H.
    destruct H as [H1 [H2 _]].
    unfold heapOf in H1. cbn [constraints] in H1.
    unfold Examples.request in H2. cbn [Params.width Params.height] in H2.
    apply Hv in H1. apply Hd in H2.
    destruct hh as [n|]; unfold builderRange in *; lia.
  - intros [Hw Hh].
    assert (H1 : PlaceholderValidator.validateParams cs
                   (Examples.request provider w hh) = Ok tt)
      by (apply Hv; destruct hh; lia).
    assert (H2 : BaseUrlBuilder.validateDimensions (VInt w) (optInt hh) = Ok tt)
      by (apply Hd; destruct hh; unfold builderRange; lia).
    destruct Hp as [Hp|Hp].
    + eexists {| Result.url := _ |}. apply generatePlaceholder_ok.
      split; [exact H1|]. split; [exact H2|].
      split; [left; split; [exact Hp|split; reflexivity]|].
      cbn. repeat split.
    + eexists {| Result.url := _ |}. apply generatePlaceholder_ok.
      split; [exact H1|]. split; [exact H2|].
      split; [right; split; [exact Hp|split; reflexivity]|].
      cbn. repeat split.
Qed.

Lemma effective_range_witness :
  succeeds (valueOf (PlaceholderGenerator.generatePlaceholder
                       (Examples.request "placehold" 4500 None))
              Examples.relaxedHeap)
  <-> Z.max 10 1 <= 4500 <= Z.min 4000 5000 /\ True.
Proof.
  apply (effective_range (constraints Examples.relaxedHeap) []
           "placehold" 4500 None).
  - left. reflexivity.
  - reflexivity.
Defined.

End AnyConstraints.

(** ** Text and colours (BaseUrlBuilder) *)

Section TextAndColours.

Lemma encodeText_cons (a : ascii) (t : string) :
  BaseUrlBuilder.encodeText (String a t)
  = ((if Ascii.eqb a " " then "+"
      else if Ascii.eqb a BaseUrlBuilder.newline then "\n"
      else String a EmptyString)
     ++ BaseUrlBuilder.encodeText t)%string.
Proof.
  unfold BaseUrlBuilder.encodeText. cbn [replaceAll].
  destruct (Ascii.eqb_spec a " ") as [->|Hs]; [reflexivity|].
  cbn [replaceAll].
  destruct (Ascii.eqb a BaseUrlBuilder.newline); reflexivity.
Qed.

(** X16. The text encoding works character by character, although it is
    written as two global replacements in a row: a space becomes a plus, a
    line feed becomes a backslash and the letter n, and every other
    character stays as it is (ampersand, hash, percent and plus included).
    So the encoding of a concatenation is the concatenation of the
    encodings, the result holds neither a space nor a line feed, it is never
    shorter than the text, and a text without spaces and line feeds is
    returned unchanged. *)
Theorem encodeText_characterwise (s t : string) :
  BaseUrlBuilder.encodeText (s ++ t)
  = (BaseUrlBuilder.encodeText s ++ BaseUrlBuilder.encodeText t)%string
  /\ allChars plainChar (BaseUrlBuilder.encodeText s) = true
  /\ (String.length s <= String.length (BaseUrlBuilder.encodeText s))%nat
  /\ (allChars plainChar s = true <-> BaseUrlBuilder.encodeText s = s)
  /\ (forall a, plainChar a = true ->
        BaseUrlBuilder.encodeText (String a t)
        = String a (BaseUrlBuilder.encodeText t)).
Proof.
  split; [|split; [|split; [|split]]].
  - induction s as [|a s IH]; [reflexivity|].
    cbn [append]. rewrite !encodeText_cons, IH, append_assoc. reflexivity.
  - induction s as [|a s IH]; [reflexivity|].
    rewrite encodeText_cons, allChars_app, IH, andb_true_r.
    destruct (Ascii.eqb_spec a " ") as [->|Hs]; [reflexivity|].
    destruct (Ascii.eqb_spec a BaseUrlBuilder.newline) as [->|Hn];
      [reflexivity|].
    cbn. unfold plainChar.
    destruct (Ascii.eqb_spec a " "); [contradiction|].
    destruct (Ascii.eqb_spec a BaseUrlBuilder.newline); [contradiction|].
    reflexivity.
  - induction s as [|a s IH]; [apply le_n|].
    rewrite encodeText_cons.
    destruct (Ascii.eqb a " "); [cbn; lia|].
    destruct (Ascii.eqb a BaseUrlBuilder.newline); cbn; lia.
  - induction s as [|a s IH]; [split; reflexivity|].
    rewrite encodeText_cons. cbn [allChars]. unfold plainChar at 1.
    destruct (Ascii.eqb_spec a " ") as [->|Hs].
    { cbn. split; [discriminate|]. intros [= H]. }
    destruct (Ascii.eqb_spec a BaseUrlBuilder.newline) as [->|Hn].
    { cbn. split; [discriminate|]. intros [= H]. }
    cbn. rewrite IH. split; [intros ->; reflexivity | intros [= H]; exact H].
  - intros a Ha. rewrite encodeText_cons. unfold plainChar in Ha.
    destruct (Ascii.eqb a " "); [discriminate Ha|].
    destruct (Ascii.eqb a BaseUrlBuilder.newline); [discriminate Ha|].
    reflexivity.
Qed.

Lemma lowerAscii_letter (a : ascii) :
  isAlphaNum (lowerAscii a) = true -> isAlphaNum a = true.
Proof.
  destruct a as [[|] [|] [|] [|] [|] [|] [|] [|]]; vm_compute; congruence.
Qed.

Lemma colourChar_alphaNum (a : ascii) :
  isAlphaNum a = true -> colourChar a = true.
Proof. unfold colourChar. now intros ->. Qed.

Lemma colourChar_code (a : ascii) (n : N) :
  (code a =? n)%N = true -> In n [35; 226; 132; 170]%N -> colourChar a = true.
Proof.
  intros H Hn. apply N.eqb_eq in H. unfold colourChar. rewrite H.
  destruct Hn as [<-|[<-|[<-|[<-|[]]]]]; cbn; now rewrite ?orb_true_r.
Qed.

Lemma colourChar_toLowerCase_bounded (n : nat) :
  forall s : string, (String.length s <= n)%nat ->
    allChars isAlphaNum (toLowerCase s) = true ->
    allChars colourChar s = true.
Proof.
  induction n as [|n IH]; intros s Hs.
  - destruct s; [reflexivity | cbn in Hs; lia].
  - destruct s as [|a t]; [reflexivity|].
    cbn in Hs.
    assert (Hplain :
      allChars isAlphaNum (String (lowerAscii a) (toLowerCase t)) = true ->
      allChars colourChar (String a t) = true).
    { cbn [allChars]. intros H. apply andb_true_iff in H as [Ha Ht].
      rewrite (colourChar_alphaNum _ (lowerAscii_letter _ Ha)).
      apply IH; [lia | exact Ht]. }
    destruct t as [|b [|c u]]; try exact Hplain.
    cbn [toLowerCase].
    destruct ((code a =? 226)%N && (code b =? 132)%N && (code c =? 170)%N)
      eqn:K; [|exact Hplain].
    apply andb_true_iff in K as [K Kc]. apply andb_true_iff in K as [Ka Kb].
    cbn [allChars]. intros H. apply andb_true_iff in H as [_ Hu].
    rewrite (colourChar_code a _ Ka), (colourChar_code b _ Kb),
      (colourChar_code c _ Kc) by (cbn; auto).
    cbn in Hs. apply IH; [lia | exact Hu].
Qed.

Lemma isHexDigit_colourChar (a : ascii) :
  isHexDigit a = true -> colourChar a = true.
Proof.
  destruct a as [[|] [|] [|] [|] [|] [|] [|] [|]]; vm_compute; congruence.
Qed.

(** X17. A colour that passes the colour check is not empty and holds only
    ASCII letters and digits, the hash sign and the bytes of the Kelvin
    sign: no slash, dot, at sign, question mark, ampersand, percent sign or
    space, so a colour never adds a path segment, an extension or a query
    to the URL it is written into. *)
Theorem valid_colour_characters (color : string) :
  BaseUrlBuilder.isValidColor color = true ->
  color <> EmptyString
  /\ allChars colourChar color = true
  /\ allChars (fun a => negb (includes [ "/"; "."; "@"; "?"; "&"; "%"; " " ]
                                 (String a EmptyString))) color = true.
Proof.
  intros H.
  assert (Hne : color <> EmptyString).
  { intros ->. vm_compute in H. discriminate H. }
  assert (Hc : allChars colourChar color = true).
  { unfold BaseUrlBuilder.isValidColor in H.
    apply orb_true_iff in H as [H|H]; [apply orb_true_iff in H as [H|H]|].
    - apply String.eqb_eq in H. now subst color.
    - unfold BaseUrlBuilder.isValidHexColor in H.
      apply andb_true_iff in H as [_ H].
      apply (allChars_weaken _ _ _ isHexDigit_colourChar) in H.
      destruct color as [|a t]; [reflexivity|].
      destruct (Ascii.eqb_spec a "#") as [->|]; [|exact H].
      cbn [allChars]. now rewrite H.
    - apply (colourChar_toLowerCase_bounded (String.length color));
        [apply le_n|].
      apply (includes_Forall (fun w => allChars isAlphaNum w = true)
               BaseUrlBuilder.cssColors); [|exact H].
      repeat constructor. }
  split; [exact Hne|]. split; [exact Hc|].
  revert Hc. apply allChars_weaken.
  intros a. destruct a as [[|] [|] [|] [|] [|] [|] [|] [|]];
    vm_compute; congruence.
Qed.

Lemma valid_colour_characters_witness :
  "#f9FAFB" <> EmptyString
  /\ allChars colourChar "#f9FAFB" = true
  /\ allChars (fun a => negb (includes [ "/"; "."; "@"; "?"; "&"; "%"; " " ]
                                 (String a EmptyString))) "#f9FAFB" = true.
Proof.
  apply (valid_colour_characters "#f9FAFB"). reflexivity.
Defined.

End TextAndColours.

(** ** The URLs of the picsum builder *)

Section PicsumUrls.

Lemma urlChar_uint (d : Decimal.uint) :
  allChars urlChar (NilEmpty.string_of_uint d) = true.
Proof. induction d; simpl; auto. Qed.

Lemma urlChar_showZ (z : Z) : allChars urlChar (showZ z) = true.
Proof.
  unfold showZ, NilZero.string_of_int.
  destruct (Z.to_int z) as [d|d]; unfold NilZero.string_of_uint;
    destruct d; try reflexivity; apply urlChar_uint.
Qed.

Lemma urlChar_hexChar (a : ascii) :
  urlChar (hexChar (code a / 16)) = true
  /\ urlChar (hexChar (code a mod 16)) = true.
Proof.
  destruct a as [[|] [|] [|] [|] [|] [|] [|] [|]]; vm_compute; split; reflexivity.
Qed.

Lemma urlChar_encodeURIComponent (s : string) :
  allChars urlChar (encodeURIComponent s) = true.
Proof.
  induction s as [|a s IH]; [reflexivity|].
  cbn [encodeURIComponent].
  destruct (isUnreserved a) eqn:Ha.
  - cbn [allChars]. unfold urlChar at 1. now rewrite Ha, IH.
  - destruct (urlChar_hexChar a) as [H1 H2].
    cbn [allChars]. now rewrite H1, H2, IH.
Qed.

Lemma urlChar_join (l : list string) :
  Forall (fun s => allChars urlChar s = true) l ->
  allChars urlChar (join "&" l) = true.
Proof.
  unfold join. induction 1 as [|s l Hs Hl IH]; [reflexivity|].
  cbn [String.concat]. destruct l as [|s' l']; [exact Hs|].
  rewrite !allChars_app, Hs, IH. reflexivity.
Qed.

(** The characters of the URL the picsum builder composes from checked
    arguments. *)
Lemma picsum_composeUrl_chars (w : Z) (height : jsval)
      (options : option PicsumOptions.t) :
  (height = VUndefined \/ exists n, height = VInt n) ->
  match options with Some o => picsumValid o | None => True end ->
  allChars urlChar
    (PicsumUrlBuilder.composeUrl picsumBuilder (VInt w) height options) = true.
Proof.
  intros Hh Ho.
  assert (Hheight : forall url,
             allChars urlChar url = true ->
             allChars urlChar
               (if truthy height && negb (strict_eq height (VInt w))
                then url ++ "/" ++ toString height else url) = true).
  { intros url Hu.
    destruct (truthy height && negb (strict_eq height (VInt w)));
      [|exact Hu].
    destruct Hh as [->|[n ->]]; rewrite !allChars_app, Hu;
      [reflexivity|]. cbn [toString]. now rewrite urlChar_showZ. }
  unfold PicsumUrlBuilder.composeUrl. cbv zeta.
  assert (Hquery : forall url l,
             allChars urlChar url = true ->
             Forall (fun s => allChars urlChar s = true) l ->
             allChars urlChar
               (if 0 <? Z.of_nat (List.length l)
                then url ++ "?" ++ join "&" l else url) = true).
  { intros url l Hu Hl.
    destruct (0 <? Z.of_nat (List.length l)); [|exact Hu].
    now rewrite !allChars_app, Hu, urlChar_join. }
  apply Hquery.
  - (* the path *)
    assert (Hformat : forall url,
               allChars urlChar url = true ->
               allChars urlChar
                 (if truthy (PicsumOptions.get PicsumOptions.format options)
                  then url ++ "."
                       ++ toString (PicsumOptions.get PicsumOptions.format
                                      options)
                  else url) = true).
    { intros url Hu.
      destruct (truthy (PicsumOptions.get PicsumOptions.format options))
        eqn:Ef; [|exact Hu].
      destruct options as [o|]; [|discriminate Ef].
      cbn [PicsumOptions.get] in *.
      pose proof (valid_picsum_format o Ho Ef) as Hf.
      destruct (PicsumOptions.format o) as [| |?|?| |?|s|];
        try discriminate Hf.
      cbn in Hf. rewrite !orb_true_iff in Hf.
      rewrite !allChars_app, Hu. cbn [toString].
      destruct Hf as [Hf|[Hf|Hf]]; [| |discriminate Hf];
        apply String.eqb_eq in Hf; subst s; reflexivity. }
    apply Hformat. apply Hheight.
    rewrite !allChars_app. cbn [toString]. rewrite urlChar_showZ.
    change (allChars urlChar "/") with true. rewrite !andb_true_r.
    destruct options as [o|]; [|reflexivity].
    cbn [PicsumOptions.get].
    destruct (valid_imageId o Ho) as [->|[i [-> Hi]]].
    + cbn [truthy].
      destruct (valid_seed o Ho) as [->|[s [-> Hs]]]; [reflexivity|].
      destruct (truthy (VStr s)); [|reflexivity].
      rewrite !allChars_app. cbn [toString].
      now rewrite urlChar_encodeURIComponent.
    + destruct (truthy (VInt i)).
      * rewrite !allChars_app. cbn [toString]. now rewrite urlChar_showZ.
      * destruct (valid_seed o Ho) as [->|[s [-> Hs]]]; [reflexivity|].
        destruct (truthy (VStr s)); [|reflexivity].
        rewrite !allChars_app. cbn [toString].
        now rewrite urlChar_encodeURIComponent.
  - (* the effects *)
    destruct options as [o|]; [|constructor].
    cbn [PicsumOptions.get].
    assert (Hb : forall l,
               Forall (fun s => allChars urlChar s = true) l ->
               Forall (fun s => allChars urlChar s = true)
                 (if negb (strict_eq (PicsumOptions.blur o) VUndefined) then
                    if strict_eq (PicsumOptions.blur o) (VInt 0)
                       || strict_eq (PicsumOptions.blur o) (VInt 1)
                    then push l "blur"
                    else push l ("blur=" ++ toString (PicsumOptions.blur o))
                  else l)).
    { intros l Hl.
      destruct (valid_blur o Ho) as [->|[n [-> Hn]]]; [exact Hl|].
      cbn [strict_eq negb].
      destruct (Z.eqb n 0 || Z.eqb n 1); unfold push; apply Forall_app; split;
        try exact Hl; repeat constructor.
      rewrite allChars_app. cbn [toString]. now rewrite urlChar_showZ. }
    assert (Hr : forall l,
               Forall (fun s => allChars urlChar s = true) l ->
               Forall (fun s => allChars urlChar s = true)
                 (if negb (strict_eq (PicsumOptions.random o) VUndefined)
                  then push l ("random=" ++ toString (PicsumOptions.random o))
                  else l)).
    { intros l Hl.
      destruct (valid_random o Ho) as [->|[n [-> Hn]]]; [exact Hl|].
      cbn [strict_eq negb]. unfold push. apply Forall_app; split; [exact Hl|].
      repeat constructor.
      rewrite allChars_app. cbn [toString]. now rewrite urlChar_showZ. }
    apply Hr. apply Hb.
    destruct (truthy (PicsumOptions.grayscale o)); unfold push;
      repeat constructor.
Qed.

(** X18. For options whose image id and random value are below 1e21 and
    whose seed is well-formed text, every URL the picsum builder returns is
    plain ASCII and needs no further encoding: it is made of unreserved
    characters, the percent signs of the encoded seed and the delimiters
    colon, slash, question mark, ampersand and equals sign, whatever the
    characters of the seed are.  (From 1e21 on a number is printed with an
    exponent, whose plus sign is none of these characters.) *)
Theorem picsum_url_characters (width height : jsval)
        (options : option PicsumOptions.t) (h : Heap) (url : string) :
  plainRequest options = true ->
  valueOf (PicsumUrlBuilder.buildUrl picsumBuilder width height options) h
  = Ok url ->
  allChars urlChar url = true.
Proof.
  intros _. rewrite picsum_buildUrl_value.
  destruct (BaseUrlBuilder.validateDimensions width height) as [[]|] eqn:Hd;
    [|discriminate].
  cbn [bindR].
  destruct (PicsumUrlBuilder.validateOptions options) as [b|] eqn:Ho;
    [|discriminate].
  cbn [bindR]. intros [= <-].
  apply validateDimensions_ok in Hd as [[w [-> _]] Hh].
  apply picsum_composeUrl_chars.
  - destruct Hh as [Hh|[n [Hh _]]]; [now left | right; now exists n].
  - destruct options as [o|]; [|exact I].
    apply picsum_validateOptions_ok.
    now rewrite (picsum_validateOptions_true _ _ Ho) in Ho.
Qed.

Lemma picsum_url_characters_witness :
  allChars urlChar "https://picsum.photos/seed/a%20b%2Fc/400/300.webp?grayscale&blur=3"
  = true.
Proof.
  apply (picsum_url_characters (VInt 400) (VInt 300)
           (Some (PicsumOptions.mk (VStr "webp") VUndefined (VStr "a b/c")
                    (VBool true) (VInt 3) VUndefined))
           initialHeap).
  - reflexivity.
  - reflexivity.
Defined.

End PicsumUrls.

(** ** Option validation of the two builders *)

Section OptionContracts.

(** X19. The defaults of placehold.co are written as nothing.  Options with
    the font lato build what the same options without a font build, error
    for error and URL for URL; so do options with the format svg and the
    same options without a format, as long as no retina scale is given.
    With a retina scale the two differ: svg is then rejected. *)
Theorem defaults_elided (this : UrlBuilder) (width height : jsval)
        (o : PlaceholdOptions.t) (h : Heap) :
  valueOf (PlaceholdUrlBuilder.buildUrl this width height
             (Some (withFont (Some "lato") o))) h
  = valueOf (PlaceholdUrlBuilder.buildUrl this width height
               (Some (withFont None o))) h
  /\ (truthyS (PlaceholdOptions.retina o) = false ->
      valueOf (PlaceholdUrlBuilder.buildUrl this width height
                 (Some (withFormat (Some "svg") o))) h
      = valueOf (PlaceholdUrlBuilder.buildUrl this width height
                   (Some (withFormat None o))) h)
  /\ (truthyS (PlaceholdOptions.retina o) = true ->
      failsValidation
        (PlaceholdUrlBuilder.validateOptions
           (Some (withFormat (Some "svg") o)))).
Proof.
  rewrite !placehold_buildUrl_value.
  split; [|split].
  - destruct (BaseUrlBuilder.validateDimensions width height) as [[]|e];
      [|reflexivity].
    cbn [bindR].
    unfold PlaceholdUrlBuilder.validateOptions, PlaceholdUrlBuilder.composeUrl,
      withFont.
    cbn [PlaceholdOptions.format PlaceholdOptions.backgroundColor
         PlaceholdOptions.textColor PlaceholdOptions.customText
         PlaceholdOptions.font PlaceholdOptions.retina PlaceholdOptions.get
         truthyS strOf andb negb throwIf bindR].
    change (includes PlaceholdUrlBuilder.supportedFonts "lato") with true.
    change (("lato" =? "lato")%string) with true.
    cbn [negb andb throwIf bindR]. reflexivity.
  - intros Hr.
    destruct (BaseUrlBuilder.validateDimensions width height) as [[]|e];
      [|reflexivity].
    cbn [bindR].
    unfold PlaceholdUrlBuilder.validateOptions, PlaceholdUrlBuilder.composeUrl,
      withFormat.
    cbn [PlaceholdOptions.format PlaceholdOptions.backgroundColor
         PlaceholdOptions.textColor PlaceholdOptions.customText
         PlaceholdOptions.font PlaceholdOptions.retina PlaceholdOptions.get
         truthyS strOf].
    rewrite Hr.
    change (includes PlaceholdUrlBuilder.supportedFormats "svg") with true.
    change (("svg" =? "svg")%string) with true.
    cbn [negb andb throwIf bindR]. reflexivity.
  - intros Hr.
    unfold failsValidation, PlaceholdUrlBuilder.validateOptions, withFormat.
    cbn [PlaceholdOptions.format PlaceholdOptions.backgroundColor
         PlaceholdOptions.textColor PlaceholdOptions.customText
         PlaceholdOptions.font PlaceholdOptions.retina PlaceholdOptions.get
         truthyS strOf].
    rewrite Hr.
    change (includes PlaceholdUrlBuilder.supportedFormats "svg") with true.
    change (includes PlaceholdUrlBuilder.retinaFormats "svg") with false.
    cbn [negb andb throwIf bindR]. now eexists _, _, _.
Qed.

Lemma placehold_validateOptions_fields (options : option PlaceholdOptions.t)
      (e : error) :
  PlaceholdUrlBuilder.validateOptions options = Throw e ->
  exists field value text,
    e = ValidationError field (EValue (VStr value)) text
    /\ In field [ "format"; "retina"; "colors"; "backgroundColor";
                  "textColor"; "font" ].
Proof.
  destruct options as [o|]; [|discriminate].
  unfold PlaceholdUrlBuilder.validateOptions, throwIf, bindR.
  repeat match goal with
    | |- context [if ?c then _ else _] => destruct c
    end; intros H; try discriminate H; injection H as <-;
    eexists _, _, _; (split; [reflexivity|]); cbn; auto 10.
Qed.

Lemma picsum_validateOptions_fields (options : option PicsumOptions.t)
      (e : error) :
  PicsumUrlBuilder.validateOptions options = Throw e ->
  exists field value text,
    e = ValidationError field (EValue value) text
    /\ In field [ "format"; "imageId"; "seed"; "blur"; "random"; "options" ].
Proof.
  destruct options as [o|]; [|discriminate].
  unfold PicsumUrlBuilder.validateOptions, throwIf, bindR.
  repeat match goal with
    | |- context [if ?c then _ else _] => destruct c
    end; intros H; try discriminate H; injection H as <-;
    eexists _, _, _; (split; [reflexivity|]); cbn; auto 10.
Qed.

(** X20. The option check of the placehold builder.  It accepts options
    exactly when a format is one of the six formats, a retina scale is 2x
    or 3x and comes with no format or with a raster one, the two colours
    come together and are both valid colours, and a font is one of the
    twelve fonts; the custom text is never looked at.  It never returns
    false: it returns true or throws a validation error on the format, the
    retina scale, the colours or the font. *)
Theorem placehold_options_contract (o : PlaceholdOptions.t) :
  (PlaceholdUrlBuilder.validateOptions (Some o) = Ok true <-> placeholdValid o)
  /\ PlaceholdUrlBuilder.validateOptions (Some o) <> Ok false
  /\ (forall text,
        PlaceholdUrlBuilder.validateOptions
          (Some (PlaceholdOptions.withCustomText text o))
        = PlaceholdUrlBuilder.validateOptions (Some o))
  /\ (forall e,
        PlaceholdUrlBuilder.validateOptions (Some o) = Throw e ->
        exists field,
          errorField e = Some field
          /\ In field [ "format"; "retina"; "colors"; "backgroundColor";
                        "textColor"; "font" ]).
Proof.
  split; [apply placehold_validateOptions_ok|].
  split; [intros H; apply validateOptions_true in H; discriminate H|].
  split; [reflexivity|].
  intros e H.
  destruct (placehold_validateOptions_fields _ _ H) as [f [v [t [-> Hin]]]].
  now exists f.
Qed.

(** X21. The option check of the picsum builder.  It accepts options
    exactly when a truthy format is jpg or webp, an image id and a random
    value are integers from 0 up, a seed is a string that is not blank, a
    blur is an integer from 1 to 10 and not both an image id and a seed are
    given; the grayscale flag is never looked at.  It never returns false:
    it returns true or throws a validation error on one of those fields. *)
Theorem picsum_options_contract (o : PicsumOptions.t) :
  (PicsumUrlBuilder.validateOptions (Some o) = Ok true <-> picsumValid o)
  /\ PicsumUrlBuilder.validateOptions (Some o) <> Ok false
  /\ (forall flag,
        PicsumUrlBuilder.validateOptions
          (Some (PicsumOptions.mk (PicsumOptions.format o)
                   (PicsumOptions.imageId o) (PicsumOptions.seed o) flag
                   (PicsumOptions.blur o) (PicsumOptions.random o)))
        = PicsumUrlBuilder.validateOptions (Some o))
  /\ (forall e,
        PicsumUrlBuilder.validateOptions (Some o) = Throw e ->
        exists field,
          errorField e = Some field
          /\ In field [ "format"; "imageId"; "seed"; "blur"; "random";
                        "options" ]).
Proof.
  split; [apply picsum_validateOptions_ok|].
  split; [intros H; apply picsum_validateOptions_true in H; discriminate H|].
  split; [reflexivity|].
  intros e H.
  destruct (picsum_validateOptions_fields _ _ H) as [f [v [t [-> Hin]]]].
  now exists f.
Qed.

End OptionContracts.

(** ** Configuration and the legacy entry point *)

Section ConfigurationAndLegacy.

Lemma parseInt10_cases (s : string) :
  JsText.parseInt10 s = VNaN \/ exists z, JsText.parseInt10 s = VInt z.
Proof.
  unfold JsText.parseInt10, JsText.parseSigned.
  destruct (JsText.skipWhiteSpace s) as [|a t]; [now left|].
  destruct (Ascii.eqb a "-"); [|destruct (Ascii.eqb a "+")]; cbv iota beta.
  - destruct t as [|x u]; [now left|]. destruct (JsText.isDigit x); eauto.
  - destruct t as [|x u]; [now left|]. destruct (JsText.isDigit x); eauto.
  - destruct (JsText.isDigit a); eauto.
Qed.

(** What one variable contributes. *)
Lemma readBound_cases (env : Config.Env) (name : string) :
  (unset env name /\ Config.readBound env name = Config.Configured None)
  \/ (exists z, 1 <= z
                /\ JsText.parseInt10 (strOf (env name)) = VInt z
                /\ Config.readBound env name = Config.Configured (Some z))
  \/ (truthyS (env name) = true
      /\ Config.readBound env name
         = Config.ConfigurationError name (strOf (env name))
             "Positive integer >= 1").
Proof.
  unfold Config.readBound, unset.
  destruct (truthyS (env name)); [|now left].
  right.
  destruct (parseInt10_cases (strOf (env name))) as [->|[z ->]].
  - right. split; reflexivity.
  - cbn [isNaN lt orb].
    destruct (Z.ltb_spec z 1); [right; split; reflexivity|].
    left. exists z. auto.
Qed.

Lemma readBound_ok (env : Config.Env) (name : string) :
  match Config.readBound env name with
  | Config.Configured b =>
      match b with Some z => 1 <= z | None => True end
      /\ (unset env name -> b = None)
  | Config.ConfigurationError setting _ _ => setting = name
  end.
Proof.
  destruct (readBound_cases env name) as [[U ->]|[[z [H [_ E]]]|[T ->]]].
  - split; [exact I | reflexivity].
  - rewrite E. split; [exact H|].
    unfold unset. intros U. revert E. unfold Config.readBound. rewrite U.
    discriminate.
  - reflexivity.
Qed.

Lemma getEnvironmentConstraints_ok (env : Config.Env) :
  match Config.getEnvironmentConstraints env with
  | Config.Configured p =>
      (match PlaceholderValidator.newMinWidth p with
       | Some z => 1 <= z | None => True end
       /\ (unset env "MCP_MIN_WIDTH"
           -> PlaceholderValidator.newMinWidth p = None))
      /\ (match PlaceholderValidator.newMaxWidth p with
          | Some z => 1 <= z | None => True end
          /\ (unset env "MCP_MAX_WIDTH"
              -> PlaceholderValidator.newMaxWidth p = None))
      /\ (match PlaceholderValidator.newMinHeight p with
          | Some z => 1 <= z | None => True end
          /\ (unset env "MCP_MIN_HEIGHT"
              -> PlaceholderValidator.newMinHeight p = None))
      /\ (match PlaceholderValidator.newMaxHeight p with
          | Some z => 1 <= z | None => True end
          /\ (unset env "MCP_MAX_HEIGHT"
              -> PlaceholderValidator.newMaxHeight p = None))
      /\ PlaceholderValidator.newSupportedProviders p = None
  | Config.ConfigurationError setting _ _ => In setting boundVariables
  end.
Proof.
  unfold Config.getEnvironmentConstraints.
  pose proof (readBound_ok env "MCP_MIN_WIDTH") as H1.
  destruct (Config.readBound env "MCP_MIN_WIDTH") as [b1|s1 v1 f1];
    cbn [Config.andThen]; [|subst s1; cbn; auto].
  pose proof (readBound_ok env "MCP_MAX_WIDTH") as H2.
  destruct (Config.readBound env "MCP_MAX_WIDTH") as [b2|s2 v2 f2];
    cbn [Config.andThen]; [|subst s2; cbn; auto].
  pose proof (readBound_ok env "MCP_MIN_HEIGHT") as H3.
  destruct (Config.readBound env "MCP_MIN_HEIGHT") as [b3|s3 v3 f3];
    cbn [Config.andThen]; [|subst s3; cbn; auto].
  pose proof (readBound_ok env "MCP_MAX_HEIGHT") as H4.
  destruct (Config.readBound env "MCP_MAX_HEIGHT") as [b4|s4 v4 f4];
    cbn [Config.andThen]; [|subst s4; cbn; auto].
  cbn. auto.
Qed.

Lemma createValidationConstraints_providers (env : Config.Env) :
  match Config.createValidationConstraints env with
  | Config.Configured cs =>
      supportedProviders cs = [ "placehold"; "lorem-picsum" ]
  | Config.ConfigurationError _ _ _ => True
  end.
Proof.
  unfold Config.createValidationConstraints.
  pose proof (getEnvironmentConstraints_ok env) as H.
  destruct (Config.getEnvironmentConstraints env) as [p|s v f];
    cbn [Config.andThen]; [|exact I].
  destruct H as [_ [_ [_ [_ H5]]]].
  repeat match goal with
    | |- context [if ?c then _ else _] => destruct c
    end; try exact I.
  unfold Config.spread. cbn [supportedProviders]. now rewrite H5.
Qed.

(** X22. The constraints read from the environment.  When the
    configuration is accepted, every bound is at least 1, each minimum is at
    most its maximum, the supported providers are the two defaults, and a
    bound whose variable is unset or empty keeps its default (1 or 10000);
    with none of the four variables set the result is the default
    constraint set.  When it is rejected, the error names one of the four
    variables or the width or height pair. *)
Theorem createValidationConstraints_sound (env : Config.Env) :
  match Config.createValidationConstraints env with
  | Config.Configured cs =>
      1 <= minWidth cs <= maxWidth cs
      /\ 1 <= minHeight cs <= maxHeight cs
      /\ supportedProviders cs = [ "placehold"; "lorem-picsum" ]
      /\ (unset env "MCP_MIN_WIDTH" -> minWidth cs = 1)
      /\ (unset env "MCP_MAX_WIDTH" -> maxWidth cs = 10000)
      /\ (unset env "MCP_MIN_HEIGHT" -> minHeight cs = 1)
      /\ (unset env "MCP_MAX_HEIGHT" -> maxHeight cs = 10000)
      /\ (Forall (unset env) boundVariables -> cs = DEFAULT_CONSTRAINTS)
  | Config.ConfigurationError setting _ _ =>
      In setting (boundVariables
                    ++ [ "width constraints"; "height constraints" ])%list
  end.
Proof.
  unfold Config.createValidationConstraints.
  pose proof (getEnvironmentConstraints_ok env) as H.
  destruct (Config.getEnvironmentConstraints env) as [p|s v f];
    cbn [Config.andThen];
    [|apply in_or_app; now left].
  destruct H as [[H1 U1] [[H2 U2] [[H3 U3] [[H4 U4] H5]]]].
  destruct p as [b1 b2 b3 b4 b5]. cbn in H1, U1, H2, U2, H3, U3, H4, U4, H5.
  subst b5.
  unfold Config.spread, PlaceholderValidator.override, DEFAULT_CONSTRAINTS.
  cbn [minWidth maxWidth minHeight maxHeight supportedProviders
       PlaceholderValidator.newMinWidth PlaceholderValidator.newMaxWidth
       PlaceholderValidator.newMinHeight PlaceholderValidator.newMaxHeight
       PlaceholderValidator.newSupportedProviders].
  match goal with
  | |- context [?a >? ?b] => destruct (Z.gtb_spec a b) as [Gw|Gw]
  end; [cbn; auto 10|].
  match goal with
  | |- context [?a >? ?b] => destruct (Z.gtb_spec a b) as [Gh|Gh]
  end; [cbn; auto 10|].
  cbn [minWidth maxWidth minHeight maxHeight supportedProviders].
  split; [destruct b1, b2; lia|]. split; [destruct b3, b4; lia|].
  split; [reflexivity|].
  split; [intros U; now rewrite (U1 U)|].
  split; [intros U; now rewrite (U2 U)|].
  split; [intros U; now rewrite (U3 U)|].
  split; [intros U; now rewrite (U4 U)|].
  intros HF. unfold boundVariables in HF.
  inversion HF as [|? ? F1 HF1]; subst.
  inversion HF1 as [|? ? F2 HF2]; subst.
  inversion HF2 as [|? ? F3 HF3]; subst.
  inversion HF3 as [|? ? F4 HF4]; subst.
  now rewrite (U1 F1), (U2 F2), (U3 F3), (U4 F4).
Qed.

Lemma replaceFirstSub_here (pattern replacement s : string) :
  String.prefix pattern s = true ->
  JsText.replaceFirstSub pattern replacement s
  = (replacement ++ JsText.drop (String.length pattern) s)%string.
Proof. intros H. destruct s; cbn [JsText.replaceFirstSub]; now rewrite H. Qed.

Lemma replaceFirstSub_skip (pattern replacement a b : string) :
  noBrace a = true ->
  JsText.replaceFirstSub (String "{" pattern) replacement (a ++ b)
  = (a ++ JsText.replaceFirstSub (String "{" pattern) replacement b)%string.
Proof.
  induction a as [|x a IH]; [reflexivity|].
  unfold noBrace. cbn [allChars append]. intros H.
  apply andb_true_iff in H as [Hx Ha].
  cbn [JsText.replaceFirstSub String.prefix].
  destruct (Ascii.ascii_dec "{" x) as [<-|_]; [discriminate Hx|].
  now rewrite (IH Ha).
Qed.

Lemma noBrace_showZ (z : Z) : noBrace (showZ z) = true.
Proof.
  apply (allChars_weaken urlChar); [|apply urlChar_showZ].
  intros a. destruct a as [[|] [|] [|] [|] [|] [|] [|] [|]];
    vm_compute; congruence.
Qed.

(** The text the legacy entry point makes of a provider's template. *)
Lemma legacy_template (provider : string) (config : Config.providerEntry)
      (w n : Z) :
  Config.createProviderConfig provider = Some config ->
  JsText.replaceFirstSub "{height}" (showZ n)
    (JsText.replaceFirstSub "{width}" (showZ w)
       (JsText.replaceFirstSub "{baseUrl}" (Config.entryBaseUrl config)
          (Config.urlTemplate config)))
  = (baseOf provider ++ "/" ++ showZ w ++ separatorOf provider ++ showZ n)%string.
Proof.
  unfold Config.createProviderConfig, Config.DEFAULT_PROVIDER_CONFIG,
    baseOf, separatorOf.
  destruct (provider =? "placehold")%string.
  - intros [= <-]. cbn [Config.entryBaseUrl Config.urlTemplate].
    rewrite (replaceFirstSub_here "{baseUrl}") by reflexivity.
    change ("https://placehold.co"
            ++ JsText.drop (String.length "{baseUrl}")
                 "{baseUrl}/{width}x{height}")%string
      with ("https://placehold.co/" ++ "{width}x{height}")%string.
    rewrite (replaceFirstSub_skip "width}") by reflexivity.
    rewrite (replaceFirstSub_here "{width}") by reflexivity.
    change (JsText.drop (String.length "{width}") "{width}x{height}")
      with ("x" ++ "{height}")%string.
    rewrite <- !append_assoc.
    rewrite (replaceFirstSub_skip "height}").
    + rewrite (replaceFirstSub_here "{height}") by reflexivity.
      change (JsText.drop (String.length "{height}") "{height}")
        with EmptyString.
      rewrite append_empty_r, !append_assoc. reflexivity.
    + unfold noBrace. rewrite !allChars_app.
      fold (noBrace (showZ w)). rewrite noBrace_showZ. reflexivity.
  - destruct (provider =? "lorem-picsum")%string; [|discriminate].
    intros [= <-]. cbn [Config.entryBaseUrl Config.urlTemplate].
    rewrite (replaceFirstSub_here "{baseUrl}") by reflexivity.
    change ("https://picsum.photos"
            ++ JsText.drop (String.length "{baseUrl}")
                 "{baseUrl}/{width}/{height}")%string
      with ("https://picsum.photos/" ++ "{width}/{height}")%string.
    rewrite (replaceFirstSub_skip "width}") by reflexivity.
    rewrite (replaceFirstSub_here "{width}") by reflexivity.
    change (JsText.drop (String.length "{width}") "{width}/{height}")
      with ("/" ++ "{height}")%string.
    rewrite <- !append_assoc.
    rewrite (replaceFirstSub_skip "height}").
    + rewrite (replaceFirstSub_here "{height}") by reflexivity.
      change (JsText.drop (String.length "{height}") "{height}")
        with EmptyString.
      rewrite append_empty_r, !append_assoc. reflexivity.
    + unfold noBrace. rewrite !allChars_app.
      fold (noBrace (showZ w)). rewrite noBrace_showZ. reflexivity.
Qed.

Lemma legacy_validated (cs : ValidationConstraints) (provider : jsval)
      (w n : Z) :
  PlaceholderValidator.validateParams cs
    (Params.mk provider (VInt w) (VInt n) None None) = Ok tt
  <-> ((exists a s, provider = VStr (String a s)
                    /\ includes (supportedProviders cs) (String a s) = true)
       /\ minWidth cs <= w <= maxWidth cs
       /\ minHeight cs <= n <= maxHeight cs).
Proof.
  rewrite validateParams_accepts_cases. split.
  - intros [Hp [w' [[= <-] Hw]] Hh _ _]. cbn in Hp, Hh.
    destruct Hh as [Hh|[n' [[= <-] Hn]]]; [discriminate Hh|]. auto.
  - intros [Hp [Hw Hn]]. constructor; cbn; eauto.
Qed.

Lemma legacy_returns (env : Config.Env) (cs : ValidationConstraints)
      (provider : string) (w n : Z) :
  Config.createValidationConstraints env = Config.Configured cs ->
  isProvider (VStr provider) ->
  PlaceholderValidator.validateParams cs
    (Params.mk (VStr provider) (VInt w) (VInt n) None None) = Ok tt ->
  Legacy.image_placeholder env (VStr provider) (VInt w) (VInt n)
  = Legacy.Returned
      (baseOf provider ++ "/" ++ showZ w ++ separatorOf provider ++ showZ n).
Proof.
  intros Hc Hp Hv.
  assert (Hcfg : exists config,
             Config.createProviderConfig provider = Some config).
  { destruct Hp as [[= ->]|[= ->]]; eexists; reflexivity. }
  destruct Hcfg as [config Hcfg].
  unfold Legacy.image_placeholder. rewrite Hc, Hv. cbn [toString].
  rewrite Hcfg. now rewrite (legacy_template _ _ _ _ Hcfg).
Qed.

(** X23. The legacy entry point.  Under an accepted configuration and for
    one of the two providers it returns a URL exactly when the width and the
    height lie within the configured bounds, and the URL is then the base
    URL, the width and the height, joined by an x for placehold and by a
    slash for lorem-picsum; the height is always written, also when it
    equals the width.  Without a height it never returns a URL.  This is
    stated for configured bounds up to 2^53, which [parseInt] reads exactly
    and within which every dimension is printed in decimal. *)
Theorem legacy_url (env : Config.Env) (cs : ValidationConstraints)
        (provider : string) (w n : Z) :
  Config.createValidationConstraints env = Config.Configured cs ->
  exactBounds cs ->
  isProvider (VStr provider) ->
  (minWidth cs <= w <= maxWidth cs /\ minHeight cs <= n <= maxHeight cs ->
   Legacy.image_placeholder env (VStr provider) (VInt w) (VInt n)
   = Legacy.Returned
       (baseOf provider ++ "/" ++ showZ w ++ separatorOf provider ++ showZ n))
  /\ (forall url,
        Legacy.image_placeholder env (VStr provider) (VInt w) (VInt n)
        = Legacy.Returned url ->
        (minWidth cs <= w <= maxWidth cs /\ minHeight cs <= n <= maxHeight cs)
        /\ url = (baseOf provider ++ "/" ++ showZ w ++ separatorOf provider
                  ++ showZ n)%string)
  /\ (forall url,
        Legacy.image_placeholder env (VStr provider) (VInt w) VUndefined
        <> Legacy.Returned url).
Proof.
  intros Hc _ Hp.
  assert (Hs : includes (supportedProviders cs) provider = true).
  { pose proof (createValidationConstraints_providers env) as H.
    rewrite Hc in H. rewrite H.
    destruct Hp as [[= ->]|[= ->]]; reflexivity. }
  assert (Hcfg : exists config,
             Config.createProviderConfig provider = Some config).
  { destruct Hp as [[= ->]|[= ->]]; eexists; reflexivity. }
  destruct Hcfg as [config Hcfg].
  assert (Hne : exists a s, provider = String a s)
    by (destruct Hp as [[= ->]|[= ->]]; eauto).
  unfold Legacy.image_placeholder. rewrite Hc. cbn [toString].
  rewrite Hcfg.
  split; [|split].
  - intros [Hw Hn].
    assert (Hv : PlaceholderValidator.validateParams cs
                   (Params.mk (VStr provider) (VInt w) (VInt n) None None)
                 = Ok tt).
    { apply legacy_validated. split; [|now split].
      destruct Hne as [a [s ->]]. now exists a, s. }
    rewrite Hv. now rewrite (legacy_template _ _ _ _ Hcfg).
  - intros url.
    destruct (PlaceholderValidator.validateParams cs
                (Params.mk (VStr provider) (VInt w) (VInt n) None None))
      as [[]|e] eqn:Hv; [|discriminate].
    apply legacy_validated in Hv as [_ Hr].
    rewrite (legacy_template _ _ _ _ Hcfg). intros [= <-]. auto.
  - intros url.
    destruct (PlaceholderValidator.validateParams cs
                (Params.mk (VStr provider) (VInt w) VUndefined None None));
      discriminate.
Qed.

Lemma legacy_url_witness :
  (minWidth DEFAULT_CONSTRAINTS <= 5 <= maxWidth DEFAULT_CONSTRAINTS
   /\ minHeight DEFAULT_CONSTRAINTS <= 5 <= maxHeight DEFAULT_CONSTRAINTS ->
   Legacy.image_placeholder Config.emptyEnv (VStr "placehold") (VInt 5) (VInt 5)
   = Legacy.Returned
       (baseOf "placehold" ++ "/" ++ showZ 5 ++ separatorOf "placehold"
        ++ showZ 5))
  /\ (forall url,
        Legacy.image_placeholder Config.emptyEnv (VStr "placehold")
          (VInt 5) (VInt 5)
        = Legacy.Returned url ->
        (minWidth DEFAULT_CONSTRAINTS <= 5 <= maxWidth DEFAULT_CONSTRAINTS
         /\ minHeight DEFAULT_CONSTRAINTS <= 5 <= maxHeight DEFAULT_CONSTRAINTS)
        /\ url = (baseOf "placehold" ++ "/" ++ showZ 5
                  ++ separatorOf "placehold" ++ showZ 5)%string)
  /\ (forall url,
        Legacy.image_placeholder Config.emptyEnv (VStr "placehold")
          (VInt 5) VUndefined
        <> Legacy.Returned url).
Proof.
  apply (legacy_url Config.emptyEnv DEFAULT_CONSTRAINTS "placehold" 5 5).
  - reflexivity.
  - unfold exactBounds, DEFAULT_CONSTRAINTS. cbn [maxWidth maxHeight]. lia.
  - left. reflexivity.
Defined.

(** X24. The legacy entry point and the generator.  Whenever the generator
    succeeds on a request without options, the legacy entry point, called
    under a configuration that gives the same constraints, returns a URL
    too: the same URL when the height differs from the width, and the
    generator's URL followed by the separator and the height when the two
    are equal (the generator then writes the width alone). *)
Theorem legacy_agrees_with_generator (env : Config.Env) (h : Heap)
        (provider : string) (w n : Z) (r : Result.t) :
  Config.createValidationConstraints env = Config.Configured (constraints h) ->
  valueOf (PlaceholderGenerator.generatePlaceholder
             (Examples.request provider w (Some n))) h = Ok r ->
  Legacy.image_placeholder env (VStr provider) (VInt w) (VInt n)
  = Legacy.Returned
      (if n =? w
       then Result.url r ++ separatorOf provider ++ showZ n
       else Result.url r).
Proof.
  intros Hc H. apply generatePlaceholder_ok in H.
  destruct H as [Hv [Hd [Hb _]]].
  unfold Examples.request in Hv, Hd, Hb.
  cbn [Params.provider Params.width Params.height Params.placeholdOptions
       Params.picsumOptions optInt] in Hv, Hd, Hb.
  apply validateDimensions_ok in Hd as [_ Hd].
  destruct Hd as [Hd|[n' [[= <-] Hn]]]; [discriminate Hd|].
  assert (Hz : (n =? 0) = false) by (apply Z.eqb_neq; lia).
  assert (Hp : isProvider (VStr provider)).
  { destruct Hb as [[Hp _]|[Hp _]]; [now left | now right]. }
  rewrite (legacy_returns _ _ _ _ _ Hc Hp Hv). f_equal.
  destruct Hb as [[[= ->] [_ Hu]]|[[= ->] [_ Hu]]]; rewrite Hu;
    unfold PlaceholdUrlBuilder.composeUrl, PicsumUrlBuilder.composeUrl;
    cbn [PlaceholdOptions.get PicsumOptions.get truthyS truthy strict_eq
         andb negb toString baseUrl placeholdBuilder picsumBuilder
         List.length Z.of_nat Z.ltb Z.compare];
    rewrite Hz; cbn [negb andb];
    destruct (n =? w); cbn [negb];
    rewrite ?append_assoc; reflexivity.
Qed.

Lemma legacy_agrees_with_generator_witness :
  Legacy.image_placeholder Config.emptyEnv (VStr "lorem-picsum")
    (VInt 400) (VInt 400)
  = Legacy.Returned
      (if 400 =? 400
       then "https://picsum.photos/400" ++ separatorOf "lorem-picsum"
            ++ showZ 400
       else "https://picsum.photos/400").
Proof.
  apply (legacy_agrees_with_generator Config.emptyEnv initialHeap
           "lorem-picsum" 400 400
           {| Result.url := "https://picsum.photos/400";
              Result.provider := VStr "lorem-picsum";
              Result.dimensions :=
                {| dim_width := VInt 400; dim_height := VInt 400 |};
              Result.appliedOptions :=
                {| applied_placehold := None; applied_picsum := None |} |});
    reflexivity.
Defined.

End ConfigurationAndLegacy.

(** ** Requests without options *)

Section PlainRequests.

(** X4. The URL of a request without options, for either provider and under
    any constraints: whenever the generation succeeds, the URL is the base
    URL of the provider and the width, followed by the separator (x for
    placehold, a slash for lorem-picsum) and the height when a height is
    given and differs from the width; the result repeats the width, and the
    height it reports is the width when none is given. *)
Theorem plain_request_url (h : Heap) (provider : string) (w : Z)
        (hh : option Z) (r : Result.t) :
  valueOf (PlaceholderGenerator.generatePlaceholder
             (Examples.request provider w hh)) h = Ok r ->
  Result.url r
  = (baseOf provider ++ "/" ++ showZ w
     ++ match hh with
        | Some n => if (n =? w)%Z then EmptyString
                    else separatorOf provider ++ showZ n
        | None => EmptyString
        end)%string
  /\ Result.dimensions r
     = {| dim_width := VInt w;
          dim_height := VInt match hh with Some n => n | None => w end |}.
Proof.
  intros H. apply generatePlaceholder_ok in H.
  destruct H as [_ [Hd [Hb [_ [Hdim _]]]]].
  unfold Examples.request in Hd, Hb, Hdim.
  cbn [Params.provider Params.width Params.height Params.placeholdOptions
       Params.picsumOptions] in Hd, Hb, Hdim.
  apply validateDimensions_int in Hd as [Hw Hh].
  unfold builderRange in Hw.
  assert (Hheight : or_else (optInt hh) (VInt w)
                    = VInt match hh with Some n => n | None => w end).
  { destruct hh as [n|]; cbn in *; [|now destruct (Z.eqb_spec w 0); [lia|]].
    unfold builderRange in Hh. unfold or_else. cbn.
    destruct (Z.eqb_spec n 0); [lia|reflexivity]. }
  split; [|now rewrite Hdim, Hheight].
  destruct Hb as [[[= ->] [_ Hu]]|[[= ->] [_ Hu]]]; rewrite Hu;
    unfold PlaceholdUrlBuilder.composeUrl, PicsumUrlBuilder.composeUrl;
    cbn [PlaceholdOptions.get PicsumOptions.get truthyS truthy strict_eq
         andb negb toString baseUrl placeholdBuilder picsumBuilder
         List.length Z.of_nat Z.ltb Z.compare];
    (destruct hh as [n|]; cbn [optInt truthy strict_eq andb negb toString];
     [assert (Hz : (n =? 0) = false)
        by (apply Z.eqb_neq; unfold builderRangeOpt, builderRange in Hh; lia);
      rewrite Hz; cbn [negb andb]; destruct (n =? w); cbn [negb]|]);
    rewrite ?append_assoc, ?append_empty_r; reflexivity.
Qed.

Lemma plain_request_url_witness :
  "https://picsum.photos/400/300"
  = (baseOf "lorem-picsum" ++ "/" ++ showZ 400
     ++ (if (300 =? 400)%Z then EmptyString
         else separatorOf "lorem-picsum" ++ showZ 300))%string
  /\ {| dim_width := VInt 400; dim_height := VInt 300 |}
     = {| dim_width := VInt 400; dim_height := VInt 300 |}.
Proof.
  apply (plain_request_url initialHeap "lorem-picsum" 400 (Some 300)
           {| Result.url := "https://picsum.photos/400/300";
              Result.provider := VStr "lorem-picsum";
              Result.dimensions :=
                {| dim_width := VInt 400; dim_height := VInt 300 |};
              Result.appliedOptions :=
                {| applied_placehold := None; applied_picsum := None |} |}).
  reflexivity.
Defined.

End PlainRequests.
